(** * A shallow embedding of the J-Archive scraper (src/scaper/scrape.py)

    The development follows the Python module function by function:
    - Python [str] values are [string]s; a character is a code point below
      256, where [\s], [\d], [str.strip] and [int] are as in full Unicode;
    - [Optional[T]] is [option T], with [None] for Python's [None];
    - operations that can raise ([int], [str] of an [int], list indexing,
      [datetime.strptime], the file operations) return [exn], and
      [try ... except ValueError] is [try_except_ValueError];
    - the [re] calls are interpreted by a small backtracking matcher over a
      regex syntax tree, one tree per pattern literal of the source;
    - a BeautifulSoup [Tag] is an element together with the chain of its
      parents, and [select]/[select_one] filter its descendants in document
      order by a CSS selector syntax tree;
    - the metadata dict is a [gmap string string]; a clue row, whose four keys
      are fixed, is a record;
    - [write_csv] takes the file operations of the environment ([open],
      [write], [close]) as a record, each of which may raise, and returns the
      text it writes through a [csv.DictWriter] of the default dialect.

    Conventions taken from the interpreter and not from the module: [int]
    and [str] refuse conversions of more than 4300 digits, the default of
    CPython 3.11; [strftime] writes the year as the C library of Linux does,
    without padding; month names are those of the C/English locale; the
    classes of the strings of a parsed document and the strings [get_text]
    reads are those of BeautifulSoup 4.11 and later. *)

From Stdlib Require Import String Ascii ZArith List Lia Bool.
From stdpp Require Import base gmap strings.
Import ListNotations.

Local Open Scope Z_scope.

(** ** Exceptions *)

Inductive pyexc : Type := ValueError | IndexError | OSError.

Inductive exn (A : Type) : Type :=
| Ok (a : A)
| Raise (e : pyexc).
Arguments Ok {A} a.
Arguments Raise {A} e.

#[global] Instance exn_ret : MRet exn := fun _ a => Ok a.

#[global] Instance exn_bind : MBind exn := fun _ _ f m =>
  match m with
  | Ok a => f a
  | Raise e => Raise e
  end.

#[global] Instance exn_fmap : FMap exn := fun _ _ f m =>
  match m with
  | Ok a => Ok (f a)
  | Raise e => Raise e
  end.

(** [try: body except ValueError: handler] *)
Definition try_except_ValueError {A : Type} (body : exn A) (handler : exn A) : exn A :=
  match body with
  | Raise ValueError => handler
  | other => other
  end.

(** ** Python strings *)

Module Py.

(** [str.isspace] on one character, which is also what [\s] matches in a
    [str] pattern: TAB..CR, FS..US, SPACE, NEL and NBSP. *)
Definition isspace (c : ascii) : bool :=
  let n := N_of_ascii c in
  ((9 <=? n) && (n <=? 13) || (28 <=? n) && (n <=? 32) || (n =? 133) || (n =? 160))%N.

(** [\d] in a [str] pattern: the decimal digits. *)
Definition isdigit (c : ascii) : bool :=
  let n := N_of_ascii c in ((48 <=? n) && (n <=? 57))%N.

Definition digit_value (c : ascii) : Z := Z.of_N (N_of_ascii c) - 48.

Fixpoint drop (n : nat) (s : string) : string :=
  match n, s with
  | O, _ => s
  | S _, EmptyString => EmptyString
  | S m, String _ s' => drop m s'
  end.

Fixpoint take (n : nat) (s : string) : string :=
  match n, s with
  | O, _ => EmptyString
  | S _, EmptyString => EmptyString
  | S m, String c s' => String c (take m s')
  end.

(** Number of leading characters of [s] that satisfy [p]. *)
Fixpoint span (p : ascii -> bool) (s : string) : nat :=
  match s with
  | String c s' => if p c then S (span p s') else O
  | EmptyString => O
  end.

Fixpoint forallb (p : ascii -> bool) (s : string) : bool :=
  match s with
  | EmptyString => true
  | String c s' => p c && forallb p s'
  end.

Fixpoint existsb (p : ascii -> bool) (s : string) : bool :=
  match s with
  | EmptyString => false
  | String c s' => p c || existsb p s'
  end.

Fixpoint filter (p : ascii -> bool) (s : string) : string :=
  match s with
  | EmptyString => EmptyString
  | String c s' => if p c then String c (filter p s') else filter p s'
  end.

(** Last character, if any. *)
Fixpoint last (s : string) : option ascii :=
  match s with
  | EmptyString => None
  | String c EmptyString => Some c
  | String _ s' => last s'
  end.

Definition head (s : string) : option ascii :=
  match s with
  | EmptyString => None
  | String c _ => Some c
  end.

(** [s.startswith(p)], returning what follows the prefix. *)
Fixpoint strip_prefix (p s : string) : option string :=
  match p, s with
  | EmptyString, _ => Some s
  | String a p', String b s' => if Ascii.eqb a b then strip_prefix p' s' else None
  | String _ _, EmptyString => None
  end.

(** [s.endswith(suffix)] *)
Definition endswith (s suffix : string) : bool :=
  String.eqb (drop (String.length s - String.length suffix) s) suffix
  && (String.length suffix <=? String.length s)%nat.

Fixpoint lstrip (s : string) : string :=
  match s with
  | String c s' => if isspace c then lstrip s' else s
  | EmptyString => EmptyString
  end.

Fixpoint rstrip (s : string) : string :=
  match s with
  | EmptyString => EmptyString
  | String c s' =>
      match rstrip s' with
      | EmptyString => if isspace c then EmptyString else String c EmptyString
      | r => String c r
      end
  end.

(** [s.strip()] *)
Definition strip (s : string) : string := rstrip (lstrip s).

(** [s.replace(c, empty)] for a one-character [c]. *)
Definition remove_char (c : ascii) (s : string) : string :=
  filter (fun x => negb (Ascii.eqb x c)) s.

(** [sep.join(parts)] *)
Fixpoint join (sep : string) (parts : list string) : string :=
  match parts with
  | [] => EmptyString
  | [p] => p
  | p :: rest => p +:+ sep +:+ join sep rest
  end.

(** Truth value of a [str]: non-empty. *)
Definition truthy (s : string) : bool :=
  match s with
  | EmptyString => false
  | String _ _ => true
  end.

(** The number written by the digits of [s], continuing from [acc]. *)
Fixpoint digits_value (acc : Z) (s : string) : Z :=
  match s with
  | EmptyString => acc
  | String c s' => digits_value (10 * acc + digit_value c) s'
  end.

(** The digits of a decimal literal, with single underscores allowed between
    digits; [seen] tells whether the previous character was a digit. *)
Fixpoint int_digits (acc : Z) (seen : bool) (s : string) : option Z :=
  match s with
  | EmptyString => if seen then Some acc else None
  | String c s' =>
      if isdigit c then int_digits (10 * acc + digit_value c) true s'
      else if Ascii.eqb c "_" && seen then int_digits acc false s'
      else None
  end.

(** The whitespace [int] skips around a literal: TAB..CR, SPACE, NEL and
    NBSP.  FS..US are whitespace for [str.strip] and [\s], not for [int]. *)
Definition int_space (c : ascii) : bool :=
  let n := N_of_ascii c in
  ((9 <=? n) && (n <=? 13) || (n =? 32) || (n =? 133) || (n =? 160))%N.

(** [s] without its trailing characters that satisfy [p]. *)
Fixpoint rstrip_with (p : ascii -> bool) (s : string) : string :=
  match s with
  | EmptyString => EmptyString
  | String c s' =>
      match rstrip_with p s' with
      | EmptyString => if p c then EmptyString else String c EmptyString
      | r => String c r
      end
  end.

(** [s] without its leading and trailing characters that satisfy [p]. *)
Definition strip_with (p : ascii -> bool) (s : string) : string :=
  rstrip_with p (drop (span p s) s).

(** The interpreter's limit on the number of digits of a conversion between
    [int] and [str], [sys.get_int_max_str_digits()], at its default. *)
Definition int_max_str_digits : Z := 4300.

(** Number of digits of a literal; underscores and sign do not count. *)
Definition count_digits (s : string) : Z :=
  Z.of_nat (String.length (filter isdigit s)).

(** [int(s)] in base 10: surrounding whitespace, an optional sign, digits.
    A literal that is malformed or has more digits than the limit is a
    [ValueError]. *)
Definition int (s : string) : exn Z :=
  let t := strip_with int_space s in
  let '(negative, d) := match t with
                        | String "+" d => (false, d)
                        | String "-" d => (true, d)
                        | _ => (false, t)
                        end in
  match int_digits 0 false d with
  | Some n =>
      if int_max_str_digits <? count_digits d then Raise ValueError
      else Ok (if negative then - n else n)
  | None => Raise ValueError
  end.

(** [l[i]], with negative indices counted from the end. *)
Definition index {A : Type} (l : list A) (i : Z) : exn A :=
  let j := if i <? 0 then i + Z.of_nat (length l) else i in
  if j <? 0 then Raise IndexError
  else match nth_error l (Z.to_nat j) with
       | Some x => Ok x
       | None => Raise IndexError
       end.

(** The character of a decimal digit [k]. *)
Definition digit_char (k : Z) : ascii := ascii_of_N (Z.to_N (48 + k)).

(** The decimal digits of [n >= 0] in front of [acc]; [fuel] bounds the
    number of digits. *)
Fixpoint str_digits (fuel : nat) (n : Z) (acc : string) : string :=
  match fuel with
  | O => acc
  | S f =>
      let acc' := String (digit_char (n mod 10)) acc in
      if n <? 10 then acc' else str_digits f (n / 10) acc'
  end.

(** [n >= 0] in decimal, without leading zeros; a number has no more
    decimal digits than binary ones. *)
Definition decimal (n : Z) : string :=
  str_digits (S (Z.to_nat (Z.log2 n))) n EmptyString.

(** [str(n)] for an [int]: a [ValueError] when [n] has more digits than the
    limit. *)
Definition str (n : Z) : exn string :=
  let digits := decimal (Z.abs n) in
  if int_max_str_digits <? Z.of_nat (String.length digits) then Raise ValueError
  else Ok (if n <? 0 then String "-" digits else digits).

End Py.

(** ** Regular expressions *)

Module Re.

(** The fragment of [re] syntax used by the scraper.  Repetition is greedy
    and only ever applied to a character class. *)
Inductive regex : Type :=
| Lit (s : string)
| Cls (p : ascii -> bool) (lo : nat) (hi : option nat)
| Seq (r1 r2 : regex)
| Alt (r1 r2 : regex)
| Grp (r : regex).

Definition cap (hi : option nat) (n : nat) : nat :=
  match hi with
  | Some h => Nat.min h n
  | None => n
  end.

Section Matcher.
Context {A : Type}.

(** Try [f n], then [f (n-1)], ... down to [f lo]: the order in which a
  greedy repetition gives characters back. *)
Fixpoint backtrack (n lo : nat) (f : nat -> option A) : option A :=
  if (n <? lo)%nat then None
  else match f n with
     | Some a => Some a
     | None => match n with
               | O => None
               | S m => backtrack m lo f
               end
     end.

(** Backtracking matcher in continuation-passing style: [k] receives the
    unconsumed input and the groups captured so far (in closing order,
    which is the opening order as no pattern nests groups). *)
Fixpoint match_re (r : regex) (s : string) (caps : list string)
         (k : string -> list string -> option A) : option A :=
  match r with
  | Lit l =>
      match Py.strip_prefix l s with
      | Some rest => k rest caps
      | None => None
      end
  | Cls p lo hi =>
      backtrack (cap hi (Py.span p s)) lo (fun n => k (Py.drop n s) caps)
  | Seq r1 r2 =>
      match_re r1 s caps (fun s1 caps1 => match_re r2 s1 caps1 k)
  | Alt r1 r2 =>
      match match_re r1 s caps k with
      | Some a => Some a
      | None => match_re r2 s caps k
      end
  | Grp r1 =>
      match_re r1 s caps (fun s1 caps1 =>
        k s1 (caps1 ++ [Py.take (String.length s - String.length s1) s]))
  end.
End Matcher.

(** A match anchored at the start of [s]: its length and its groups. *)
Definition match_at (r : regex) (s : string) : option (nat * list string) :=
  match_re r s [] (fun rest caps =>
    Some ((String.length s - String.length rest)%nat, caps)).

(** [re.search(r, s)]: the groups of the leftmost match. *)
Fixpoint search (r : regex) (s : string) : option (list string) :=
  match match_at r s with
  | Some (_, caps) => Some caps
  | None => match s with
            | EmptyString => None
            | String _ s' => search r s'
            end
  end.

(** [m.group(i)] for [i >= 1]. *)
Definition group (caps : list string) (i : nat) : string :=
  nth (i - 1) caps EmptyString.

(** Successive non-overlapping matches, scanning left to right; [skip] counts
    the characters still covered by the previous match. *)
Fixpoint finditer (r : regex) (s : string) (skip : nat) : list (list string) :=
  match s with
  | EmptyString =>
      match skip, match_at r EmptyString with
      | O, Some (_, caps) => [caps]
      | _, _ => []
      end
  | String _ s' =>
      match skip with
      | S n => finditer r s' n
      | O => match match_at r s with
             | Some (len, caps) => caps :: finditer r s' (len - 1)
             | None => finditer r s' 0
             end
      end
  end.

(** [re.findall(r, s)] for a pattern with exactly one group. *)
Definition findall (r : regex) (s : string) : list string :=
  map (fun caps => group caps 1) (finditer r s 0).

(** [re.sub(r, repl, s)] for a literal replacement. *)
Fixpoint sub_from (r : regex) (repl : string) (s : string) (skip : nat) : string :=
  match s with
  | EmptyString =>
      match skip, match_at r EmptyString with
      | O, Some _ => repl
      | _, _ => EmptyString
      end
  | String c s' =>
      match skip with
      | S n => sub_from r repl s' n
      | O => match match_at r s with
             | Some (O, _) => repl +:+ String c (sub_from r repl s' 0)
             | Some (S n, _) => repl +:+ sub_from r repl s' n
             | None => String c (sub_from r repl s' 0)
             end
      end
  end.

Definition sub (r : regex) (repl s : string) : string := sub_from r repl s 0.

Definition plus (p : ascii -> bool) : regex := Cls p 1 None.
Definition star (p : ascii -> bool) : regex := Cls p 0 None.
Definition exactly (n : nat) (p : ascii -> bool) : regex := Cls p n (Some n).
Definition is_char (c : ascii) : ascii -> bool := Ascii.eqb c.

(** A concatenation [r1 r2 ... rn]. *)
Fixpoint seq (rs : list regex) : regex :=
  match rs with
  | [] => Lit EmptyString
  | [r] => r
  | r :: rest => Seq r (seq rest)
  end.

(** [re.fullmatch(r, s)]: a match of the whole of [s], with its groups. *)
Definition fullmatch (r : regex) (s : string) : option (list string) :=
  match_re r s [] (fun rest caps =>
    match rest with
    | EmptyString => Some caps
    | String _ _ => None
    end).

(** An alternation of literals, [l1|l2|...|ln]. *)
Fixpoint alt_lits (ls : list string) : regex :=
  match ls with
  | [] => Cls (fun _ => false) 1 None
  | [l] => Lit l
  | l :: rest => Alt (Lit l) (alt_lits rest)
  end.

End Re.

(** ** Helpers of the scraper *)

(** The pattern [\s+]. *)
Definition ws_run : Re.regex := Re.plus Py.isspace.

(** [squish]: collapse whitespace and strip. *)
Definition squish (text : option string) : string :=
  match text with
  | None => EmptyString
  | Some t => Py.strip (Re.sub ws_run " " t)
  end.

Definition digit_or_comma (c : ascii) : bool := Py.isdigit c || Ascii.eqb c ",".

(** The pattern of [parse_money]: one group, a digit followed by any number
    of digits and commas. *)
Definition money_group : Re.regex :=
  Re.Grp (Re.seq [Re.exactly 1 Py.isdigit; Re.star digit_or_comma]).

Section ParseMoney.
(** The builtin [int], as the interpreter provides it. *)
Variable int_ : string -> exn Z.

Definition parse_money_with (raw : option string) : exn (option Z) :=
  match raw with
  | None => Ok None
  | Some raw =>
      if negb (Py.truthy raw) then Ok None
      else
        let digits := Re.findall money_group raw in
        match digits with
        | [] => Ok None
        | _ =>
            last_group ← Py.index digits (-1);
            let amount := Py.remove_char "," last_group in
            try_except_ValueError
              (n ← int_ amount; Ok (Some n))
              (Ok None)
        end
  end.
End ParseMoney.

(** [parse_money]: extract a dollar amount as an integer. *)
Definition parse_money : option string -> exn (option Z) := parse_money_with Py.int.

(** ** The parsed document *)

Module Bs4.

(** What the scraper reads of an element: its name, its [id] and its
    [class] list. *)
Record attrs : Type := mk_attrs {
  name : string;
  id : option string;
  class_ : list string
}.

(** The subclasses of [NavigableString] a parsed document can hold: the
    strings of markup that is not text, and the strings the parser puts
    below a [style], [script], [template], [rt] or [rp] element. *)
Inductive string_class : Type :=
| CData | Comment | Declaration | Doctype | ProcessingInstruction
| Stylesheet | Script | TemplateString | RubyTextString | RubyParenthesisString.

(** A node is a plain [NavigableString], a string of one of the subclasses,
    or an element. *)
#[warnings="-register-all"]
Inductive node : Type :=
| NavigableString (s : string)
| SubclassString (k : string_class) (s : string)
| Element (a : attrs) (children : list node).

(** A [Tag] is a handle on an element of the tree: the element and the
    chain of its parents, nearest first. *)
Record Tag : Type := mk_Tag {
  tag_attrs : attrs;
  contents : list node;
  parents : list attrs
}.

(** The [BeautifulSoup] object itself, root of the tree. *)
Definition BeautifulSoup (top : list node) : Tag :=
  {| tag_attrs := mk_attrs "[document]" None []; contents := top; parents := [] |}.

(** Elements below a node, in document order, each with its parents. *)
Fixpoint elements_of (ps : list attrs) (n : node) : list Tag :=
  match n with
  | NavigableString _ | SubclassString _ _ => []
  | Element a cs =>
      mk_Tag a cs ps :: flat_map (elements_of (a :: ps)) cs
  end.

(** [tag.descendants], restricted to elements. *)
Definition descendants (t : Tag) : list Tag :=
  flat_map (elements_of (tag_attrs t :: parents t)) (contents t).

(** [builder.string_containers] of the HTML tree builders: the class of
    the strings of an element that holds something other than text. *)
Definition string_containers (tag_name : string) : option string_class :=
  if String.eqb tag_name "rt" then Some RubyTextString
  else if String.eqb tag_name "rp" then Some RubyParenthesisString
  else if String.eqb tag_name "style" then Some Stylesheet
  else if String.eqb tag_name "script" then Some Script
  else if String.eqb tag_name "template" then Some TemplateString
  else None.

Definition string_class_eqb (a b : string_class) : bool :=
  match a, b with
  | CData, CData | Comment, Comment | Declaration, Declaration
  | Doctype, Doctype | ProcessingInstruction, ProcessingInstruction
  | Stylesheet, Stylesheet | Script, Script | TemplateString, TemplateString
  | RubyTextString, RubyTextString
  | RubyParenthesisString, RubyParenthesisString => true
  | _, _ => false
  end.

(** [tag.interesting_string_types], as a test on the class of a string
    ([None] for a plain [NavigableString]): the class of its own strings for
    an element of [string_containers], plain strings and CDATA sections for
    any other. *)
Definition interesting_string_types (t : Tag) (cls : option string_class) : bool :=
  match string_containers (name (tag_attrs t)) with
  | Some k =>
      match cls with
      | Some k' => string_class_eqb k k'
      | None => false
      end
  | None =>
      match cls with
      | None | Some CData => true
      | Some _ => false
      end
  end.

(** The strings below a node whose class passes [types], in document
    order. *)
Fixpoint strings_of (types : option string_class -> bool) (n : node) : list string :=
  match n with
  | NavigableString s => if types None then [s] else []
  | SubclassString k s => if types (Some k) then [s] else []
  | Element _ cs => flat_map (strings_of types) cs
  end.

(** [tag._all_strings()] with the default [types]: the strings below the
    tag that are of its interesting types. *)
Definition all_strings (t : Tag) : list string :=
  flat_map (strings_of (interesting_string_types t)) (contents t).

(** [tag.get_text()] *)
Definition get_text (t : Tag) : string :=
  Py.join EmptyString (all_strings t).

(** [tag.get_text(separator=sep, strip=True)] *)
Definition get_text_strip (sep : string) (t : Tag) : string :=
  Py.join sep (List.filter Py.truthy (map Py.strip (all_strings t))).

(** *** CSS selectors *)

(** A compound selector: an optional type, [#id] and [.class]. *)
Record compound : Type := mk_compound {
  sel_name : option string;
  sel_id : option string;
  sel_class : option string
}.

Inductive complex : Type :=
| Compound (c : compound)
| Descendant (anc : complex) (c : compound)      (* [anc c] *)
| Child (par : complex) (c : compound).          (* [par > c] *)

(** A selector list, [x, y]. *)
Definition selector : Type := list complex.

Definition opt_matches (want : option string) (have : string -> bool) : bool :=
  match want with
  | None => true
  | Some w => have w
  end.

Definition matches_compound (c : compound) (a : attrs) : bool :=
  opt_matches (sel_name c) (String.eqb (name a))
  && opt_matches (sel_id c)
       (fun w => match id a with Some i => String.eqb i w | None => false end)
  && opt_matches (sel_class c)
       (fun w => List.existsb (String.eqb w) (class_ a)).

Fixpoint matches_complex (x : complex) (a : attrs) (ps : list attrs) : bool :=
  match x with
  | Compound c => matches_compound c a
  | Descendant anc c =>
      matches_compound c a &&
      (fix some_ancestor (l : list attrs) : bool :=
         match l with
         | [] => false
         | p :: l' => matches_complex anc p l' || some_ancestor l'
         end) ps
  | Child par c =>
      matches_compound c a &&
      match ps with
      | [] => false
      | p :: ps' => matches_complex par p ps'
      end
  end.

Definition matches (sel : selector) (t : Tag) : bool :=
  List.existsb (fun x => matches_complex x (tag_attrs t) (parents t)) sel.

(** [tag.select(sel)] *)
Definition select (sel : selector) (t : Tag) : list Tag :=
  List.filter (matches sel) (descendants t).

(** [tag.select_one(sel)] *)
Definition select_one (sel : selector) (t : Tag) : option Tag :=
  List.head (select sel t).

Definition by_name (n : string) : compound := mk_compound (Some n) None None.
Definition by_id (i : string) : compound := mk_compound None (Some i) None.
Definition by_class (c : string) : compound := mk_compound None None (Some c).
Definition name_class (n c : string) : compound := mk_compound (Some n) None (Some c).

End Bs4.

Import Bs4.

(** The selectors of the module, named after their text. *)
Module Sel.
(** [tr > td.category] *)
Definition category_cells : selector :=
  [Child (Compound (by_name "tr")) (name_class "td" "category")].
(** [.category_name] *)
Definition category_name : selector := [Compound (by_class "category_name")].
(** [tr] *)
Definition tr : selector := [Compound (by_name "tr")].
(** [td.clue] *)
Definition td_clue : selector := [Compound (name_class "td" "clue")].
(** [table] *)
Definition table : selector := [Compound (by_name "table")].
(** [.clue_header .clue_value, .clue_header .clue_value_daily_double] *)
Definition clue_value : selector :=
  [Descendant (Compound (by_class "clue_header")) (by_class "clue_value");
   Descendant (Compound (by_class "clue_header")) (by_class "clue_value_daily_double")].
(** [td.clue_text] *)
Definition td_clue_text : selector := [Compound (name_class "td" "clue_text")].
(** [em.correct_response] *)
Definition correct_response : selector := [Compound (name_class "em" "correct_response")].
(** [table.final_round] *)
Definition final_round : selector := [Compound (name_class "table" "final_round")].
(** [#clue_FJ] and [#clue_FJ_r] *)
Definition clue_FJ : selector := [Compound (by_id "clue_FJ")].
Definition clue_FJ_r : selector := [Compound (by_id "clue_FJ_r")].
(** [#jeopardy_round table.round] and [#double_jeopardy_round table.round] *)
Definition jeopardy_round : selector :=
  [Descendant (Compound (by_id "jeopardy_round")) (name_class "table" "round")].
Definition double_jeopardy_round : selector :=
  [Descendant (Compound (by_id "double_jeopardy_round")) (name_class "table" "round")].
(** [.game_comments, .game_comment] *)
Definition game_comments : selector :=
  [Compound (by_class "game_comments"); Compound (by_class "game_comment")].
(** [h1, .game_title] *)
Definition title : selector :=
  [Compound (by_name "h1"); Compound (by_class "game_title")].
Definition tournament_game : selector := [Compound (by_class "tournament_game")].
Definition celebrity_game : selector := [Compound (by_class "celebrity_game")].
Definition college_game : selector := [Compound (by_class "college_game")].
End Sel.

(** ** Clue extraction *)

(** One output row: the dict with keys topic, money, question, answer. *)
Record ClueRecord : Type := mk_clue {
  topic : string;
  money : option Z;
  question : string;
  answer : string
}.

Definition text_or_blank (el : option Tag) : string :=
  match el with
  | Some el => squish (Some (get_text_strip " " el))
  | None => EmptyString
  end.

Definition extract_answer (clue_answer_td : option Tag) : string :=
  match clue_answer_td with
  | None => EmptyString
  | Some td =>
      let em := select_one Sel.correct_response td in
      text_or_blank em
  end.

(** [for x in xs: body], threading the loop state and stopping at the first
    exception. *)
Fixpoint for_each {St A : Type} (body : St -> A -> exn St) (xs : list A) (st : St)
  : exn St :=
  match xs with
  | [] => Ok st
  | x :: xs' => st' ← body st x; for_each body xs' st'
  end.

(** [for i, x in enumerate(xs): body], counting from [i]. *)
Fixpoint for_enumerate {St A : Type} (body : St -> nat -> A -> exn St)
         (i : nat) (xs : list A) (st : St) : exn St :=
  match xs with
  | [] => Ok st
  | x :: xs' => st' ← body st i x; for_enumerate body (S i) xs' st'
  end.

(** Body of the loop over the [td.clue_text] blocks of a cell; the state is
    the pair [(q_td, a_td)]. *)
Definition clue_text_step (st : option Tag * option Tag) (td : Tag)
  : option Tag * option Tag :=
  let '(q_td, a_td) := st in
  let td_id := default EmptyString (id (tag_attrs td)) in
  if Py.endswith td_id "_r" then (q_td, Some td)
  else (match q_td with
        | Some q => Some q
        | None => Some td
        end, a_td).

(** Body of the loop over the cells of a row; the state is [rows]. *)
Definition parse_cell (categories : list string)
           (rows : list ClueRecord) (col_idx : nat) (cell : Tag)
  : exn (list ClueRecord) :=
  match select_one Sel.table cell with
  | None => Ok rows
  | Some _ =>
      let val_td := select_one Sel.clue_value cell in
      money ← parse_money (Some (text_or_blank val_td));
      let '(q_td, a_td) :=
        fold_left clue_text_step (select Sel.td_clue_text cell) (None, None) in
      let question := text_or_blank q_td in
      let answer := extract_answer a_td in
      topic ← (if (col_idx <? length categories)%nat
               then Py.index categories (Z.of_nat col_idx)
               else Ok EmptyString);
      if Py.truthy question || Py.truthy answer
      then Ok (rows ++ [mk_clue topic money question answer])
      else Ok rows
  end.

(** Body of the loop over the rows of the table. *)
Definition parse_row (categories : list string)
           (rows : list ClueRecord) (tr : Tag) : exn (list ClueRecord) :=
  let clue_cells := select Sel.td_clue tr in
  match clue_cells with
  | [] => Ok rows
  | _ => for_enumerate (parse_cell categories) 0 clue_cells rows
  end.

(** The first loop of [parse_round]: the label of each category cell, blank
    when the cell has no [.category_name]. *)
Definition round_categories (round_table : Tag) : list string :=
  let cat_cells := select Sel.category_cells round_table in
  fold_left (fun categories cat =>
               let name := text_or_blank (select_one Sel.category_name cat) in
               categories ++ [name])
            cat_cells [].

Definition parse_round (round_table : Tag) (round_prefix : string)
  : exn (list ClueRecord) :=
  let rows := [] in
  let categories := round_categories round_table in
  let all_trs := select Sel.tr round_table in
  match all_trs with
  | [] => Ok rows
  | _ => for_each (parse_row categories) (tl all_trs) rows
  end.

Definition parse_final (soup : Tag) : list ClueRecord :=
  let out := [] in
  match select_one Sel.final_round soup with
  | None => out
  | Some final_tbl =>
      let topic := text_or_blank (select_one Sel.category_name final_tbl) in
      let q_td := select_one Sel.clue_FJ final_tbl in
      let a_td := select_one Sel.clue_FJ_r final_tbl in
      let question := text_or_blank q_td in
      let answer := extract_answer a_td in
      if Py.truthy question || Py.truthy answer
      then out ++ [mk_clue topic None question answer]
      else out
  end.

Definition scrape_game_from_soup (soup : Tag) : exn (list ClueRecord) :=
  let data := [] in
  data ← match select_one Sel.jeopardy_round soup with
         | Some j_round => rs ← parse_round j_round "J"; Ok (data ++ rs)
         | None => Ok data
         end;
  data ← match select_one Sel.double_jeopardy_round soup with
         | Some dj_round => rs ← parse_round dj_round "DJ"; Ok (data ++ rs)
         | None => Ok data
         end;
  Ok (data ++ parse_final soup).

(** ** Show metadata *)

(** The part of [datetime] the module uses. *)
Module Datetime.

Record datetime : Type := mk_datetime { year : Z; month : Z; day : Z }.

(** Full month names, as the directive [%B] knows them. *)
Definition month_names : list string :=
  ["January"; "February"; "March"; "April"; "May"; "June"; "July";
   "August"; "September"; "October"; "November"; "December"].

Definition is_leap (y : Z) : bool :=
  (y mod 4 =? 0) && (negb (y mod 100 =? 0) || (y mod 400 =? 0)).

Definition days_in_month (y m : Z) : Z :=
  if m =? 2 then (if is_leap y then 29 else 28)
  else if (m =? 4) || (m =? 6) || (m =? 9) || (m =? 11) then 30
  else 31.

(** The constructor check: a year in [MINYEAR, MAXYEAR] and a day of the
    month that exists. *)
Definition valid_date (y m d : Z) : bool :=
  (1 <=? y) && (y <=? 9999) && (1 <=? m) && (m <=? 12)
  && (1 <=? d) && (d <=? days_in_month y m).

(** Position of a month name, counted from 1. *)
Fixpoint month_number (names : list string) (i : Z) (w : string) : option Z :=
  match names with
  | [] => None
  | n :: rest => if String.eqb n w then Some i else month_number rest (i + 1) w
  end.

(** The format [%B %d %Y] as the pattern [strptime] compiles it to: a month
    name, a day of one or two digits, a year of four digits, separated by
    whitespace. *)
Definition format_B_d_Y : Re.regex :=
  Re.seq [Re.Grp (Re.alt_lits month_names); Re.plus Py.isspace;
          Re.Grp (Re.Cls Py.isdigit 1 (Some 2%nat)); Re.plus Py.isspace;
          Re.Grp (Re.exactly 4 Py.isdigit)].

(** [datetime.strptime(s, fmt)] for the format [%B %d %Y], on the strings
    the scraper builds (a month name as its own pattern matched it, then
    digits): the whole of [s] has to match, the day has to be one [%d]
    accepts (1 to 31), and the fields have to make a date.  Every failure is
    a [ValueError]. *)
Definition strptime_B_d_Y (s : string) : exn datetime :=
  match Re.fullmatch format_B_d_Y s with
  | None => Raise ValueError
  | Some caps =>
      match month_number month_names 1 (Re.group caps 1) with
      | None => Raise ValueError
      | Some m =>
          let d := Py.digits_value 0 (Re.group caps 2) in
          let y := Py.digits_value 0 (Re.group caps 3) in
          if (1 <=? d) && (d <=? 31) && valid_date y m d
          then Ok (mk_datetime y m d)
          else Raise ValueError
      end
  end.

(** The decimal digits of [n], lowest first, [width] of them. *)
Fixpoint digits_rev (width : nat) (n : Z) : list ascii :=
  match width with
  | O => []
  | S w => ascii_of_N (Z.to_N (48 + n mod 10)) :: digits_rev w (n / 10)
  end.

(** [n] in decimal, zero-padded to [width] digits. *)
Definition zero_padded (width : nat) (n : Z) : string :=
  string_of_list_ascii (rev (digits_rev width n)).

(** [d.strftime] for the format [%Y-%m-%d]: the year in decimal as the C
    library writes it, without padding, month and day padded to two
    digits. *)
Definition strftime_Y_m_d (d : datetime) : string :=
  Py.decimal (year d) +:+ "-" +:+ zero_padded 2 (month d) +:+ "-"
  +:+ zero_padded 2 (day d).

End Datetime.

(** [game_id=(\d+)] *)
Definition game_id_re : Re.regex :=
  Re.seq [Re.Lit "game_id="; Re.Grp (Re.plus Py.isdigit)].

(** [(\d{4}-\d{2}-\d{2})] *)
Definition iso_date_re : Re.regex :=
  Re.Grp (Re.seq [Re.exactly 4 Py.isdigit; Re.Lit "-"; Re.exactly 2 Py.isdigit;
                  Re.Lit "-"; Re.exactly 2 Py.isdigit]).

(** [(January|...|December)\s+(\d{1,2}),?\s+(\d{4})] *)
Definition long_date_re : Re.regex :=
  Re.seq [Re.Grp (Re.alt_lits Datetime.month_names); Re.plus Py.isspace;
          Re.Grp (Re.Cls Py.isdigit 1 (Some 2%nat));
          Re.Cls (Re.is_char ",") 0 (Some 1%nat); Re.plus Py.isspace;
          Re.Grp (Re.exactly 4 Py.isdigit)].

Definition weekday_names : list string :=
  ["Monday"; "Tuesday"; "Wednesday"; "Thursday"; "Friday"; "Saturday"; "Sunday"].

(** [(Monday|...|Sunday),\s+] followed by the long-form pattern. *)
Definition title_date_re : Re.regex :=
  Re.seq [Re.Grp (Re.alt_lits weekday_names); Re.Lit ","; Re.plus Py.isspace;
          long_date_re].

(** [metadata.setdefault(k, v)] *)
Definition setdefault (k v : string) (m : gmap string string) : gmap string string :=
  match m !! k with
  | Some _ => m
  | None => <[k := v]> m
  end.

(** Truth value of [metadata.get(k)]. *)
Definition get_truthy (k : string) (m : gmap string string) : bool :=
  match m !! k with
  | Some v => Py.truthy v
  | None => false
  end.

(** The [try] block shared by the two long-form strategies: parse
    [month day year] and store the ISO form, or pass on [ValueError]. *)
Definition store_parsed_date (month day year : string) (metadata : gmap string string)
  : exn (gmap string string) :=
  try_except_ValueError
    (parsed_date ← Datetime.strptime_B_d_Y (month +:+ " " +:+ day +:+ " " +:+ year);
     Ok (<["air_date" := Datetime.strftime_Y_m_d parsed_date]> metadata))
    (Ok metadata).

(** Extract the game id from the URL. *)
Definition set_show_id (url : string) (metadata : gmap string string)
  : gmap string string :=
  match Re.search game_id_re url with
  | Some game_id_match => <["show_id" := Re.group game_id_match 1]> metadata
  | None => metadata
  end.

(** Try to extract the air date from the comments. *)
Definition set_air_date_from_comments (soup : Tag) (metadata : gmap string string)
  : exn (gmap string string) :=
  let air_date_el := select_one Sel.game_comments soup in
  match air_date_el with
  | Some air_date_el =>
      let date_text := get_text air_date_el in
      match Re.search iso_date_re date_text with
      | Some date_match => Ok (<["air_date" := Re.group date_match 1]> metadata)
      | None =>
          match Re.search long_date_re date_text with
          | Some date_match =>
              store_parsed_date (Re.group date_match 1) (Re.group date_match 2)
                                (Re.group date_match 3) metadata
          | None => Ok metadata
          end
      end
  | None => Ok metadata
  end.

(** Try to extract the air date from the title if it was not found earlier. *)
Definition set_air_date_from_title (soup : Tag) (metadata : gmap string string)
  : exn (gmap string string) :=
  let title_el := select_one Sel.title soup in
  match title_el with
  | Some title_el =>
      if negb (get_truthy "air_date" metadata) then
        let title_text := get_text title_el in
        match Re.search title_date_re title_text with
        | Some date_match =>
            store_parsed_date (Re.group date_match 2) (Re.group date_match 3)
                              (Re.group date_match 4) metadata
        | None => Ok metadata
        end
      else Ok metadata
  | None => Ok metadata
  end.

(** Determine the game type. *)
Definition set_game_type (soup : Tag) (metadata : gmap string string)
  : gmap string string :=
  match select_one Sel.tournament_game soup with
  | Some _ => <["game_type" := "Tournament"]> metadata
  | None =>
      match select_one Sel.celebrity_game soup with
      | Some _ => <["game_type" := "Celebrity"]> metadata
      | None =>
          match select_one Sel.college_game soup with
          | Some _ => <["game_type" := "College"]> metadata
          | None => <["game_type" := "Regular"]> metadata
          end
      end
  end.

Definition extract_show_metadata (soup : Tag) (url : string) : exn (gmap string string) :=
  let metadata : gmap string string := ∅ in
  let metadata := set_show_id url metadata in
  metadata ← set_air_date_from_comments soup metadata;
  metadata ← set_air_date_from_title soup metadata;
  let metadata := set_game_type soup metadata in
  let metadata := setdefault "show_id" EmptyString metadata in
  let metadata := setdefault "air_date" EmptyString metadata in
  let metadata := setdefault "game_type" "Regular" metadata in
  Ok metadata.

(** [get_first]: the first element a selector matches. *)
Definition get_first (soup : Tag) (sel : selector) : option Tag :=
  let el := select_one sel soup in
  el.

(** ** Writing the table *)

(** The part of [csv] the module uses: a [DictWriter] over the default
    dialect (comma, double quote doubled inside quoted fields, CR LF after
    each record, quoting only where needed). *)
Module Csv.

Definition dquote : ascii := "034".
Definition CR : ascii := "013".
Definition LF : ascii := "010".

(** A value of a row dict: a [str] or an [int]. *)
Inductive cell : Type :=
| CStr (s : string)
| CInt (n : Z).

(** The text the writer puts out for a value: a [str] as it is, an [int]
    through [str]. *)
Definition cell_text (v : cell) : exn string :=
  match v with
  | CStr s => Ok s
  | CInt n => Py.str n
  end.

(** The texts of the values of a record, left to right, up to the first
    that raises. *)
Fixpoint cell_texts (vs : list cell) : exn (list string) :=
  match vs with
  | [] => Ok []
  | v :: vs' => t ← cell_text v; ts ← cell_texts vs'; Ok (t :: ts)
  end.

(** A character that forces its field into quotes. *)
Definition special (c : ascii) : bool :=
  Ascii.eqb c "," || Ascii.eqb c dquote || Ascii.eqb c CR || Ascii.eqb c LF.

Fixpoint double_quotes (s : string) : string :=
  match s with
  | EmptyString => EmptyString
  | String c s' =>
      if Ascii.eqb c dquote then String dquote (String dquote (double_quotes s'))
      else String c (double_quotes s')
  end.

(** One field of a record; [quote_empty] holds for the empty field of a
    one-field record. *)
Definition write_field (quote_empty : bool) (f : string) : string :=
  if Py.existsb special f || (quote_empty && negb (Py.truthy f))
  then String dquote (double_quotes f +:+ String dquote EmptyString)
  else f.

(** [writer.writerow(fields)], as the text of the record. *)
Definition writerow (fields : list string) : string :=
  let quote_empty := (length fields =? 1)%nat in
  Py.join "," (map (write_field quote_empty) fields) +:+ String CR (String LF EmptyString).

(** [DictWriter.writerow(rowdict)], as the text handed to the file: keys
    outside [fieldnames] are an error, missing ones are written empty. *)
Definition DictWriter_writerow (fieldnames : list string) (rowdict : gmap string cell)
  : exn string :=
  if bool_decide (dom rowdict ⊆ list_to_set fieldnames)
  then fields ← cell_texts (map (fun k => default (CStr EmptyString) (rowdict !! k))
                                fieldnames);
       Ok (writerow fields)
  else Raise ValueError.

(** [DictWriter.writeheader()] *)
Definition DictWriter_writeheader (fieldnames : list string) : exn string :=
  Ok (writerow fieldnames).

End Csv.

Definition fieldnames : list string :=
  ["show_id"; "air_date"; "game_type"; "topic"; "money"; "question"; "answer"].

(** The file operations [write_csv] goes through, as the environment
    provides them; each may raise. *)
Record file_io : Type := mk_file_io {
  (** [open(path, "w", newline="", encoding="utf-8")] *)
  open_w : string -> exn unit;
  (** [f.write(text)], after [written] went to the file *)
  write : string -> string -> exn unit;
  (** [f.close()] *)
  close : exn unit
}.

(** The end of a [with open(...) as f] block: the file is closed whether the
    body raised or not, and what closing raises takes over. *)
Definition with_close {A : Type} (io : file_io) (body : exn A) : exn A :=
  match body with
  | Ok a => _ ← close io; Ok a
  | Raise e =>
      match close io with
      | Ok _ => Raise e
      | Raise e' => Raise e'
      end
  end.

(** One record handed to the file by the writer. *)
Definition write_line (io : file_io) (written line : string) : exn string :=
  _ ← write io written line;
  Ok (written +:+ line).

(** Body of the loop of [write_csv]; the state is the text written so far. *)
Definition write_csv_row (io : file_io) (metadata : gmap string string)
           (written : string) (r : ClueRecord) : exn string :=
  let row : gmap string Csv.cell :=
    <["show_id" := Csv.CStr (default EmptyString (metadata !! "show_id"))]>
    (<["air_date" := Csv.CStr (default EmptyString (metadata !! "air_date"))]>
    (<["game_type" := Csv.CStr (default EmptyString (metadata !! "game_type"))]>
    (<["topic" := Csv.CStr (topic r)]>
    (<["money" := match money r with
                  | Some n => Csv.CInt n
                  | None => Csv.CStr EmptyString
                  end]>
    (<["question" := Csv.CStr (question r)]>
    (<["answer" := Csv.CStr (answer r)]> ∅)))))) in
  line ← Csv.DictWriter_writerow fieldnames row;
  write_line io written line.

(** [write_csv]: the text written to [path]. *)
Definition write_csv (io : file_io) (rows : list ClueRecord) (path : string)
           (metadata : gmap string string) : exn string :=
  _ ← open_w io path;
  with_close io
    (header ← Csv.DictWriter_writeheader fieldnames;
     written ← write_line io EmptyString header;
     for_each (write_csv_row io metadata) rows written).

(** ** Vocabulary of the statements *)

(** Two whitespace characters in a row somewhere in [s]. *)
Fixpoint adjacent_ws (s : string) : bool :=
  match s with
  | String c1 (String c2 _ as s') =>
      Py.isspace c1 && Py.isspace c2 || adjacent_ws s'
  | _ => false
  end.

Definition starts_with_ws (s : string) : bool :=
  match Py.head s with
  | Some c => Py.isspace c
  | None => false
  end.

Definition ends_with_ws (s : string) : bool :=
  match Py.last s with
  | Some c => Py.isspace c
  | None => false
  end.

(** Every whitespace character of [s] is a single space followed by a
    character that is not whitespace, if any. *)
Fixpoint single_spaced (s : string) : bool :=
  match s with
  | EmptyString => true
  | String c s' =>
      (if Py.isspace c then Ascii.eqb c " " && negb (starts_with_ws s') else true)
      && single_spaced s'
  end.

(** [pre] is empty or ends outside a digit group. *)
Definition ends_outside_group (pre : string) : bool :=
  match Py.last pre with
  | Some c => negb (digit_or_comma c)
  | None => true
  end.

(** [post] is empty or starts outside a digit group. *)
Definition starts_outside_group (post : string) : bool :=
  match Py.head post with
  | Some c => negb (digit_or_comma c)
  | None => true
  end.

(** [g] is a digit followed by digits and commas. *)
Definition is_money_group (g : string) : bool :=
  match g with
  | String c g' => Py.isdigit c && Py.forallb digit_or_comma g'
  | EmptyString => false
  end.

Definition raw_has_digit (raw : option string) : bool :=
  match raw with
  | Some s => Py.existsb Py.isdigit s
  | None => false
  end.

(** A run of 4301 digits. *)
Definition long_amount : string := string_of_list_ascii (repeat "1"%char 4301).

(** A [td.clue_text] block is a reveal block when its id ends in [_r]. *)
Definition is_reveal (td : Tag) : bool :=
  Py.endswith (default EmptyString (id (tag_attrs td))) "_r".

(** What [parse_cell] reads off a populated cell. *)
Definition cell_blocks (cell : Tag) : option Tag * option Tag :=
  fold_left clue_text_step (select Sel.td_clue_text cell) (None, None).

Definition cell_question (cell : Tag) : string := text_or_blank (fst (cell_blocks cell)).

Definition cell_answer (cell : Tag) : string := extract_answer (snd (cell_blocks cell)).

Definition cell_money (cell : Tag) : option Z :=
  match parse_money (Some (text_or_blank (select_one Sel.clue_value cell))) with
  | Ok m => m
  | Raise _ => None
  end.

(** The rows a cell, a row of cells and a whole table contribute. *)
Definition cell_records (categories : list string) (col_idx : nat) (cell : Tag)
  : list ClueRecord :=
  match select_one Sel.table cell with
  | None => []
  | Some _ =>
      if Py.truthy (cell_question cell) || Py.truthy (cell_answer cell)
      then [mk_clue (nth col_idx categories EmptyString) (cell_money cell)
                    (cell_question cell) (cell_answer cell)]
      else []
  end.

Fixpoint cells_records (categories : list string) (i : nat) (cells : list Tag)
  : list ClueRecord :=
  match cells with
  | [] => []
  | cell :: cells' =>
      cell_records categories i cell ++ cells_records categories (S i) cells'
  end.

Definition row_records (categories : list string) (tr : Tag) : list ClueRecord :=
  cells_records categories 0 (select Sel.td_clue tr).

Definition round_records (round_table : Tag) : list ClueRecord :=
  flat_map (row_records (round_categories round_table)) (tl (select Sel.tr round_table)).

(** [question or answer] of the emission test, on a row. *)
Definition has_content (r : ClueRecord) : bool :=
  Py.truthy (question r) || Py.truthy (answer r).

(** First block that is not a reveal block, and last reveal block. *)
Definition first_prompt (tds : list Tag) : option Tag :=
  List.find (fun td => negb (is_reveal td)) tds.

Definition last_reveal (tds : list Tag) : option Tag :=
  List.find is_reveal (rev tds).

(** Some cell of the list has a nested content block. *)
Definition some_populated (cells : list Tag) : bool :=
  List.existsb (fun cell => match select_one Sel.table cell with
                            | Some _ => true
                            | None => false
                            end) cells.

(** Sample markup in the layout of a game page. *)
Module Sample.

Definition el (n : string) (i : option string) (cls : list string) (cs : list node) : node :=
  Element (mk_attrs n i cls) cs.

Definition category (label : list node) : node :=
  el "td" None ["category"]
     [el "table" None [] [el "tr" None [] [el "td" None ["category_name"] label]]].

(** A clue cell: a value header, a prompt block and the blocks [extra]. *)
Definition clue (value prompt : string) (extra : list node) : node :=
  el "td" None ["clue"]
     [el "table" None []
         [el "tr" None []
             [el "td" None []
                 [el "div" None ["clue_header"]
                     [el "span" None ["clue_value"] [NavigableString value]]]];
          el "tr" None []
             (el "td" (Some "clue_J_1_1") ["clue_text"] [NavigableString prompt] :: extra)]].

Definition reveal (response : string) : node :=
  el "td" (Some "clue_J_1_1_r") ["clue_text"]
     [NavigableString "(Ken: What is it?) ";
      el "em" None ["correct_response"] [NavigableString response]].

(** A vacated cell. *)
Definition vacated : node := el "td" None ["clue"] [].

(** A round whose last two category labels are blank. *)
Definition round_4_of_6 : Tag :=
  mk_Tag (mk_attrs "table" None ["round"])
    [el "tr" None []
        [category [NavigableString "SCIENCE"]; category [NavigableString "HISTORY"];
         category [NavigableString "OPERA"]; category [NavigableString "RIVERS"];
         category [NavigableString "  "]; el "td" None ["category"] []];
     el "tr" None []
        [clue "$200" "water's formula" [reveal "H2O"];
         vacated;
         clue "$200" "prompt 3" [];
         clue "DD: $1,800" EmptyString [];
         clue "$200" "prompt 5" [reveal "response 5"];
         clue "$200" "prompt 6" [reveal "response 6"]];
     el "tr" None [] [vacated; vacated]]
    [mk_attrs "div" (Some "jeopardy_round") []; mk_attrs "[document]" None []].

(** A round with four category cells and a row of six clue cells. *)
Definition round_4_cells : Tag :=
  mk_Tag (mk_attrs "table" None ["round"])
    [el "tr" None []
        [category [NavigableString "SCIENCE"]; category [NavigableString "HISTORY"];
         category [NavigableString "OPERA"]; category [NavigableString "RIVERS"]];
     el "tr" None []
        [vacated; vacated; vacated; vacated;
         clue "$400" "prompt 5" [reveal "response 5"];
         clue "$400" "prompt 6" [reveal "response 6"]]]
    [mk_attrs "div" (Some "jeopardy_round") []; mk_attrs "[document]" None []].

Definition row (round_table : Tag) (i : nat) : Tag :=
  nth i (tl (select Sel.tr round_table)) round_table.

Definition cell (round_table : Tag) (i j : nat) : Tag :=
  nth j (select Sel.td_clue (row round_table i)) round_table.

(** A page with one round of one category and one clue. *)
Definition minimal_soup : Tag :=
  BeautifulSoup
    [el "h1" None ["game_title"] [NavigableString "Show #9000 - Wednesday, April 10, 2024"];
     el "div" (Some "jeopardy_round") []
        [el "table" None ["round"]
            [el "tr" None [] [category [NavigableString "SCIENCE"]];
             el "tr" None [] [clue "$200" "water's formula" [reveal "H2O"]]]]].

(** A cell with a comment, a script, a style sheet and a ruby annotation
    between its two words. *)
Definition marked_up_cell : Tag :=
  mk_Tag (mk_attrs "td" None ["clue_text"])
    [NavigableString "a";
     SubclassString Comment "b";
     el "script" None [] [SubclassString Script "c"];
     el "style" None [] [SubclassString Stylesheet "d"];
     el "ruby" None [] [el "rt" None [] [SubclassString RubyTextString "e"]];
     NavigableString "f"]
    [mk_attrs "tr" None []].

(** A page whose comments carry an ISO date. *)
Definition aired_soup : Tag :=
  BeautifulSoup
    [el "h1" None [] [NavigableString "Show #9000 - Wednesday, April 10, 2024"];
     el "div" None ["game_comments"; "celebrity_game"]
        [NavigableString "aired 2024-01-15"]].

Definition final_soup : Tag :=
  BeautifulSoup
    [el "table" None ["final_round"]
        [el "tr" None [] [el "td" None ["category_name"] [NavigableString "POETS"]];
         el "tr" None []
            [el "td" (Some "clue_FJ") ["clue_text"] [NavigableString "He wrote it"];
             el "td" (Some "clue_FJ_r") ["clue_text"]
                [el "em" None ["correct_response"] [NavigableString "Who is Keats?"]]]]].

(** Two rows as the extractors give them. *)
Definition two_rows : list ClueRecord :=
  [mk_clue "SCIENCE" (Some 200) "water's formula, in short" "H2O";
   mk_clue "POETS" None "He wrote it" "Who is Keats?"].

End Sample.

(** Some element of the document carries the class [c]. *)
Definition has_marker (soup : Tag) (c : string) : bool :=
  List.existsb (fun t => List.existsb (String.eqb c) (class_ (tag_attrs t)))
               (descendants soup).

(** The text of the comments region and of the title region, when present. *)
Definition comments_text (soup : Tag) : option string :=
  get_text <$> select_one Sel.game_comments soup.

Definition title_text (soup : Tag) : option string :=
  get_text <$> select_one Sel.title soup.

(** Conversion of a long-form date to ISO form, [None] when the fields do
    not make a calendar date. *)
Definition convert_long_date (month day year : string) : option string :=
  match Datetime.strptime_B_d_Y (month +:+ " " +:+ day +:+ " " +:+ year) with
  | Ok d => Some (Datetime.strftime_Y_m_d d)
  | Raise _ => None
  end.

(** The three strategies, each from a text to an optional date. *)
Definition iso_strategy (text : string) : option string :=
  (fun date_match => Re.group date_match 1) <$> Re.search iso_date_re text.

Definition long_strategy (text : string) : option string :=
  date_match ← Re.search long_date_re text;
  convert_long_date (Re.group date_match 1) (Re.group date_match 2) (Re.group date_match 3).

Definition title_strategy (text : string) : option string :=
  date_match ← Re.search title_date_re text;
  convert_long_date (Re.group date_match 2) (Re.group date_match 3) (Re.group date_match 4).

(** First success of a list of attempts, empty when all fail. *)
Fixpoint first_success (attempts : list (option string)) : string :=
  match attempts with
  | [] => EmptyString
  | Some d :: _ => d
  | None :: rest => first_success rest
  end.

(** The text [YYYY-MM-DD] names a calendar date. *)
Definition iso_calendar_date (d : string) : bool :=
  Datetime.valid_date (Py.digits_value 0 (Py.take 4 d))
                      (Py.digits_value 0 (Py.take 2 (Py.drop 5 d)))
                      (Py.digits_value 0 (Py.take 2 (Py.drop 8 d))).

(** The chain as the specification words it: an ISO match that is not a
    calendar date counts as a failed attempt too. *)
Definition air_date_as_specified (soup : Tag) : string :=
  first_success
    [d ← comments_text soup ≫= iso_strategy;
       (if iso_calendar_date d then Some d else None);
     comments_text soup ≫= long_strategy;
     title_text soup ≫= title_strategy].

(** A page whose comments carry an ISO-shaped text that is no date. *)
Definition bad_iso_soup : Tag :=
  BeautifulSoup
    [Sample.el "h1" None [] [NavigableString "Show #9000 - Wednesday, April 10, 2024"];
     Sample.el "div" None ["game_comments"] [NavigableString "aired 2024-13-45"]].

(** The least number of characters a match of [r] consumes. *)
Fixpoint min_len (r : Re.regex) : nat :=
  match r with
  | Re.Lit l => String.length l
  | Re.Cls _ lo _ => lo
  | Re.Seq r1 r2 => min_len r1 + min_len r2
  | Re.Alt r1 r2 => Nat.min (min_len r1) (min_len r2)
  | Re.Grp r1 => min_len r1
  end.

Fixpoint group_free (r : Re.regex) : bool :=
  match r with
  | Re.Lit _ | Re.Cls _ _ _ => true
  | Re.Seq r1 r2 | Re.Alt r1 r2 => group_free r1 && group_free r2
  | Re.Grp _ => false
  end.

(** *** Further vocabulary *)

Definition nonspace (c : ascii) : bool := negb (Py.isspace c).

(** The characters of [s] that are not whitespace, in order. *)
Definition visible (s : string) : string := Py.filter nonspace s.

(** The visible characters of a list of strings, in order. *)
Fixpoint visible_all (l : list string) : string :=
  match l with
  | [] => EmptyString
  | s :: l' => visible s +:+ visible_all l'
  end.

(** [s] is in the form [squish] produces. *)
Definition normal_text (s : string) : bool :=
  single_spaced s && negb (starts_with_ws s) && negb (ends_with_ws s).

(** [s] has one character per entry of [shape], each accepted by its entry. *)
Fixpoint has_shape (shape : list (ascii -> bool)) (s : string) : bool :=
  match shape, s with
  | [], EmptyString => true
  | p :: shape', String c s' => p c && has_shape shape' s'
  | _, _ => false
  end.


(** A dash, two digits, a dash, two digits. *)
Definition month_day_shape : list (ascii -> bool) :=
  [Re.is_char "-"; Py.isdigit; Py.isdigit; Re.is_char "-"; Py.isdigit; Py.isdigit].

(** A year of one to four digits, then a dash, two digits, a dash, two
    digits. *)
Definition date_shape (d : string) : bool :=
  let k := Py.span Py.isdigit d in
  (1 <=? k)%nat && (k <=? 4)%nat && has_shape month_day_shape (Py.drop k d).

(** The text [Y-MM-DD], whatever the number of digits of its year, names a
    calendar date. *)
Definition calendar_date (d : string) : bool :=
  let k := Py.span Py.isdigit d in
  Datetime.valid_date (Py.digits_value 0 (Py.take k d))
                      (Py.digits_value 0 (Py.take 2 (Py.drop (k + 1) d)))
                      (Py.digits_value 0 (Py.take 2 (Py.drop (k + 4) d))).

(** A page whose title carries a date of the year 999. *)
Definition early_soup : Tag :=
  BeautifulSoup
    [Sample.el "h1" None [] [NavigableString "Show #1 - Monday, January 5, 0999"]].

(** The rows of the first round table a selector finds, if any. *)
Definition round_of (sel : selector) (soup : Tag) : list ClueRecord :=
  match select_one sel soup with
  | Some round_table => round_records round_table
  | None => []
  end.

(** Some element of the document is a [table]. *)
Definition has_table (soup : Tag) : bool :=
  List.existsb (fun t => String.eqb (name (tag_attrs t)) "table") (descendants soup).

(** [n] in decimal, whatever its size. *)
Definition int_text (n : Z) : string :=
  if n <? 0 then String "-" (Py.decimal (- n)) else Py.decimal n.

(** The amount of a row is absent or within the limit of [str]. *)
Definition money_fits (r : ClueRecord) : bool :=
  match money r with
  | Some n => Z.abs n <? 10 ^ Py.int_max_str_digits
  | None => true
  end.

(** A file system on which every operation succeeds. *)
Definition working_io : file_io :=
  {| open_w := fun _ => Ok tt; write := fun _ _ => Ok tt; close := Ok tt |}.

(** A file system on which no file can be opened. *)
Definition failing_io : file_io :=
  {| open_w := fun _ => Raise OSError; write := fun _ _ => Ok tt; close := Ok tt |}.

(** The seven fields of the record [write_csv] writes for a row. *)
Definition csv_fields (metadata : gmap string string) (r : ClueRecord) : list string :=
  [default EmptyString (metadata !! "show_id");
   default EmptyString (metadata !! "air_date");
   default EmptyString (metadata !! "game_type");
   topic r;
   match money r with
   | Some n => int_text n
   | None => EmptyString
   end;
   question r;
   answer r].

(** A reader for the text of a CSV file in the default dialect. *)
Module CsvReader.

Inductive state : Type :=
| Field (after_cr : bool)   (* at the start of a field *)
| Unquoted                  (* inside a field without quotes *)
| Quoted                    (* inside a quoted field *)
| QuoteSeen.                (* after a quote inside a quoted field *)

Definition is_eol (c : ascii) : bool := Ascii.eqb c Csv.CR || Ascii.eqb c Csv.LF.

(** [fld] is the field read so far and [rec] the fields of the record
    before it. *)
Fixpoint read_from (st : state) (fld : string) (rec : list string) (s : string)
  : list (list string) :=
  match s with
  | EmptyString =>
      match st, rec with
      | Field _, [] => []
      | _, _ => [rec ++ [fld]]
      end
  | String c s' =>
      match st with
      | Field after_cr =>
          if after_cr && Ascii.eqb c Csv.LF then read_from (Field false) EmptyString rec s'
          else if Ascii.eqb c Csv.dquote then read_from Quoted EmptyString rec s'
          else if Ascii.eqb c "," then read_from (Field false) EmptyString (rec ++ [EmptyString]) s'
          else if is_eol c
               then match rec with
                    | [] => []
                    | _ => rec ++ [EmptyString]
                    end :: read_from (Field (Ascii.eqb c Csv.CR)) EmptyString [] s'
          else read_from Unquoted (String c EmptyString) rec s'
      | Unquoted =>
          if Ascii.eqb c "," then read_from (Field false) EmptyString (rec ++ [fld]) s'
          else if is_eol c
               then (rec ++ [fld]) :: read_from (Field (Ascii.eqb c Csv.CR)) EmptyString [] s'
          else read_from Unquoted (fld +:+ String c EmptyString) rec s'
      | Quoted =>
          if Ascii.eqb c Csv.dquote then read_from QuoteSeen fld rec s'
          else read_from Quoted (fld +:+ String c EmptyString) rec s'
      | QuoteSeen =>
          if Ascii.eqb c Csv.dquote
          then read_from Quoted (fld +:+ String Csv.dquote EmptyString) rec s'
          else if Ascii.eqb c "," then read_from (Field false) EmptyString (rec ++ [fld]) s'
          else if is_eol c
               then (rec ++ [fld]) :: read_from (Field (Ascii.eqb c Csv.CR)) EmptyString [] s'
          else read_from Unquoted (fld +:+ String c EmptyString) rec s'
      end
  end.

(** The records of a text, each a list of fields. *)
Definition read (s : string) : list (list string) :=
  read_from (Field false) EmptyString [] s.

End CsvReader.



(** Somewhere in [url] the text [game_id=] is followed by a digit. *)
Fixpoint has_game_id (url : string) : bool :=
  match Py.strip_prefix "game_id=" url with
  | Some (String c _) => Py.isdigit c
  | _ => false
  end
  || match url with
     | EmptyString => false
     | String _ url' => has_game_id url'
     end.

(** The money of a row is absent or not negative. *)
Definition money_ok (r : ClueRecord) : bool :=
  match money r with
  | Some n => 0 <=? n
  | None => true
  end.

(** The three texts of a row are in the form [squish] produces. *)
Definition texts_normal (r : ClueRecord) : bool :=
  normal_text (topic r) && normal_text (question r) && normal_text (answer r).

(** The topic of a row is empty or one of the labels. *)
Definition topic_among (categories : list string) (r : ClueRecord) : bool :=
  negb (Py.truthy (topic r)) || List.existsb (String.eqb (topic r)) categories.

(** What follows a field: a comma, or the end of the record. *)
Inductive field_end : string -> list string -> string -> list (list string) -> Prop :=
| end_comma (fld : string) (rec : list string) (t : string) :
    field_end (String "," t) rec fld
      (CsvReader.read_from (CsvReader.Field false) EmptyString (rec ++ [fld]) t)
| end_record (fld : string) (rec : list string) (t : string) :
    field_end (String Csv.CR (String Csv.LF t)) rec fld
      ((rec ++ [fld]) :: CsvReader.read_from (CsvReader.Field false) EmptyString [] t).

(** The texts of a list, one after the other. *)
Fixpoint concat_text (l : list string) : string :=
  match l with
  | [] => EmptyString
  | s :: l' => s +:+ concat_text l'
  end.

(** ** Examples *)

Example squish_ex1 : squish (Some ("  a " +:+ String "010" (String "009" "b  c "))) = "a b c".
Proof. reflexivity. Qed.

Example parse_money_DD : parse_money (Some "DD: $1,800") = Ok (Some 1800).
Proof. reflexivity. Qed.

Example parse_money_plain : parse_money (Some "$1,600") = Ok (Some 1600).
Proof. reflexivity. Qed.

Example parse_money_NA : parse_money (Some "N/A") = Ok None.
Proof. reflexivity. Qed.

Example parse_money_two : parse_money (Some "3 for $2,5,,") = Ok (Some 25).
Proof. reflexivity. Qed.

Example text_or_blank_marked_up : text_or_blank (Some Sample.marked_up_cell) = "a f".
Proof. reflexivity. Qed.

Example scrape_minimal :
  scrape_game_from_soup Sample.minimal_soup
  = Ok [mk_clue "SCIENCE" (Some 200) "water's formula" "H2O"].
Proof. vm_compute. reflexivity. Qed.

Example scrape_no_round : scrape_game_from_soup Sample.aired_soup = Ok [].
Proof. vm_compute. reflexivity. Qed.

Example metadata_minimal :
  map_to_list <$> extract_show_metadata Sample.minimal_soup "showgame.php?game_id=8881"
  = Ok [("game_type", "Regular"); ("show_id", "8881"); ("air_date", "2024-04-10")].
Proof. vm_compute. reflexivity. Qed.

Example metadata_aired :
  map_to_list <$> extract_show_metadata Sample.aired_soup "showgame.php"
  = Ok [("game_type", "Celebrity"); ("show_id", EmptyString); ("air_date", "2024-01-15")].
Proof. vm_compute. reflexivity. Qed.

Example write_csv_header_only :
  write_csv working_io [] "clues.csv" ∅
  = Ok ("show_id,air_date,game_type,topic,money,question,answer"
        +:+ String Csv.CR (String Csv.LF EmptyString)).
Proof. reflexivity. Qed.

Example write_csv_open_fails :
  write_csv failing_io Sample.two_rows "clues.csv" ∅ = Raise OSError.
Proof. reflexivity. Qed.

Example strptime_leap :
  Datetime.strptime_B_d_Y "February 29 2024" = Ok (Datetime.mk_datetime 2024 2 29)
  /\ Datetime.strptime_B_d_Y "February 29 2023" = Raise ValueError
  /\ Datetime.strptime_B_d_Y "June 31 2024" = Raise ValueError
  /\ Datetime.strptime_B_d_Y "June 0 2024" = Raise ValueError.
Proof. repeat split. Qed.

(** ** Properties of the string helpers *)

Section StringFacts.

Lemma length_drop (n : nat) (s : string) :
  String.length (Py.drop n s) = (String.length s - n)%nat.
Proof.
  revert s; induction n as [|n IH]; intros [|c s]; simpl; auto with arith.
Qed.

Lemma span_le_length (p : ascii -> bool) (s : string) :
  (Py.span p s <= String.length s)%nat.
Proof.
  induction s as [|c s IH]; simpl; [lia|]. destruct (p c); simpl; lia.
Qed.

Lemma match_at_plus (p : ascii -> bool) (s : string) :
  Re.match_at (Re.plus p) s =
  match Py.span p s with
  | O => None
  | S n => Some (S n, [])
  end.
Proof.
  unfold Re.match_at, Re.plus. cbn [Re.match_re Re.cap].
  pose proof (span_le_length p s) as Hle.
  destruct (Py.span p s) as [|n] eqn:E; [reflexivity|].
  cbn [Re.backtrack Nat.ltb Nat.leb].
  rewrite length_drop. do 2 f_equal. lia.
Qed.

Lemma sub_ws_cons_space (c : ascii) (s : string) :
  Py.isspace c = true ->
  Re.sub_from ws_run " " (String c s) 0 = String " " (Re.sub_from ws_run " " s (Py.span Py.isspace s)).
Proof.
  intros Hc. cbn [Re.sub_from]. unfold ws_run at 1. rewrite match_at_plus.
  cbn [Py.span]. rewrite Hc. reflexivity.
Qed.

Lemma sub_ws_cons_other (c : ascii) (s : string) :
  Py.isspace c = false ->
  Re.sub_from ws_run " " (String c s) 0 = String c (Re.sub_from ws_run " " s 0).
Proof.
  intros Hc. cbn [Re.sub_from]. unfold ws_run at 1. rewrite match_at_plus.
  cbn [Py.span]. rewrite Hc. reflexivity.
Qed.

Lemma sub_ws_single_spaced (s : string) :
  single_spaced (Re.sub_from ws_run " " s 0) = true
  /\ single_spaced (Re.sub_from ws_run " " s (Py.span Py.isspace s)) = true
  /\ starts_with_ws (Re.sub_from ws_run " " s (Py.span Py.isspace s)) = false.
Proof.
  induction s as [|c s (IH0 & IHk & IHh)].
  - repeat split; reflexivity.
  - destruct (Py.isspace c) eqn:Hc.
    + rewrite (sub_ws_cons_space c s Hc). cbn [Py.span]. rewrite Hc.
      cbn [Re.sub_from single_spaced]. rewrite IHk, IHh. repeat split; auto.
    + rewrite (sub_ws_cons_other c s Hc). cbn [Py.span]. rewrite Hc.
      rewrite (sub_ws_cons_other c s Hc).
      cbn [single_spaced]. rewrite Hc, IH0.
      repeat split; auto.
Qed.

Lemma single_spaced_lstrip (s : string) :
  single_spaced s = true -> single_spaced (Py.lstrip s) = true.
Proof.
  induction s as [|c s IH]; simpl; [auto|].
  destruct (Py.isspace c) eqn:Hc.
  - intros H. apply andb_prop in H as [_ H]. auto.
  - simpl. rewrite Hc. auto.
Qed.

Lemma lstrip_no_leading (s : string) : starts_with_ws (Py.lstrip s) = false.
Proof.
  induction s as [|c s IH]; simpl; [reflexivity|].
  destruct (Py.isspace c) eqn:Hc; [exact IH|].
  unfold starts_with_ws. simpl. exact Hc.
Qed.

Lemma rstrip_head (s : string) :
  starts_with_ws s = false -> starts_with_ws (Py.rstrip s) = false.
Proof.
  destruct s as [|c s]; [reflexivity|].
  unfold starts_with_ws. simpl. intros Hc.
  destruct (Py.rstrip s); [rewrite Hc|]; simpl; auto.
Qed.

Lemma rstrip_no_trailing (s : string) : ends_with_ws (Py.rstrip s) = false.
Proof.
  unfold ends_with_ws.
  induction s as [|c s IH]; simpl; [reflexivity|].
  destruct (Py.rstrip s) as [|d r] eqn:E.
  - destruct (Py.isspace c) eqn:Hc; simpl; auto.
  - exact IH.
Qed.

Lemma rstrip_starts (s : string) :
  starts_with_ws (Py.rstrip s) = true -> starts_with_ws s = true.
Proof.
  destruct s as [|c s]; [discriminate|].
  unfold starts_with_ws. simpl.
  destruct (Py.rstrip s); [destruct (Py.isspace c) eqn:Hc|]; simpl; auto.
  congruence.
Qed.

Lemma single_spaced_rstrip (s : string) :
  single_spaced s = true -> single_spaced (Py.rstrip s) = true.
Proof.
  induction s as [|c s IH]; [auto|].
  cbn [single_spaced Py.rstrip].
  intros H. apply andb_prop in H as [Hc Hs]. specialize (IH Hs).
  destruct (Py.rstrip s) as [|d r] eqn:E.
  - destruct (Py.isspace c) eqn:Hsp; [reflexivity|]. cbn. rewrite Hsp. reflexivity.
  - change (single_spaced (String c (String d r)))
      with ((if Py.isspace c
             then Ascii.eqb c " " && negb (starts_with_ws (String d r)) else true)
            && single_spaced (String d r)).
    rewrite IH, andb_true_r.
    destruct (Py.isspace c); [|reflexivity].
    apply andb_prop in Hc as [Heq Hn]. rewrite Heq. simpl.
    destruct (starts_with_ws (String d r)) eqn:Hd; [|reflexivity].
    rewrite <- E in Hd. apply rstrip_starts in Hd. rewrite Hd in Hn. discriminate.
Qed.

Lemma single_spaced_no_adjacent (s : string) :
  single_spaced s = true -> adjacent_ws s = false.
Proof.
  induction s as [|c s IH]; [reflexivity|].
  cbn [single_spaced]. intros H. apply andb_prop in H as [Hc Hs].
  specialize (IH Hs). destruct s as [|d s]; [reflexivity|].
  change (adjacent_ws (String c (String d s)))
    with (Py.isspace c && Py.isspace d || adjacent_ws (String d s)).
  rewrite IH, orb_false_r.
  destruct (Py.isspace c); [|reflexivity].
  apply andb_prop in Hc as [_ Hn]. unfold starts_with_ws in Hn. simpl in Hn.
  apply negb_true_iff in Hn. rewrite Hn. reflexivity.
Qed.

Lemma lstrip_id (s : string) : starts_with_ws s = false -> Py.lstrip s = s.
Proof.
  destruct s as [|c s]; [reflexivity|]. unfold starts_with_ws. simpl.
  intros ->. reflexivity.
Qed.

Lemma rstrip_id (s : string) : ends_with_ws s = false -> Py.rstrip s = s.
Proof.
  unfold ends_with_ws.
  induction s as [|c s IH]; [reflexivity|].
  destruct s as [|d s].
  - simpl. intros ->. reflexivity.
  - intros H. change (Py.rstrip (String c (String d s)))
      with (match Py.rstrip (String d s) with
            | EmptyString => if Py.isspace c then EmptyString else String c EmptyString
            | r => String c r
            end).
    rewrite IH by exact H. reflexivity.
Qed.

Lemma sub_ws_id (s : string) :
  single_spaced s = true -> ends_with_ws s = false ->
  Re.sub_from ws_run " " s 0 = s.
Proof.
  unfold ends_with_ws.
  induction s as [|c s IH]; [reflexivity|].
  cbn [single_spaced]. intros H Hl. apply andb_prop in H as [Hc Hs].
  destruct (Py.isspace c) eqn:Hsp.
  - apply andb_prop in Hc as [Heq Hn]. apply Ascii.eqb_eq in Heq. subst c.
    destruct s as [|d s]; [simpl in Hl; congruence|].
    rewrite (sub_ws_cons_space " " (String d s) Hsp).
    unfold starts_with_ws in Hn. simpl in Hn. apply negb_true_iff in Hn.
    cbn [Py.span]. rewrite Hn. f_equal. apply IH; auto.
  - rewrite (sub_ws_cons_other c s Hsp). f_equal.
    destruct s as [|d s]; [reflexivity|]. apply IH; auto.
Qed.

End StringFacts.

(** C4. [squish] is idempotent; its result has no two whitespace characters
    in a row and neither starts nor ends with whitespace; [None] is mapped to
    the empty string. *)
Theorem squish_idempotent_normalized (text : option string) :
  squish (Some (squish text)) = squish text
  /\ adjacent_ws (squish text) = false
  /\ starts_with_ws (squish text) = false
  /\ ends_with_ws (squish text) = false
  /\ squish None = EmptyString.
Proof.
  assert (Hnorm : single_spaced (squish text) = true
                  /\ starts_with_ws (squish text) = false
                  /\ ends_with_ws (squish text) = false).
  { destruct text as [t|]; [|repeat split; reflexivity].
    unfold squish, Py.strip, Re.sub.
    destruct (sub_ws_single_spaced t) as (H0 & _ & _).
    repeat split.
    - apply single_spaced_rstrip, single_spaced_lstrip, H0.
    - apply rstrip_head, lstrip_no_leading.
    - apply rstrip_no_trailing. }
  destruct Hnorm as (Hs & Hh & Hl).
  repeat split; auto using single_spaced_no_adjacent.
  change (squish (Some (squish text)))
    with (Py.strip (Re.sub ws_run " " (squish text))).
  unfold Re.sub, Py.strip.
  rewrite sub_ws_id, lstrip_id, rstrip_id; auto.
Qed.

(** ** Properties of the money parser *)

Section MoneyFacts.

Lemma backtrack_first {A : Type} (n lo : nat) (f : nat -> option A) (a : A) :
  (lo <= n)%nat -> f n = Some a -> Re.backtrack n lo f = Some a.
Proof.
  intros Hle Hf.
  destruct n; cbn [Re.backtrack];
    (destruct (_ <? lo)%nat eqn:E; [apply Nat.ltb_lt in E; lia|]);
    rewrite Hf; reflexivity.
Qed.

Lemma match_at_money_group (s : string) :
  Re.match_at money_group s =
  match s with
  | String c s' =>
      if Py.isdigit c
      then let m := Py.span digit_or_comma s' in
           Some (S m, [String c (Py.take m s')])
      else None
  | EmptyString => None
  end.
Proof.
  unfold Re.match_at, money_group, Re.exactly, Re.star.
  cbn [Re.seq Re.match_re Re.cap].
  destruct s as [|c s']; [reflexivity|].
  cbn [Py.span]. destruct (Py.isdigit c); [|reflexivity].
  cbn [Nat.min Re.backtrack Nat.ltb Nat.leb Py.drop].
  pose proof (span_le_length digit_or_comma s') as Hle.
  erewrite backtrack_first; [|lia|reflexivity].
  cbn [String.length app].
  replace (S (String.length s') - String.length (Py.drop (Py.span digit_or_comma s') s'))%nat
    with (S (Py.span digit_or_comma s')) by (rewrite length_drop; lia).
  reflexivity.
Qed.

Lemma finditer_skip (r : Re.regex) (s : string) (n : nat) :
  (n <= String.length s)%nat ->
  Re.finditer r s n = Re.finditer r (Py.drop n s) 0.
Proof.
  revert n; induction s as [|c s IH]; intros [|n] Hn; simpl in *; try reflexivity; try lia.
  apply IH. lia.
Qed.

Lemma findall_cons_other (c : ascii) (s : string) :
  Py.isdigit c = false ->
  Re.findall money_group (String c s) = Re.findall money_group s.
Proof.
  intros Hc. unfold Re.findall. cbn [Re.finditer].
  rewrite match_at_money_group, Hc. reflexivity.
Qed.

Lemma findall_cons_digit (c : ascii) (s : string) :
  Py.isdigit c = true ->
  Re.findall money_group (String c s) =
  String c (Py.take (Py.span digit_or_comma s) s)
  :: Re.findall money_group (Py.drop (Py.span digit_or_comma s) s).
Proof.
  intros Hc. unfold Re.findall. cbn [Re.finditer].
  rewrite match_at_money_group, Hc. cbn zeta. cbn [map Re.group Nat.sub nth].
  rewrite Nat.sub_0_r, finditer_skip by apply span_le_length. reflexivity.
Qed.

Lemma findall_no_digit (s : string) :
  Py.existsb Py.isdigit s = false -> Re.findall money_group s = [].
Proof.
  induction s as [|c s IH]; [reflexivity|].
  cbn [Py.existsb]. intros H. apply orb_false_elim in H as [Hc Hs].
  rewrite findall_cons_other; auto.
Qed.

Lemma findall_has_digit (s : string) :
  Py.existsb Py.isdigit s = true -> Re.findall money_group s <> [].
Proof.
  induction s as [|c s IH]; [discriminate|].
  cbn [Py.existsb]. destruct (Py.isdigit c) eqn:Hc.
  - intros _. rewrite findall_cons_digit by exact Hc. discriminate.
  - simpl. intros H. rewrite findall_cons_other; auto.
Qed.

Lemma append_cons (c : ascii) (x t : string) :
  String c x +:+ t = String c (x +:+ t).
Proof. reflexivity. Qed.

Lemma append_assoc (x y z : string) : (x +:+ y) +:+ z = x +:+ y +:+ z.
Proof.
  induction x as [|c x IH]; [reflexivity|]. rewrite !append_cons, IH. reflexivity.
Qed.

Lemma ends_outside_group_tail (c : ascii) (x : string) :
  ends_outside_group (String c x) = true -> ends_outside_group x = true.
Proof. destruct x; [reflexivity|]. exact (fun H => H). Qed.

Lemma span_app_inside (x t : string) :
  x <> EmptyString -> ends_outside_group x = true ->
  Py.span digit_or_comma (x +:+ t) = Py.span digit_or_comma x
  /\ Py.take (Py.span digit_or_comma x) (x +:+ t) = Py.take (Py.span digit_or_comma x) x
  /\ (Py.span digit_or_comma x < String.length x)%nat.
Proof.
  induction x as [|c x IH]; [congruence|]. intros _ Hend.
  rewrite append_cons. cbn [Py.span String.length].
  destruct (digit_or_comma c) eqn:Hc.
  - assert (Hx : x <> EmptyString).
    { intros ->. unfold ends_outside_group in Hend. simpl in Hend.
      rewrite Hc in Hend. discriminate. }
    destruct IH as (IH1 & IH2 & IH3);
      [exact Hx|exact (ends_outside_group_tail c x Hend)|].
    rewrite IH1. cbn [Py.take]. rewrite IH2. repeat split. lia.
  - repeat split. lia.
Qed.

Lemma finditer_app (pre : string) :
  ends_outside_group pre = true ->
  forall (t : string) (k : nat), (k <= String.length pre)%nat ->
  Re.finditer money_group (pre +:+ t) k
  = Re.finditer money_group pre k ++ Re.finditer money_group t 0.
Proof.
  induction pre as [|c pre IH]; intros Hend t k Hk.
  - simpl in Hk. replace k with O by lia. reflexivity.
  - pose proof (ends_outside_group_tail c pre Hend) as Hend'.
    rewrite append_cons. destruct k as [|k].
    + cbn [Re.finditer]. rewrite !match_at_money_group.
      destruct (Py.isdigit c) eqn:Hc; [|apply IH; auto; lia].
      cbn zeta. assert (Hx : pre <> EmptyString).
      { intros ->. unfold ends_outside_group, digit_or_comma in Hend. simpl in Hend.
        rewrite Hc in Hend. discriminate. }
      destruct (span_app_inside pre t Hx Hend') as (E1 & E2 & E3).
      rewrite E1, E2, !Nat.sub_succ, !Nat.sub_0_r.
      rewrite IH by (auto; lia). reflexivity.
    + cbn [Re.finditer]. apply IH; auto. simpl in Hk. lia.
Qed.

Lemma findall_app (pre t : string) :
  ends_outside_group pre = true ->
  Re.findall money_group (pre +:+ t)
  = Re.findall money_group pre ++ Re.findall money_group t.
Proof.
  intros Hend. unfold Re.findall.
  rewrite finditer_app by (auto; lia). apply map_app.
Qed.

Lemma comma_not_digit (c : ascii) :
  Re.is_char "," c = true -> Py.isdigit c = false.
Proof. unfold Re.is_char. intros H. apply Ascii.eqb_eq in H. subst c. reflexivity. Qed.

Lemma findall_skip_commas (commas t : string) :
  Py.forallb (Re.is_char ",") commas = true ->
  Re.findall money_group (commas +:+ t) = Re.findall money_group t.
Proof.
  induction commas as [|c commas IH]; [reflexivity|].
  rewrite append_cons. cbn [Py.forallb]. intros H. apply andb_prop in H as [Hc Hs].
  rewrite findall_cons_other by (apply comma_not_digit, Hc). auto.
Qed.

Lemma span_all (p : ascii -> bool) (x post : string) :
  Py.forallb p x = true ->
  match Py.head post with Some c => negb (p c) | None => true end = true ->
  Py.span p (x +:+ post) = String.length x
  /\ Py.take (String.length x) (x +:+ post) = x
  /\ Py.drop (String.length x) (x +:+ post) = post.
Proof.
  intros Hx Hpost. induction x as [|c x IH].
  - change (EmptyString +:+ post) with post.
    cbn [String.length Py.take Py.drop]. repeat split.
    destruct post as [|d post]; [reflexivity|]. simpl in *.
    apply negb_true_iff in Hpost. rewrite Hpost. reflexivity.
  - cbn [Py.forallb] in Hx. apply andb_prop in Hx as [Hc Hx].
    destruct (IH Hx) as (E1 & E2 & E3).
    rewrite append_cons. cbn [String.length Py.span Py.take Py.drop].
    rewrite Hc, E1, E2, E3. repeat split.
Qed.

Lemma findall_group (g post : string) :
  is_money_group g = true ->
  starts_outside_group post = true ->
  Py.existsb Py.isdigit post = false ->
  Re.findall money_group (g +:+ post) = [g].
Proof.
  destruct g as [|c g]; [discriminate|]. cbn [is_money_group].
  intros Hg Hpost Hnd. apply andb_prop in Hg as [Hc Hg].
  rewrite append_cons, findall_cons_digit by exact Hc.
  destruct (span_all digit_or_comma g post Hg Hpost) as (E1 & E2 & E3).
  rewrite E1, E2, E3, findall_no_digit by exact Hnd. reflexivity.
Qed.

Lemma findall_decomposed (pre commas g post : string) :
  ends_outside_group pre = true ->
  Py.forallb (Re.is_char ",") commas = true ->
  is_money_group g = true ->
  starts_outside_group post = true ->
  Py.existsb Py.isdigit post = false ->
  Re.findall money_group (pre +:+ commas +:+ g +:+ post)
  = Re.findall money_group pre ++ [g].
Proof.
  intros Hpre Hcommas Hg Hpost Hnd.
  rewrite findall_app, findall_skip_commas, findall_group; auto.
Qed.

Lemma index_last {A : Type} (l : list A) (x : A) : Py.index (l ++ [x]) (-1) = Ok x.
Proof.
  unfold Py.index. rewrite length_app. cbn [length].
  change (-1 <? 0) with true. cbv iota.
  replace (-1 + Z.of_nat (length l + 1)) with (Z.of_nat (length l)) by lia.
  destruct (Z.ltb_spec (Z.of_nat (length l)) 0); [lia|].
  rewrite Nat2Z.id, nth_error_app2, Nat.sub_diag by lia. reflexivity.
Qed.

Lemma digit_not_space (c : ascii) : Py.isdigit c = true -> Py.isspace c = false.
Proof. destruct c as [[] [] [] [] [] [] [] []]; vm_compute; congruence. Qed.

Lemma digit_value_nonneg (c : ascii) : Py.isdigit c = true -> 0 <= Py.digit_value c.
Proof. destruct c as [[] [] [] [] [] [] [] []]; vm_compute; congruence. Qed.

Lemma digits_value_nonneg (s : string) (acc : Z) :
  Py.forallb Py.isdigit s = true -> 0 <= acc -> 0 <= Py.digits_value acc s.
Proof.
  revert acc; induction s as [|c s IH]; intros acc Hs Hacc; [exact Hacc|].
  cbn [Py.forallb] in Hs. apply andb_prop in Hs as [Hc Hs].
  cbn [Py.digits_value]. apply IH; auto.
  pose proof (digit_value_nonneg c Hc). lia.
Qed.

Lemma int_digits_seen (s : string) (acc : Z) :
  Py.forallb Py.isdigit s = true ->
  Py.int_digits acc true s = Some (Py.digits_value acc s).
Proof.
  revert acc; induction s as [|c s IH]; intros acc Hs; [reflexivity|].
  cbn [Py.forallb] in Hs. apply andb_prop in Hs as [Hc Hs].
  cbn [Py.int_digits Py.digits_value]. rewrite Hc. auto.
Qed.

Lemma last_forallb (p : ascii -> bool) (s : string) (c : ascii) :
  Py.forallb p s = true -> Py.last s = Some c -> p c = true.
Proof.
  induction s as [|d s IH]; [discriminate|].
  cbn [Py.forallb]. intros H. apply andb_prop in H as [Hd Hs].
  destruct s as [|e s]; [simpl; congruence|]. intros Hl. apply IH; auto.
Qed.

Lemma digit_not_int_space (c : ascii) : Py.isdigit c = true -> Py.int_space c = false.
Proof. destruct c as [[] [] [] [] [] [] [] []]; vm_compute; congruence. Qed.

Lemma rstrip_with_digits (s : string) :
  Py.forallb Py.isdigit s = true -> Py.rstrip_with Py.int_space s = s.
Proof.
  induction s as [|c s IH]; [reflexivity|].
  cbn [Py.forallb Py.rstrip_with]. intros H. apply andb_prop in H as [Hc Hs].
  rewrite (IH Hs), (digit_not_int_space c Hc). destruct s; reflexivity.
Qed.

Lemma strip_with_digits (s : string) :
  Py.forallb Py.isdigit s = true -> Py.strip_with Py.int_space s = s.
Proof.
  intros Hs. unfold Py.strip_with.
  replace (Py.span Py.int_space s) with O; [apply rstrip_with_digits, Hs|].
  destruct s as [|c s]; [reflexivity|].
  cbn [Py.forallb] in Hs. apply andb_prop in Hs as [Hc _].
  cbn [Py.span]. rewrite (digit_not_int_space c Hc). reflexivity.
Qed.

Lemma filter_digits (s : string) :
  Py.forallb Py.isdigit s = true -> Py.filter Py.isdigit s = s.
Proof.
  induction s as [|c s IH]; [reflexivity|].
  cbn [Py.forallb Py.filter]. intros H. apply andb_prop in H as [Hc Hs].
  rewrite Hc, (IH Hs). reflexivity.
Qed.

(** [int] of a non-empty run of digits is the number they write, unless
    there are more of them than the limit. *)
Lemma int_of_digits (c : ascii) (r : string) :
  Py.isdigit c = true -> Py.forallb Py.isdigit r = true ->
  Py.int (String c r)
  = if Py.int_max_str_digits <? Z.of_nat (String.length (String c r))
    then Raise ValueError
    else Ok (Py.digits_value 0 (String c r)).
Proof.
  intros Hc Hr.
  assert (Hall : Py.forallb Py.isdigit (String c r) = true).
  { cbn [Py.forallb]. rewrite Hc. exact Hr. }
  unfold Py.int. rewrite (strip_with_digits _ Hall).
  assert (E : Py.int_digits 0 false (String c r)
              = Some (Py.digits_value 0 (String c r))).
  { cbn [Py.int_digits Py.digits_value]. rewrite Hc. apply int_digits_seen, Hr. }
  assert (Ec : Py.count_digits (String c r) = Z.of_nat (String.length (String c r))).
  { unfold Py.count_digits. rewrite (filter_digits _ Hall). reflexivity. }
  destruct c as [[] [] [] [] [] [] [] []]; try discriminate Hc;
    cbv beta iota zeta; rewrite E, Ec; reflexivity.
Qed.

Lemma remove_comma_digits (x : string) :
  Py.forallb digit_or_comma x = true ->
  Py.forallb Py.isdigit (Py.remove_char "," x) = true.
Proof.
  induction x as [|c x IH]; [reflexivity|].
  cbn [Py.forallb]. intros H. apply andb_prop in H as [Hc Hx].
  unfold Py.remove_char in *. cbn [Py.filter].
  unfold digit_or_comma in Hc.
  destruct (Ascii.eqb c ",") eqn:E; cbn [negb]; [auto|].
  cbn [Py.forallb]. rewrite orb_false_r in Hc. rewrite Hc. auto.
Qed.

(** The amount of a digit group is a run of digits, at least one. *)
Lemma amount_of_group (g : string) :
  is_money_group g = true ->
  exists c r,
    Py.remove_char "," g = String c r
    /\ Py.isdigit c = true /\ Py.forallb Py.isdigit r = true.
Proof.
  destruct g as [|c g]; [discriminate|]. cbn [is_money_group].
  intros H. apply andb_prop in H as [Hc Hg].
  exists c, (Py.remove_char "," g). repeat split; [|exact Hc|apply remove_comma_digits, Hg].
  unfold Py.remove_char. cbn [Py.filter]. rewrite Ascii.eqb_sym.
  destruct (Ascii.eqb "," c) eqn:Ec; [|reflexivity].
  apply (comma_not_digit c) in Ec. congruence.
Qed.

(** The amount of a digit group converts, to a number that is not negative,
    unless it has more digits than the limit. *)
Lemma int_of_group (g : string) :
  is_money_group g = true ->
  Py.int (Py.remove_char "," g)
  = (if Py.int_max_str_digits <? Z.of_nat (String.length (Py.remove_char "," g))
     then Raise ValueError
     else Ok (Py.digits_value 0 (Py.remove_char "," g)))
  /\ 0 <= Py.digits_value 0 (Py.remove_char "," g).
Proof.
  intros Hg. destruct (amount_of_group g Hg) as (c & r & -> & Hc & Hr).
  split; [apply int_of_digits; auto|].
  apply digits_value_nonneg; [|lia]. cbn [Py.forallb]. rewrite Hc. exact Hr.
Qed.

Lemma parse_money_no_digit (int_ : string -> exn Z) (s : string) :
  Py.existsb Py.isdigit s = false -> parse_money_with int_ (Some s) = Ok None.
Proof.
  intros H. unfold parse_money_with.
  destruct (negb (Py.truthy s)); [reflexivity|].
  rewrite findall_no_digit by exact H. reflexivity.
Qed.

Lemma parse_money_of_findall (int_ : string -> exn Z) (s : string) (l : list string) (g : string) :
  Re.findall money_group s = l ++ [g] ->
  parse_money_with int_ (Some s)
  = try_except_ValueError (n ← int_ (Py.remove_char "," g); Ok (Some n)) (Ok None).
Proof.
  intros E. unfold parse_money_with.
  destruct s as [|c s]; [destruct l; discriminate E|].
  cbn [Py.truthy negb]. rewrite E.
  destruct (l ++ [g]) as [|x xs] eqn:El; [destruct l; discriminate El|].
  rewrite <- El, index_last. reflexivity.
Qed.

(** The result on an input whose last match is the group [g]. *)
Lemma parse_money_of_group (s : string) (l : list string) (g : string) :
  Re.findall money_group s = l ++ [g] ->
  is_money_group g = true ->
  parse_money (Some s)
  = Ok (if Z.of_nat (String.length (Py.remove_char "," g)) <=? Py.int_max_str_digits
        then Some (Py.digits_value 0 (Py.remove_char "," g))
        else None).
Proof.
  intros Hf Hg. unfold parse_money.
  rewrite (parse_money_of_findall _ _ _ _ Hf), (proj1 (int_of_group g Hg)).
  rewrite Z.leb_antisym.
  destruct (Py.int_max_str_digits <? _); reflexivity.
Qed.

Lemma forallb_app (p : ascii -> bool) (x y : string) :
  Py.forallb p (x +:+ y) = Py.forallb p x && Py.forallb p y.
Proof.
  induction x as [|c x IH]; [reflexivity|].
  rewrite append_cons. cbn [Py.forallb]. rewrite IH. apply andb_assoc.
Qed.

Lemma take_drop_span (p : ascii -> bool) (s : string) :
  s = Py.take (Py.span p s) s +:+ Py.drop (Py.span p s) s
  /\ Py.forallb p (Py.take (Py.span p s) s) = true
  /\ match Py.head (Py.drop (Py.span p s) s) with
     | Some c => negb (p c)
     | None => true
     end = true.
Proof.
  induction s as [|c s (IH1 & IH2 & IH3)]; [repeat split|].
  cbn [Py.span]. destruct (p c) eqn:Hc.
  - cbn [Py.take Py.drop Py.forallb]. rewrite append_cons, <- IH1, Hc, IH2, IH3.
    repeat split.
  - cbn [Py.take Py.drop Py.forallb Py.head]. rewrite Hc. repeat split.
Qed.

Lemma existsb_drop (p : ascii -> bool) (n : nat) (s : string) :
  Py.existsb p s = false -> Py.existsb p (Py.drop n s) = false.
Proof.
  revert s; induction n as [|n IH]; intros [|c s]; cbn [Py.drop Py.existsb]; auto.
  intros H. apply orb_false_elim in H as [_ H]. auto.
Qed.

Lemma forallb_weaken (p q : ascii -> bool) (s : string) :
  (forall c, p c = true -> q c = true) ->
  Py.forallb p s = true -> Py.forallb q s = true.
Proof.
  intros Hpq. induction s as [|c s IH]; [reflexivity|].
  cbn [Py.forallb]. intros H. apply andb_prop in H as [Hc Hs].
  rewrite (Hpq c Hc), IH; auto.
Qed.

(** Every string with a digit splits around its last digit group. *)
Lemma last_group_decomposition (s : string) :
  Py.existsb Py.isdigit s = true ->
  exists pre commas g post,
    s = pre +:+ commas +:+ g +:+ post
    /\ ends_outside_group pre = true
    /\ Py.forallb (Re.is_char ",") commas = true
    /\ is_money_group g = true
    /\ starts_outside_group post = true
    /\ Py.existsb Py.isdigit post = false.
Proof.
  induction s as [|c s IH]; [discriminate|].
  destruct (Py.existsb Py.isdigit s) eqn:Hs.
  - intros _. destruct (IH eq_refl) as (pre & commas & g & post & E & Hpre & Hcm & Hg & Hpost & Hnd).
    destruct pre as [|d pre].
    + change (EmptyString +:+ commas +:+ g +:+ post) with (commas +:+ g +:+ post) in E.
      destruct (Py.isdigit c) eqn:Hc; [|destruct (Ascii.eqb "," c) eqn:Hcomma].
      * exists EmptyString, EmptyString, (String c (commas +:+ g)), post.
        repeat split; auto.
        -- subst s. change (String c (commas +:+ g +:+ post)
                              = String c ((commas +:+ g) +:+ post)).
           rewrite append_assoc. reflexivity.
        -- cbn [is_money_group]. rewrite Hc, forallb_app. cbn [andb].
           apply andb_true_intro. split.
           ++ apply (forallb_weaken (Re.is_char ",")); auto.
              intros x Hx. unfold digit_or_comma, Re.is_char in *.
              rewrite Ascii.eqb_sym, Hx. apply orb_true_r.
           ++ destruct g as [|x g]; [discriminate|]. cbn [is_money_group] in Hg.
              apply andb_prop in Hg as [Hx Hg]. cbn [Py.forallb].
              unfold digit_or_comma at 1. rewrite Hx, Hg. reflexivity.
      * exists EmptyString, (String c commas), g, post.
        repeat split; auto.
        -- subst s. reflexivity.
        -- cbn [Py.forallb]. unfold Re.is_char at 1. rewrite Hcomma. exact Hcm.
      * exists (String c EmptyString), commas, g, post.
        repeat split; auto.
        -- subst s. reflexivity.
        -- unfold ends_outside_group, digit_or_comma. cbn [Py.last].
           rewrite Hc, Ascii.eqb_sym, Hcomma. reflexivity.
    + exists (String c (String d pre)), commas, g, post.
      repeat split; auto. subst s. reflexivity.
  - cbn [Py.existsb]. rewrite Hs, orb_false_r. intros Hc.
    destruct (take_drop_span digit_or_comma s) as (E1 & E2 & E3).
    exists EmptyString, EmptyString,
      (String c (Py.take (Py.span digit_or_comma s) s)),
      (Py.drop (Py.span digit_or_comma s) s).
    repeat split; auto.
    + change (String c s = String c (Py.take (Py.span digit_or_comma s) s
                                     +:+ Py.drop (Py.span digit_or_comma s) s)).
      rewrite <- E1. reflexivity.
    + cbn [is_money_group]. rewrite Hc, E2. reflexivity.
    + apply existsb_drop, Hs.
Qed.

End MoneyFacts.

(** C3, counterexample.  A run of 4301 digits is one digit group without
    commas, and the claim has [parse_money] give the number it writes; but
    [int] refuses a literal of more than 4300 digits with a [ValueError],
    which [parse_money] catches, and the result is [None]. *)
Lemma parse_money_digit_limit :
  let s := long_amount in
  String.length s = 4301%nat
  /\ is_money_group s = true
  /\ Re.findall money_group s = [s]
  /\ Py.remove_char "," s = s
  /\ Py.int s = Raise ValueError
  /\ parse_money (Some s) = Ok None
  /\ ~ (forall raw g,
          Py.index (Re.findall money_group raw) (-1) = Ok g ->
          parse_money (Some raw) = Ok (Some (Py.digits_value 0 (Py.remove_char "," g)))).
Proof.
  cbv zeta.
  assert (E : parse_money (Some long_amount) = Ok None) by (vm_compute; reflexivity).
  repeat (split; [vm_compute; reflexivity|]).
  intros H. specialize (H long_amount long_amount). rewrite E in H.
  assert (Hi : Py.index (Re.findall money_group long_amount) (-1) = Ok long_amount)
    by (vm_compute; reflexivity).
  specialize (H Hi). discriminate H.
Qed.

(** C3, amended.  [parse_money] gives [None] on an absent or empty input and
    on any input without a digit; on any other input it takes the last digit
    group (a digit followed by digits and commas, not part of a longer one),
    drops the commas and gives the number written by what is left when that
    has at most 4300 digits, and [None] when it has more. *)
Theorem parse_money_last_group (raw : option string) :
  ((raw_has_digit raw = false /\ parse_money raw = Ok None)
   \/ (exists pre commas g post,
         raw = Some (pre +:+ commas +:+ g +:+ post)
         /\ ends_outside_group pre = true
         /\ Py.forallb (Re.is_char ",") commas = true
         /\ is_money_group g = true
         /\ starts_outside_group post = true
         /\ Py.existsb Py.isdigit post = false
         /\ Py.index (Re.findall money_group (pre +:+ commas +:+ g +:+ post)) (-1) = Ok g
         /\ parse_money raw
            = Ok (if Z.of_nat (String.length (Py.remove_char "," g))
                     <=? Py.int_max_str_digits
                  then Some (Py.digits_value 0 (Py.remove_char "," g))
                  else None)))
  /\ parse_money (Some EmptyString) = Ok None
  /\ parse_money (Some "DD: $1,800") = Ok (Some 1800)
  /\ parse_money (Some "$1,600") = Ok (Some 1600).
Proof.
  split; [|repeat split].
  destruct raw as [s|]; [|left; split; reflexivity].
  destruct (Py.existsb Py.isdigit s) eqn:Hs.
  - right.
    destruct (last_group_decomposition s Hs)
      as (pre & commas & g & post & E & Hpre & Hcm & Hg & Hpost & Hnd).
    exists pre, commas, g, post. subst s.
    pose proof (findall_decomposed pre commas g post Hpre Hcm Hg Hpost Hnd) as Hf.
    repeat split; auto.
    + rewrite Hf. apply index_last.
    + exact (parse_money_of_group _ _ _ Hf Hg).
  - left. split; [exact Hs|]. apply parse_money_no_digit, Hs.
Qed.

(** C5. [parse_money] never raises: whatever [int] does short of raising
    something other than [ValueError], a result comes back, and it is [None]
    when [int] rejects the amount of the last digit group; with the builtin
    [int] the result is [None] or a number that is not negative. *)
Theorem parse_money_never_raises (int_ : string -> exn Z) (raw : option string) :
  (forall s e, int_ s = Raise e -> e = ValueError) ->
  (exists r, parse_money_with int_ raw = Ok r
     /\ (forall s g, raw = Some s ->
          Py.index (Re.findall money_group s) (-1) = Ok g ->
          int_ (Py.remove_char "," g) = Raise ValueError -> r = None))
  /\ (parse_money raw = Ok None
      \/ exists n, 0 <= n /\ parse_money raw = Ok (Some n)).
Proof.
  intros Hint.
  destruct raw as [s|];
    [|split; [exists None; split; [reflexivity|congruence]|left; reflexivity]].
  destruct (Py.existsb Py.isdigit s) eqn:Hs.
  - destruct (last_group_decomposition s Hs)
      as (pre & commas & g & post & E & Hpre & Hcm & Hg & Hpost & Hnd).
    pose proof (findall_decomposed pre commas g post Hpre Hcm Hg Hpost Hnd) as Hf.
    rewrite <- E in Hf. split.
    + rewrite (parse_money_of_findall _ _ _ _ Hf).
      destruct (int_ (Py.remove_char "," g)) as [n|e] eqn:En.
      * exists (Some n). split; [reflexivity|].
        intros s' g' [= <-] Hidx. rewrite Hf, index_last in Hidx.
        injection Hidx as <-. congruence.
      * rewrite (Hint _ _ En). exists None. split; reflexivity.
    + rewrite (parse_money_of_group _ _ _ Hf Hg).
      destruct (_ <=? _); [right|left; reflexivity].
      eexists. split; [exact (proj2 (int_of_group g Hg))|reflexivity].
  - split; [|left; apply parse_money_no_digit, Hs].
    exists None. split; [apply parse_money_no_digit, Hs|reflexivity].
Qed.

Lemma parse_money_never_raises_witness :
  (exists r, parse_money_with (fun _ => Raise ValueError) (Some "$5") = Ok r
     /\ (forall s g, Some "$5" = Some s ->
          Py.index (Re.findall money_group s) (-1) = Ok g ->
          (fun _ : string => @Raise Z ValueError) (Py.remove_char "," g) = Raise ValueError ->
          r = None))
  /\ (parse_money (Some "$5") = Ok None
      \/ exists n, 0 <= n /\ parse_money (Some "$5") = Ok (Some n)).
Proof.
  apply (parse_money_never_raises (fun _ => Raise ValueError) (Some "$5")).
  intros s e H. injection H as <-. reflexivity.
Defined.

(** ** Properties of the round and final-round extractors *)

Section RoundFacts.

Lemma truthy_true (s : string) : Py.truthy s = true <-> s <> EmptyString.
Proof. destruct s; simpl; split; congruence. Qed.

Lemma truthy_false (s : string) : Py.truthy s = false <-> s = EmptyString.
Proof. destruct s; simpl; split; congruence. Qed.

Lemma parse_money_ok (raw : option string) :
  exists m, parse_money raw = Ok m.
Proof.
  destruct raw as [s|]; [|eexists; reflexivity].
  destruct (Py.existsb Py.isdigit s) eqn:Hs.
  - destruct (last_group_decomposition s Hs)
      as (pre & commas & g & post & E & Hpre & Hcm & Hg & Hpost & Hnd).
    pose proof (findall_decomposed pre commas g post Hpre Hcm Hg Hpost Hnd) as Hf.
    rewrite <- E in Hf. rewrite (parse_money_of_group _ _ _ Hf Hg).
    eexists; reflexivity.
  - exists None. apply parse_money_no_digit, Hs.
Qed.

Lemma index_in_range {A : Type} (l : list A) (i : nat) (d : A) :
  (i < length l)%nat -> Py.index l (Z.of_nat i) = Ok (nth i l d).
Proof.
  intros Hi. unfold Py.index.
  assert (E0 : (Z.of_nat i <? 0) = false) by (apply Z.ltb_ge; lia).
  cbv zeta. rewrite !E0, Nat2Z.id.
  destruct (nth_error l i) as [x|] eqn:E.
  - rewrite (nth_error_nth _ _ d E). reflexivity.
  - apply nth_error_None in E. lia.
Qed.

(** The guarded lookup of the topic never raises. *)
Lemma topic_lookup (categories : list string) (col_idx : nat) :
  (if (col_idx <? length categories)%nat
   then Py.index categories (Z.of_nat col_idx)
   else Ok EmptyString) = Ok (nth col_idx categories EmptyString).
Proof.
  destruct (Nat.ltb_spec col_idx (length categories)).
  - apply index_in_range. assumption.
  - rewrite nth_overflow by assumption. reflexivity.
Qed.

Lemma parse_cell_eq (categories : list string) (rows : list ClueRecord)
      (col_idx : nat) (cell : Tag) :
  parse_cell categories rows col_idx cell
  = Ok (rows ++ cell_records categories col_idx cell).
Proof.
  unfold parse_cell, cell_records, cell_money, cell_question, cell_answer, cell_blocks.
  destruct (select_one Sel.table cell); [|rewrite app_nil_r; reflexivity].
  destruct (parse_money_ok (Some (text_or_blank (select_one Sel.clue_value cell))))
    as [m ->].
  cbn [mbind exn_bind].
  destruct (fold_left clue_text_step (select Sel.td_clue_text cell) (None, None))
    as [q_td a_td].
  rewrite topic_lookup. cbn [mbind exn_bind fst snd].
  destruct (Py.truthy (text_or_blank q_td) || Py.truthy (extract_answer a_td));
    [reflexivity|rewrite app_nil_r; reflexivity].
Qed.

Lemma for_enumerate_cells (categories : list string) (cells : list Tag) :
  forall (i : nat) (rows : list ClueRecord),
  for_enumerate (parse_cell categories) i cells rows
  = Ok (rows ++ cells_records categories i cells).
Proof.
  induction cells as [|cell cells IH]; intros i rows.
  - simpl. rewrite app_nil_r. reflexivity.
  - cbn [for_enumerate cells_records]. rewrite parse_cell_eq.
    cbn [mbind exn_bind]. rewrite IH, app_assoc. reflexivity.
Qed.

Lemma parse_row_eq (categories : list string) (rows : list ClueRecord) (tr : Tag) :
  parse_row categories rows tr = Ok (rows ++ row_records categories tr).
Proof.
  unfold parse_row, row_records.
  destruct (select Sel.td_clue tr) as [|cell cells] eqn:E.
  - simpl. rewrite app_nil_r. reflexivity.
  - apply for_enumerate_cells.
Qed.

Lemma for_each_rows (categories : list string) (trs : list Tag) :
  forall rows : list ClueRecord,
  for_each (parse_row categories) trs rows
  = Ok (rows ++ flat_map (row_records categories) trs).
Proof.
  induction trs as [|tr trs IH]; intros rows.
  - simpl. rewrite app_nil_r. reflexivity.
  - cbn [for_each flat_map]. rewrite parse_row_eq.
    cbn [mbind exn_bind]. rewrite IH, app_assoc. reflexivity.
Qed.

(** [parse_round] always returns, with the rows of its cells in order. *)
Lemma parse_round_eq (round_table : Tag) (round_prefix : string) :
  parse_round round_table round_prefix = Ok (round_records round_table).
Proof.
  unfold parse_round, round_records.
  destruct (select Sel.tr round_table) as [|tr trs]; [reflexivity|].
  apply for_each_rows.
Qed.

Lemma cell_records_content (categories : list string) (col_idx : nat) (cell : Tag) :
  Forall (fun r => has_content r = true) (cell_records categories col_idx cell).
Proof.
  unfold cell_records. destruct (select_one Sel.table cell); [|constructor].
  destruct (Py.truthy (cell_question cell) || Py.truthy (cell_answer cell)) eqn:E;
    constructor; [exact E|constructor].
Qed.

Lemma cells_records_content (categories : list string) (cells : list Tag) :
  forall i, Forall (fun r => has_content r = true) (cells_records categories i cells).
Proof.
  induction cells as [|cell cells IH]; intros i; [constructor|].
  cbn [cells_records]. apply Forall_app. split; [apply cell_records_content|apply IH].
Qed.

Lemma round_records_content (round_table : Tag) :
  Forall (fun r => has_content r = true) (round_records round_table).
Proof.
  unfold round_records.
  induction (tl (select Sel.tr round_table)) as [|tr trs IH]; [constructor|].
  cbn [flat_map]. apply Forall_app. split; [apply cells_records_content|exact IH].
Qed.

Lemma cells_records_lookup (categories : list string) (cells : list Tag) :
  forall (i j : nat) (cell : Tag) (r : ClueRecord),
  cells !! j = Some cell ->
  In r (cell_records categories (i + j) cell) ->
  In r (cells_records categories i cells).
Proof.
  induction cells as [|c cells IH]; intros i j cell r Hj Hr; [discriminate|].
  cbn [cells_records]. apply in_or_app. destruct j as [|j].
  - injection Hj as ->. rewrite Nat.add_0_r in Hr. left. exact Hr.
  - right. apply (IH (S i) j cell); [exact Hj|].
    rewrite Nat.add_succ_comm. exact Hr.
Qed.

(** The rows of a cell are among the rows of its table. *)
Lemma round_records_cell (round_table tr cell : Tag) (col_idx : nat) (r : ClueRecord) :
  In tr (tl (select Sel.tr round_table)) ->
  select Sel.td_clue tr !! col_idx = Some cell ->
  In r (cell_records (round_categories round_table) col_idx cell) ->
  In r (round_records round_table).
Proof.
  intros Htr Hcell Hr. unfold round_records. apply in_flat_map.
  exists tr. split; [exact Htr|].
  apply (cells_records_lookup _ _ 0 col_idx cell); assumption.
Qed.

Lemma round_categories_map (round_table : Tag) :
  round_categories round_table
  = map (fun cat => text_or_blank (select_one Sel.category_name cat))
        (select Sel.category_cells round_table).
Proof.
  unfold round_categories.
  generalize (select Sel.category_cells round_table) as cats.
  assert (H : forall cats acc,
             fold_left (fun categories cat =>
                          categories ++ [text_or_blank (select_one Sel.category_name cat)])
                       cats acc
             = acc ++ map (fun cat => text_or_blank (select_one Sel.category_name cat)) cats).
  { induction cats as [|c cats IH]; intros acc; simpl.
    - rewrite app_nil_r. reflexivity.
    - rewrite IH, <- app_assoc. reflexivity. }
  intros cats. apply (H cats []).
Qed.

End RoundFacts.

Section ClaimFacts.

Lemma lookup_In {A : Type} (l : list A) (i : nat) (x : A) :
  l !! i = Some x -> In x l.
Proof.
  revert i; induction l as [|y l IH]; intros [|i] H; try discriminate.
  - injection H as ->. left. reflexivity.
  - right. exact (IH i H).
Qed.

Lemma find_app {A : Type} (f : A -> bool) (l1 l2 : list A) :
  List.find f (l1 ++ l2)
  = match List.find f l1 with
    | Some x => Some x
    | None => List.find f l2
    end.
Proof.
  induction l1 as [|x l1 IH]; [reflexivity|].
  simpl. destruct (f x); [reflexivity|exact IH].
Qed.

(** The loop over the text blocks keeps the first prompt block and the last
    reveal block. *)
Lemma fold_clue_text_step (tds : list Tag) :
  forall q a : option Tag,
  fold_left clue_text_step tds (q, a)
  = (match q with
     | Some _ => q
     | None => first_prompt tds
     end,
     match last_reveal tds with
     | Some td => Some td
     | None => a
     end).
Proof.
  unfold first_prompt, last_reveal.
  induction tds as [|td tds IH]; intros q a.
  - destruct q; reflexivity.
  - cbn [fold_left rev List.find]. rewrite find_app. cbn [List.find].
    unfold clue_text_step at 2. fold (is_reveal td).
    destruct (is_reveal td) eqn:Hr; rewrite IH; cbn [negb].
    + destruct (List.find is_reveal (rev tds)); reflexivity.
    + destruct q; destruct (List.find is_reveal (rev tds)); reflexivity.
Qed.

Lemma cell_blocks_eq (cell : Tag) :
  cell_blocks cell
  = (first_prompt (select Sel.td_clue_text cell),
     last_reveal (select Sel.td_clue_text cell)).
Proof.
  unfold cell_blocks. rewrite fold_clue_text_step.
  destruct (last_reveal (select Sel.td_clue_text cell)); reflexivity.
Qed.

Lemma find_none_existsb {A : Type} (f : A -> bool) (l : list A) :
  List.existsb f l = false -> List.find f l = None.
Proof.
  induction l as [|x l IH]; [reflexivity|].
  simpl. destruct (f x); [discriminate|exact IH].
Qed.

Lemma existsb_rev {A : Type} (f : A -> bool) (l : list A) :
  List.existsb f (rev l) = List.existsb f l.
Proof.
  induction l as [|x l IH]; [reflexivity|].
  simpl. rewrite existsb_app, IH. simpl. rewrite orb_false_r. apply orb_comm.
Qed.

Lemma cells_records_vacated (categories : list string) (cells : list Tag) :
  some_populated cells = false ->
  forall i, cells_records categories i cells = [].
Proof.
  unfold some_populated.
  induction cells as [|cell cells IH]; intros H i; [reflexivity|].
  cbn [List.existsb] in H. apply orb_false_elim in H as [Hc Hs].
  cbn [cells_records]. rewrite (IH Hs), app_nil_r.
  unfold cell_records. destruct (select_one Sel.table cell); [discriminate|reflexivity].
Qed.

Lemma head_filter_none {A : Type} (f : A -> bool) (l : list A) :
  List.head (List.filter f l) = None <-> List.existsb f l = false.
Proof.
  induction l as [|x l IH]; [split; reflexivity|].
  simpl. destruct (f x); simpl; [split; discriminate|exact IH].
Qed.

End ClaimFacts.

(** C2. Every row that [parse_round] and [parse_final] produce has a
    non-empty question or a non-empty answer; a cell whose question and
    answer are both empty leaves the rows as they were. *)
Theorem emitted_records_nonempty (round_table soup : Tag) (round_prefix : string) :
  (exists rows, parse_round round_table round_prefix = Ok rows
     /\ Forall (fun r => has_content r = true) rows)
  /\ Forall (fun r => has_content r = true) (parse_final soup)
  /\ (forall categories rows col_idx cell,
        parse_cell categories rows col_idx cell
        = Ok (if Py.truthy (cell_question cell) || Py.truthy (cell_answer cell)
              then rows ++ cell_records categories col_idx cell
              else rows)).
Proof.
  repeat split.
  - exists (round_records round_table). split; [apply parse_round_eq|].
    apply round_records_content.
  - unfold parse_final.
    destruct (select_one Sel.final_round soup) as [final_tbl|]; [|constructor].
    destruct (Py.truthy _ || Py.truthy _) eqn:E; constructor; [exact E|constructor].
  - intros categories rows col_idx cell. rewrite parse_cell_eq.
    destruct (Py.truthy (cell_question cell) || Py.truthy (cell_answer cell)) eqn:E;
      [reflexivity|].
    unfold cell_records. rewrite E.
    destruct (select_one Sel.table cell); rewrite app_nil_r; reflexivity.
Qed.

(** C6. The category list keeps one label per category cell, blank ones
    included; a populated cell whose column has no label, or a blank one,
    still yields its row, with an empty topic, and [parse_round] returns. *)
Theorem topic_degrades_to_empty
        (round_table tr cell tbl : Tag) (round_prefix : string) (row_idx col_idx : nat) :
  tl (select Sel.tr round_table) !! row_idx = Some tr ->
  select Sel.td_clue tr !! col_idx = Some cell ->
  select_one Sel.table cell = Some tbl ->
  Py.truthy (cell_question cell) || Py.truthy (cell_answer cell) = true ->
  (length (round_categories round_table) <= col_idx)%nat
  \/ round_categories round_table !! col_idx = Some EmptyString ->
  round_categories round_table
  = map (fun cat => text_or_blank (select_one Sel.category_name cat))
        (select Sel.category_cells round_table)
  /\ exists rows,
       parse_round round_table round_prefix = Ok rows
       /\ In (mk_clue EmptyString (cell_money cell) (cell_question cell) (cell_answer cell))
            rows.
Proof.
  intros Htr Hcell Htbl Hqa Hcol. split; [apply round_categories_map|].
  exists (round_records round_table). split; [apply parse_round_eq|].
  apply (round_records_cell round_table tr cell col_idx);
    [exact (lookup_In _ _ _ Htr)|exact Hcell|].
  unfold cell_records. rewrite Htbl, Hqa.
  assert (Ht : nth col_idx (round_categories round_table) EmptyString = EmptyString).
  { destruct Hcol as [Hlen|Hblank].
    - apply nth_overflow, Hlen.
    - rewrite nth_lookup, Hblank. reflexivity. }
  rewrite Ht. left. reflexivity.
Qed.

Lemma topic_degrades_to_empty_witness :
  (round_categories Sample.round_4_of_6
   = map (fun cat => text_or_blank (select_one Sel.category_name cat))
         (select Sel.category_cells Sample.round_4_of_6)
   /\ exists rows,
        parse_round Sample.round_4_of_6 "J" = Ok rows
        /\ In (mk_clue EmptyString
                       (cell_money (Sample.cell Sample.round_4_of_6 5 4))
                       (cell_question (Sample.cell Sample.round_4_of_6 5 4))
                       (cell_answer (Sample.cell Sample.round_4_of_6 5 4)))
             rows)
  /\ (round_categories Sample.round_4_of_6
      = map (fun cat => text_or_blank (select_one Sel.category_name cat))
            (select Sel.category_cells Sample.round_4_of_6)
      /\ exists rows,
           parse_round Sample.round_4_of_6 "J" = Ok rows
           /\ In (mk_clue EmptyString
                          (cell_money (Sample.cell Sample.round_4_of_6 5 5))
                          (cell_question (Sample.cell Sample.round_4_of_6 5 5))
                          (cell_answer (Sample.cell Sample.round_4_of_6 5 5)))
                rows)
  /\ (round_categories Sample.round_4_cells
      = map (fun cat => text_or_blank (select_one Sel.category_name cat))
            (select Sel.category_cells Sample.round_4_cells)
      /\ exists rows,
           parse_round Sample.round_4_cells "J" = Ok rows
           /\ In (mk_clue EmptyString
                          (cell_money (Sample.cell Sample.round_4_cells 4 5))
                          (cell_question (Sample.cell Sample.round_4_cells 4 5))
                          (cell_answer (Sample.cell Sample.round_4_cells 4 5)))
                rows).
Proof.
  split; [|split].
  - apply (topic_degrades_to_empty Sample.round_4_of_6
             (Sample.row Sample.round_4_of_6 5) (Sample.cell Sample.round_4_of_6 5 4)
             (default Sample.round_4_of_6
                (select_one Sel.table (Sample.cell Sample.round_4_of_6 5 4)))
             "J" 5 4);
      [reflexivity|reflexivity|reflexivity|reflexivity|right; reflexivity].
  - apply (topic_degrades_to_empty Sample.round_4_of_6
             (Sample.row Sample.round_4_of_6 5) (Sample.cell Sample.round_4_of_6 5 5)
             (default Sample.round_4_of_6
                (select_one Sel.table (Sample.cell Sample.round_4_of_6 5 5)))
             "J" 5 5);
      [reflexivity|reflexivity|reflexivity|reflexivity|right; reflexivity].
  - apply (topic_degrades_to_empty Sample.round_4_cells
             (Sample.row Sample.round_4_cells 4) (Sample.cell Sample.round_4_cells 4 5)
             (default Sample.round_4_cells
                (select_one Sel.table (Sample.cell Sample.round_4_cells 4 5)))
             "J" 4 5);
      [reflexivity|reflexivity|reflexivity|reflexivity|left; vm_compute; lia].
Defined.

(** C7. [parse_final] returns no row when the document has no
    [table.final_round], and otherwise at most one row, emitted when its
    question or answer is non-empty; the money of that row is [None]. *)
Theorem parse_final_zero_or_one (soup : Tag) :
  (length (parse_final soup) <= 1)%nat
  /\ Forall (fun r => money r = None) (parse_final soup)
  /\ (if List.existsb (matches Sel.final_round) (descendants soup)
      then exists final_tbl,
             select_one Sel.final_round soup = Some final_tbl
             /\ parse_final soup
                = let question := text_or_blank (select_one Sel.clue_FJ final_tbl) in
                  let answer := extract_answer (select_one Sel.clue_FJ_r final_tbl) in
                  if Py.truthy question || Py.truthy answer
                  then [mk_clue (text_or_blank (select_one Sel.category_name final_tbl))
                                None question answer]
                  else []
      else parse_final soup = []).
Proof.
  unfold parse_final.
  destruct (List.existsb (matches Sel.final_round) (descendants soup)) eqn:Hex.
  - destruct (select_one Sel.final_round soup) as [final_tbl|] eqn:Hsel.
    + cbv zeta.
      set (b := Py.truthy (text_or_blank (select_one Sel.clue_FJ final_tbl))
                || Py.truthy (extract_answer (select_one Sel.clue_FJ_r final_tbl))).
      split; [destruct b; simpl; lia|].
      split; [destruct b; repeat constructor|].
      exists final_tbl. split; reflexivity.
    + apply head_filter_none in Hsel. congruence.
  - apply head_filter_none in Hex. unfold select_one, select. rewrite Hex.
    repeat split; simpl; auto.
Qed.

(** C8. A populated cell without a reveal block yields a row with its
    question and an empty answer, and [parse_round] returns; a row of the
    table without a populated cell leaves the rows as they were. *)
Theorem cell_without_reveal_block :
  (forall (round_table tr cell tbl : Tag) (round_prefix : string) (row_idx col_idx : nat),
      tl (select Sel.tr round_table) !! row_idx = Some tr ->
      select Sel.td_clue tr !! col_idx = Some cell ->
      select_one Sel.table cell = Some tbl ->
      List.existsb is_reveal (select Sel.td_clue_text cell) = false ->
      Py.truthy (cell_question cell) = true ->
      cell_answer cell = EmptyString
      /\ exists rows,
           parse_round round_table round_prefix = Ok rows
           /\ In (mk_clue (nth col_idx (round_categories round_table) EmptyString)
                          (cell_money cell) (cell_question cell) EmptyString)
                rows)
  /\ (forall (categories : list string) (rows : list ClueRecord) (tr : Tag),
        some_populated (select Sel.td_clue tr) = false ->
        parse_row categories rows tr = Ok rows).
Proof.
  split.
  - intros round_table tr cell tbl round_prefix row_idx col_idx Htr Hcell Htbl Hrev Hq.
    assert (Ha : cell_answer cell = EmptyString).
    { unfold cell_answer. rewrite cell_blocks_eq. cbn [snd]. unfold last_reveal.
      rewrite find_none_existsb; [reflexivity|]. rewrite existsb_rev. exact Hrev. }
    split; [exact Ha|].
    exists (round_records round_table). split; [apply parse_round_eq|].
    apply (round_records_cell round_table tr cell col_idx);
      [exact (lookup_In _ _ _ Htr)|exact Hcell|].
    unfold cell_records. rewrite Htbl, Hq, Ha. left. reflexivity.
  - intros categories rows tr Hvac. rewrite parse_row_eq.
    unfold row_records. rewrite cells_records_vacated by exact Hvac.
    rewrite app_nil_r. reflexivity.
Qed.

Lemma cell_without_reveal_block_witness :
  (cell_answer (Sample.cell Sample.round_4_of_6 5 2) = EmptyString
   /\ exists rows,
        parse_round Sample.round_4_of_6 "J" = Ok rows
        /\ In (mk_clue (nth 2 (round_categories Sample.round_4_of_6) EmptyString)
                       (cell_money (Sample.cell Sample.round_4_of_6 5 2))
                       (cell_question (Sample.cell Sample.round_4_of_6 5 2)) EmptyString)
             rows)
  /\ parse_row [] [] (Sample.row Sample.round_4_of_6 16) = Ok [].
Proof.
  split.
  - apply (proj1 cell_without_reveal_block Sample.round_4_of_6
             (Sample.row Sample.round_4_of_6 5) (Sample.cell Sample.round_4_of_6 5 2)
             (default Sample.round_4_of_6
                (select_one Sel.table (Sample.cell Sample.round_4_of_6 5 2)))
             "J" 5%nat 2%nat); reflexivity.
  - apply (proj2 cell_without_reveal_block [] [] (Sample.row Sample.round_4_of_6 16)).
    reflexivity.
Defined.

(** C10. Among the text blocks of a cell the question comes from the first
    block that is not a reveal block and the answer from the last reveal
    block; the answer is the text of the correct-response element of that
    block and is empty when there is no such block or no such element. *)
Theorem question_first_answer_last (cell : Tag) :
  cell_blocks cell
  = (first_prompt (select Sel.td_clue_text cell),
     last_reveal (select Sel.td_clue_text cell))
  /\ cell_question cell = text_or_blank (first_prompt (select Sel.td_clue_text cell))
  /\ cell_answer cell
     = match last_reveal (select Sel.td_clue_text cell) with
       | Some td =>
           match select_one Sel.correct_response td with
           | Some em => text_or_blank (Some em)
           | None => EmptyString
           end
       | None => EmptyString
       end
  /\ (forall categories rows col_idx,
        parse_cell categories rows col_idx cell
        = Ok (rows ++ cell_records categories col_idx cell)).
Proof.
  pose proof (cell_blocks_eq cell) as E.
  split; [exact E|]. unfold cell_question, cell_answer. rewrite E. cbn [fst snd].
  split; [reflexivity|]. split; [|intros; apply parse_cell_eq].
  unfold extract_answer.
  destruct (last_reveal (select Sel.td_clue_text cell)) as [td|]; [|reflexivity].
  destruct (select_one Sel.correct_response td); reflexivity.
Qed.

(** ** Properties of the metadata extractor *)

Section MatcherFacts.

Lemma strip_prefix_some (l s rest : string) :
  Py.strip_prefix l s = Some rest ->
  rest = Py.drop (String.length l) s /\ (String.length l <= String.length s)%nat.
Proof.
  revert s; induction l as [|a l IH]; intros [|b s] H; simpl in *;
    try discriminate; try (injection H as <-; split; [reflexivity|lia]).
  destruct (Ascii.eqb a b); [|discriminate].
  destruct (IH s H) as [-> Hle]. split; [reflexivity|lia].
Qed.

Lemma backtrack_some {A : Type} (n lo : nat) (f : nat -> option A) (a : A) :
  Re.backtrack n lo f = Some a ->
  exists m, (lo <= m <= n)%nat /\ f m = Some a.
Proof.
  induction n as [|n IH]; cbn [Re.backtrack];
    (destruct (_ <? lo)%nat eqn:E; [discriminate|]); apply Nat.ltb_ge in E.
  - destruct (f O) eqn:Ef; [|discriminate]. intros [= <-]. exists O. split; [lia|exact Ef].
  - destruct (f (S n)) eqn:Ef.
    + intros [= <-]. exists (S n). split; [lia|exact Ef].
    + intros H. destruct (IH H) as (m & Hm & Hf). exists m. split; [lia|exact Hf].
Qed.

Lemma cap_le (hi : option nat) (n : nat) : (Re.cap hi n <= n)%nat.
Proof. destruct hi; simpl; lia. Qed.

Lemma drop_drop (n1 n2 : nat) (s : string) :
  Py.drop n2 (Py.drop n1 s) = Py.drop (n1 + n2) s.
Proof.
  revert s; induction n1 as [|n1 IH]; intros s; [reflexivity|].
  destruct s as [|c s]; [destruct n2; reflexivity|]. apply IH.
Qed.

(** A successful match of a pattern without groups hands its continuation
    the input less what it consumed, and the groups unchanged. *)
Lemma match_re_consumes (r : Re.regex) :
  group_free r = true ->
  forall (A : Type) (s : string) (caps : list string)
         (k : string -> list string -> option A) (a : A),
  Re.match_re r s caps k = Some a ->
  exists n, (min_len r <= n <= String.length s)%nat /\ k (Py.drop n s) caps = Some a.
Proof.
  induction r as [l|p lo hi|r1 IH1 r2 IH2|r1 IH1 r2 IH2|r1 IH1];
    cbn [group_free]; intros Hgf A s caps k a H; cbn [Re.match_re min_len] in *.
  - destruct (Py.strip_prefix l s) as [rest|] eqn:E; [|discriminate].
    apply strip_prefix_some in E as [-> Hle]. exists (String.length l). split; [lia|exact H].
  - apply backtrack_some in H as (m & Hm & Hf).
    pose proof (cap_le hi (Py.span p s)). pose proof (span_le_length p s).
    exists m. split; [lia|exact Hf].
  - apply andb_prop in Hgf as [H1 H2].
    apply (IH1 H1) in H as (n1 & Hn1 & H).
    apply (IH2 H2) in H as (n2 & Hn2 & H).
    rewrite length_drop in Hn2. rewrite drop_drop in H.
    exists (n1 + n2)%nat. split; [lia|exact H].
  - apply andb_prop in Hgf as [H1 H2].
    destruct (Re.match_re r1 s caps k) eqn:E1.
    + injection H as ->. apply (IH1 H1) in E1 as (n & Hn & E1).
      exists n. split; [lia|exact E1].
    + apply (IH2 H2) in H as (n & Hn & H). exists n. split; [lia|exact H].
  - discriminate.
Qed.

Lemma search_some (r : Re.regex) (s : string) (caps : list string) :
  Re.search r s = Some caps ->
  exists s' n, Re.match_at r s' = Some (n, caps).
Proof.
  induction s as [|c s IH]; cbn [Re.search].
  - destruct (Re.match_at r EmptyString) as [[n caps']|] eqn:E; [|discriminate].
    intros [= <-]. eauto.
  - destruct (Re.match_at r (String c s)) as [[n caps']|] eqn:E; [|exact IH].
    intros [= <-]. eauto.
Qed.

Lemma take_nonempty (n : nat) (s : string) :
  (1 <= n <= String.length s)%nat -> Py.truthy (Py.take n s) = true.
Proof. destruct n, s; simpl; intros; try lia; reflexivity. Qed.

(** The group of an ISO match is never empty. *)
Lemma iso_group_nonempty (text : string) (date_match : list string) :
  Re.search iso_date_re text = Some date_match ->
  Py.truthy (Re.group date_match 1) = true.
Proof.
  intros H. apply search_some in H as (s & n & H).
  unfold Re.match_at, iso_date_re in H. cbn [Re.match_re] in H.
  apply match_re_consumes in H as (m & Hm & H); [|reflexivity].
  injection H as _ <-. cbn [app Re.group Nat.sub nth].
  rewrite length_drop. change (min_len _) with 10%nat in Hm.
  apply take_nonempty. lia.
Qed.

Lemma strptime_raises (s : string) (e : pyexc) :
  Datetime.strptime_B_d_Y s = Raise e -> e = ValueError.
Proof.
  unfold Datetime.strptime_B_d_Y.
  repeat match goal with
         | |- context [match ?x with _ => _ end] => destruct x
         end; congruence.
Qed.

Lemma strftime_nonempty (d : Datetime.datetime) :
  Py.truthy (Datetime.strftime_Y_m_d d) = true.
Proof.
  unfold Datetime.strftime_Y_m_d.
  destruct (Py.decimal (Datetime.year d)); reflexivity.
Qed.

Lemma convert_long_date_nonempty (month day year iso : string) :
  convert_long_date month day year = Some iso -> Py.truthy iso = true.
Proof.
  unfold convert_long_date.
  destruct (Datetime.strptime_B_d_Y _); [|discriminate].
  intros [= <-]. apply strftime_nonempty.
Qed.

Lemma store_parsed_date_eq (month day year : string) (metadata : gmap string string) :
  store_parsed_date month day year metadata
  = Ok (match convert_long_date month day year with
        | Some iso => <["air_date" := iso]> metadata
        | None => metadata
        end).
Proof.
  unfold store_parsed_date, convert_long_date.
  destruct (Datetime.strptime_B_d_Y _) as [d|e] eqn:E; [reflexivity|].
  apply strptime_raises in E. subst e. reflexivity.
Qed.

End MatcherFacts.

Section MetadataFacts.

(** Case analysis on every [select_one] of the goal. *)
Ltac case_select soup :=
  repeat match goal with
         | |- context [select_one ?sel soup] => destruct (select_one sel soup)
         end.

Lemma select_one_class (soup : Tag) (c : string) :
  select_one [Compound (by_class c)] soup = None <-> has_marker soup c = false.
Proof.
  unfold select_one, select, has_marker. rewrite head_filter_none.
  assert (E : forall l,
             List.existsb (matches [Compound (by_class c)]) l
             = List.existsb (fun t => List.existsb (String.eqb c) (class_ (tag_attrs t))) l).
  { induction l as [|t l IH]; [reflexivity|].
    cbn [List.existsb]. rewrite IH. f_equal.
    unfold matches. cbn. apply orb_false_r. }
  rewrite E. reflexivity.
Qed.

Lemma set_game_type_lookup (soup : Tag) (metadata : gmap string string) :
  set_game_type soup metadata !! "game_type"
  = Some (if has_marker soup "tournament_game" then "Tournament"
          else if has_marker soup "celebrity_game" then "Celebrity"
          else if has_marker soup "college_game" then "College"
          else "Regular").
Proof.
  unfold set_game_type, Sel.tournament_game, Sel.celebrity_game, Sel.college_game.
  pose proof (select_one_class soup "tournament_game") as H1.
  pose proof (select_one_class soup "celebrity_game") as H2.
  pose proof (select_one_class soup "college_game") as H3.
  case_select soup;
    repeat match goal with
           | |- context [has_marker soup ?c] => destruct (has_marker soup c)
           end;
    try apply lookup_insert_eq;
    repeat match goal with
           | H : _ <-> _ |- _ => destruct H
           end; intuition congruence.
Qed.

Lemma set_game_type_other (soup : Tag) (metadata : gmap string string) (k : string) :
  k <> "game_type" -> set_game_type soup metadata !! k = metadata !! k.
Proof.
  intros Hk. unfold set_game_type.
  case_select soup; apply lookup_insert_ne; congruence.
Qed.

Lemma setdefault_lookup (k v : string) (m : gmap string string) :
  setdefault k v m !! k = Some (default v (m !! k)).
Proof.
  unfold setdefault. destruct (m !! k) eqn:E; [exact E|apply lookup_insert_eq].
Qed.

Lemma setdefault_other (k v k' : string) (m : gmap string string) :
  k <> k' -> setdefault k v m !! k' = m !! k'.
Proof.
  intros Hk. unfold setdefault. destruct (m !! k); [reflexivity|].
  apply lookup_insert_ne, Hk.
Qed.

Lemma set_show_id_air_date (url : string) :
  set_show_id url ∅ !! "air_date" = None.
Proof.
  unfold set_show_id. destruct (Re.search game_id_re url); [|apply lookup_empty].
  rewrite lookup_insert_ne by discriminate. apply lookup_empty.
Qed.

(** The comments step stores the first success of its two strategies. *)
Lemma set_air_date_from_comments_eq (soup : Tag) (metadata : gmap string string) :
  set_air_date_from_comments soup metadata
  = Ok (match comments_text soup ≫= iso_strategy with
        | Some d => <["air_date" := d]> metadata
        | None =>
            match comments_text soup ≫= long_strategy with
            | Some d => <["air_date" := d]> metadata
            | None => metadata
            end
        end).
Proof.
  unfold set_air_date_from_comments, comments_text, iso_strategy, long_strategy.
  destruct (select_one Sel.game_comments soup) as [el|]; [|reflexivity].
  cbn [fmap option_fmap option_map mbind option_bind].
  destruct (Re.search iso_date_re (get_text el)) as [m|]; [reflexivity|].
  cbn [fmap option_fmap option_map mbind option_bind].
  destruct (Re.search long_date_re (get_text el)) as [m|]; [|reflexivity].
  cbn [mbind option_bind]. apply store_parsed_date_eq.
Qed.

(** The title step runs only while no date is stored. *)
Lemma set_air_date_from_title_eq (soup : Tag) (metadata : gmap string string) :
  set_air_date_from_title soup metadata
  = Ok (if get_truthy "air_date" metadata then metadata
        else match title_text soup ≫= title_strategy with
             | Some d => <["air_date" := d]> metadata
             | None => metadata
             end).
Proof.
  unfold set_air_date_from_title, title_text, title_strategy.
  destruct (select_one Sel.title soup) as [el|];
    [|destruct (get_truthy "air_date" metadata); reflexivity].
  cbn [fmap option_fmap option_map mbind option_bind].
  destruct (get_truthy "air_date" metadata); [reflexivity|]. cbn [negb].
  destruct (Re.search title_date_re (get_text el)) as [m|]; [|reflexivity].
  cbn [mbind option_bind]. apply store_parsed_date_eq.
Qed.

Lemma iso_strategy_nonempty (text d : string) :
  iso_strategy text = Some d -> Py.truthy d = true.
Proof.
  unfold iso_strategy.
  destruct (Re.search iso_date_re text) as [m|] eqn:E; [|discriminate].
  intros [= <-]. exact (iso_group_nonempty text m E).
Qed.

Lemma long_strategy_nonempty (text d : string) :
  long_strategy text = Some d -> Py.truthy d = true.
Proof.
  unfold long_strategy. destruct (Re.search long_date_re text); [|discriminate].
  apply convert_long_date_nonempty.
Qed.

(** The metadata dict always comes back, with these three lookups. *)
Lemma extract_show_metadata_eq (soup : Tag) (url : string) :
  exists metadata,
    extract_show_metadata soup url = Ok metadata
    /\ metadata !! "air_date"
       = Some (first_success [comments_text soup ≫= iso_strategy;
                              comments_text soup ≫= long_strategy;
                              title_text soup ≫= title_strategy])
    /\ metadata !! "game_type"
       = Some (if has_marker soup "tournament_game" then "Tournament"
               else if has_marker soup "celebrity_game" then "Celebrity"
               else if has_marker soup "college_game" then "College"
               else "Regular").
Proof.
  unfold extract_show_metadata.
  rewrite set_air_date_from_comments_eq. cbn [mbind exn_bind].
  rewrite set_air_date_from_title_eq. cbn [mbind exn_bind].
  eexists. split; [reflexivity|]. split.
  - rewrite setdefault_other, setdefault_lookup, setdefault_other,
      set_game_type_other by discriminate.
    pose proof (set_show_id_air_date url) as H0.
    unfold get_truthy. cbn [first_success].
    destruct (comments_text soup ≫= iso_strategy) as [d|] eqn:E1.
    { rewrite lookup_insert_eq.
      destruct (comments_text soup) as [t|]; [|discriminate].
      rewrite (iso_strategy_nonempty t d E1), lookup_insert_eq. reflexivity. }
    destruct (comments_text soup ≫= long_strategy) as [d|] eqn:E2.
    { rewrite lookup_insert_eq.
      destruct (comments_text soup) as [t|]; [|discriminate].
      rewrite (long_strategy_nonempty t d E2), lookup_insert_eq. reflexivity. }
    rewrite H0.
    destruct (title_text soup ≫= title_strategy) as [d|];
      [rewrite lookup_insert_eq|rewrite H0]; reflexivity.
  - rewrite setdefault_lookup, setdefault_other, setdefault_other,
      set_game_type_lookup by discriminate.
    reflexivity.
Qed.

End MetadataFacts.

(** C9. The game type is decided by the markers tournament, celebrity and
    college in that order, the first one present winning, and is Regular
    when none is present; the key is always there, with one of four tags. *)
Theorem game_type_precedence (soup : Tag) (url : string) :
  exists metadata,
    extract_show_metadata soup url = Ok metadata
    /\ metadata !! "game_type"
       = Some (if has_marker soup "tournament_game" then "Tournament"
               else if has_marker soup "celebrity_game" then "Celebrity"
               else if has_marker soup "college_game" then "College"
               else "Regular")
    /\ exists tag, metadata !! "game_type" = Some tag
                   /\ In tag ["Regular"; "Tournament"; "Celebrity"; "College"].
Proof.
  destruct (extract_show_metadata_eq soup url) as (metadata & E & _ & Hg).
  exists metadata. split; [exact E|]. split; [exact Hg|].
  eexists. split; [exact Hg|].
  destruct (has_marker soup "tournament_game"); [simpl; auto|].
  destruct (has_marker soup "celebrity_game"); [simpl; auto|].
  destruct (has_marker soup "college_game"); simpl; auto.
Qed.

(** C1, as stated, fails: an ISO-shaped text of the comments that names no
    calendar date is stored as it is, and the title, whose strategy would
    have given a date, is not consulted. *)
Lemma iso_match_not_validated :
  (exists metadata,
      extract_show_metadata bad_iso_soup "showgame.php?game_id=9000" = Ok metadata
      /\ metadata !! "air_date" = Some "2024-13-45")
  /\ comments_text bad_iso_soup ≫= iso_strategy = Some "2024-13-45"
  /\ iso_calendar_date "2024-13-45" = false
  /\ title_text bad_iso_soup ≫= title_strategy = Some "2024-04-10"
  /\ air_date_as_specified bad_iso_soup = "2024-04-10"
  /\ ~ (forall soup url, exists metadata,
          extract_show_metadata soup url = Ok metadata
          /\ metadata !! "air_date" = Some (air_date_as_specified soup)).
Proof.
  split; [eexists; split; vm_compute; reflexivity|].
  repeat (split; [vm_compute; reflexivity|]).
  intros H. destruct (H bad_iso_soup EmptyString) as (metadata & E & Hd).
  vm_compute in E. injection E as <-.
  vm_compute in Hd. discriminate Hd.
Qed.

(** C1, amended. The air date is the first success of three attempts in
    this order: the ISO text of the comments, taken as it is found; the
    long-form date of the comments; the weekday-prefixed long-form date of
    the title.  A long-form date that is no calendar date counts as a
    failure, and the air date is empty when all three fail. *)
Theorem air_date_fallback_chain (soup : Tag) (url : string) :
  exists metadata,
    extract_show_metadata soup url = Ok metadata
    /\ metadata !! "air_date"
       = Some (first_success [comments_text soup ≫= iso_strategy;
                              comments_text soup ≫= long_strategy;
                              title_text soup ≫= title_strategy]).
Proof.
  destruct (extract_show_metadata_eq soup url) as (metadata & E & Ha & _).
  exists metadata. split; assumption.
Qed.

(** ** Further properties of the text helpers *)

Section VisibleFacts.

Lemma visible_app (a b : string) : visible (a +:+ b) = visible a +:+ visible b.
Proof.
  unfold visible. induction a as [|c a IH]; [reflexivity|].
  rewrite append_cons. cbn [Py.filter]. destruct (nonspace c); rewrite IH; reflexivity.
Qed.

Lemma visible_cons_space (c : ascii) (s : string) :
  Py.isspace c = true -> visible (String c s) = visible s.
Proof. intros H. unfold visible, nonspace. cbn [Py.filter]. rewrite H. reflexivity. Qed.

Lemma visible_cons_other (c : ascii) (s : string) :
  Py.isspace c = false -> visible (String c s) = String c (visible s).
Proof. intros H. unfold visible, nonspace. cbn [Py.filter]. rewrite H. reflexivity. Qed.

Lemma visible_sub_ws (s : string) :
  visible (Re.sub_from ws_run " " s 0) = visible s
  /\ visible (Re.sub_from ws_run " " s (Py.span Py.isspace s)) = visible s.
Proof.
  induction s as [|c s (IH0 & IHk)]; [split; reflexivity|].
  destruct (Py.isspace c) eqn:Hc.
  - rewrite (sub_ws_cons_space c s Hc). cbn [Py.span]. rewrite Hc.
    cbn [Re.sub_from]. rewrite (visible_cons_space c s Hc).
    rewrite (visible_cons_space " ") by reflexivity. split; exact IHk.
  - rewrite (sub_ws_cons_other c s Hc). cbn [Py.span]. rewrite Hc.
    rewrite (sub_ws_cons_other c s Hc), !(visible_cons_other c) by exact Hc.
    rewrite IH0. split; reflexivity.
Qed.

Lemma visible_lstrip (s : string) : visible (Py.lstrip s) = visible s.
Proof.
  induction s as [|c s IH]; [reflexivity|]. cbn [Py.lstrip].
  destruct (Py.isspace c) eqn:Hc; [|reflexivity].
  rewrite (visible_cons_space c s Hc). exact IH.
Qed.

Lemma visible_rstrip (s : string) : visible (Py.rstrip s) = visible s.
Proof.
  induction s as [|c s IH]; [reflexivity|]. cbn [Py.rstrip].
  destruct (Py.isspace c) eqn:Hc.
  - rewrite (visible_cons_space c s Hc).
    destruct (Py.rstrip s) as [|d r]; [exact IH|].
    rewrite (visible_cons_space c _ Hc). exact IH.
  - rewrite (visible_cons_other c s Hc), <- IH.
    destruct (Py.rstrip s) as [|d r]; apply (visible_cons_other c _ Hc).
Qed.

Lemma visible_strip (s : string) : visible (Py.strip s) = visible s.
Proof. unfold Py.strip. rewrite visible_rstrip. apply visible_lstrip. Qed.

Lemma visible_squish (t : string) : visible (squish (Some t)) = visible t.
Proof.
  unfold squish, Re.sub. rewrite visible_strip. apply (visible_sub_ws t).
Qed.

(** What [squish] returns is in normal form. *)
Lemma squish_normal (text : option string) : normal_text (squish text) = true.
Proof.
  destruct text as [t|]; [|reflexivity].
  unfold normal_text, squish, Py.strip, Re.sub.
  destruct (sub_ws_single_spaced t) as (H0 & _ & _).
  rewrite single_spaced_rstrip by apply single_spaced_lstrip, H0.
  rewrite rstrip_head by apply lstrip_no_leading.
  rewrite rstrip_no_trailing. reflexivity.
Qed.

Lemma normal_text_parts (s : string) :
  normal_text s = true ->
  single_spaced s = true /\ starts_with_ws s = false /\ ends_with_ws s = false.
Proof.
  unfold normal_text. intros H.
  apply andb_prop in H as [H He]. apply andb_prop in H as [Hs Hh].
  apply negb_true_iff in He, Hh. auto.
Qed.

Lemma squish_of_normal (s : string) : normal_text s = true -> squish (Some s) = s.
Proof.
  intros H. apply normal_text_parts in H as (Hs & Hh & He).
  unfold squish, Re.sub, Py.strip.
  rewrite sub_ws_id, lstrip_id, rstrip_id; auto.
Qed.

Lemma truthy_app (a b : string) : Py.truthy (a +:+ b) = Py.truthy a || Py.truthy b.
Proof. destruct a; reflexivity. Qed.

Lemma truthy_visible (s : string) : Py.truthy (visible s) = Py.existsb nonspace s.
Proof.
  induction s as [|c s IH]; [reflexivity|].
  unfold visible in *. cbn [Py.filter Py.existsb].
  destruct (nonspace c); [reflexivity|exact IH].
Qed.

Lemma truthy_of_visible (s : string) :
  starts_with_ws s = false -> Py.truthy s = Py.truthy (visible s).
Proof.
  destruct s as [|c s]; [reflexivity|]. unfold starts_with_ws. cbn [Py.head].
  intros Hc. rewrite (visible_cons_other c s Hc). reflexivity.
Qed.

Lemma truthy_visible_all (l : list string) :
  Py.truthy (visible_all l) = List.existsb (Py.existsb nonspace) l.
Proof.
  induction l as [|s l IH]; [reflexivity|].
  cbn [visible_all List.existsb]. rewrite truthy_app, truthy_visible, IH. reflexivity.
Qed.

Lemma append_nil_r (s : string) : s +:+ EmptyString = s.
Proof. induction s as [|c s IH]; [reflexivity|]. rewrite append_cons, IH. reflexivity. Qed.

Lemma visible_join_cons (t : string) (rest : list string) :
  visible (Py.join " " (t :: rest)) = visible t +:+ visible (Py.join " " rest).
Proof.
  destruct rest as [|u rest].
  - cbn [Py.join]. change (visible EmptyString) with EmptyString.
    rewrite append_nil_r. reflexivity.
  - change (Py.join " " (t :: u :: rest)) with (t +:+ " " +:+ Py.join " " (u :: rest)).
    rewrite !visible_app. reflexivity.
Qed.

Lemma truthy_false_empty (s : string) : Py.truthy s = false -> s = EmptyString.
Proof. destruct s; [reflexivity|discriminate]. Qed.

Lemma visible_get_text_strip (e : Tag) :
  visible (get_text_strip " " e) = visible_all (all_strings e).
Proof.
  unfold get_text_strip. induction (all_strings e) as [|s l IH]; [reflexivity|].
  cbn [map List.filter visible_all]. rewrite <- IH, <- (visible_strip s).
  destruct (Py.truthy (Py.strip s)) eqn:Ht.
  - apply visible_join_cons.
  - apply truthy_false_empty in Ht. rewrite Ht. reflexivity.
Qed.

End VisibleFacts.

(** X1. [squish] keeps every character that is not whitespace, in order:
    only whitespace is dropped or replaced. *)
Theorem squish_keeps_visible (text : option string) :
  visible (squish text)
  = match text with
    | Some t => visible t
    | None => EmptyString
    end.
Proof. destruct text as [t|]; [apply visible_squish|reflexivity]. Qed.

(** X2. The strings [squish] leaves unchanged are exactly those in its
    normal form: single spaces only, none leading, none trailing. *)
Theorem squish_fixed_points (s : string) :
  String.eqb (squish (Some s)) s = normal_text s.
Proof.
  destruct (normal_text s) eqn:Hn.
  - rewrite (squish_of_normal s Hn). apply String.eqb_refl.
  - apply String.eqb_neq. intros E.
    pose proof (squish_normal (Some s)) as H. rewrite E in H. congruence.
Qed.


(** X4. [text_or_blank] gives text in normal form, and gives the empty string
    exactly when the element is absent or every string [get_text] reads
    below it is whitespace only. *)
Theorem text_or_blank_blank (el : option Tag) :
  normal_text (text_or_blank el) = true
  /\ Py.truthy (text_or_blank el)
     = match el with
       | Some e => List.existsb (Py.existsb nonspace) (all_strings e)
       | None => false
       end.
Proof.
  destruct el as [e|]; [|split; reflexivity].
  unfold text_or_blank.
  pose proof (squish_normal (Some (get_text_strip " " e))) as Hn.
  split; [exact Hn|].
  apply normal_text_parts in Hn as (_ & Hh & _).
  rewrite (truthy_of_visible _ Hh), visible_squish, visible_get_text_strip.
  apply truthy_visible_all.
Qed.

(** ** Further properties of the money parser *)

Section MoneyContext.

Lemma existsb_app (p : ascii -> bool) (x y : string) :
  Py.existsb p (x +:+ y) = Py.existsb p x || Py.existsb p y.
Proof.
  induction x as [|c x IH]; [reflexivity|].
  rewrite append_cons. cbn [Py.existsb]. rewrite IH. apply orb_assoc.
Qed.

Lemma remove_char_app (c : ascii) (x y : string) :
  Py.remove_char c (x +:+ y) = Py.remove_char c x +:+ Py.remove_char c y.
Proof.
  unfold Py.remove_char. induction x as [|d x IH]; [reflexivity|].
  rewrite append_cons. cbn [Py.filter]. destruct (negb (Ascii.eqb d c)); rewrite IH; reflexivity.
Qed.

Lemma remove_char_all (c : ascii) (x : string) :
  Py.forallb (Re.is_char c) x = true -> Py.remove_char c x = EmptyString.
Proof.
  unfold Py.remove_char, Re.is_char. induction x as [|d x IH]; [reflexivity|].
  cbn [Py.forallb Py.filter]. intros H. apply andb_prop in H as [Hd Hx].
  rewrite Ascii.eqb_sym, Hd. cbn [negb]. auto.
Qed.

Lemma findall_last (t : string) :
  Py.existsb Py.isdigit t = true ->
  exists l g, Re.findall money_group t = l ++ [g].
Proof.
  intros H. apply findall_has_digit in H.
  destruct (exists_last H) as (l & g & E). eauto.
Qed.

Lemma comma_is_group_char (x : string) :
  Py.forallb (Re.is_char ",") x = true -> Py.forallb digit_or_comma x = true.
Proof.
  apply forallb_weaken. intros c Hc. unfold digit_or_comma, Re.is_char in *.
  rewrite Ascii.eqb_sym, Hc. apply orb_true_r.
Qed.

Lemma money_group_app (g cs : string) :
  is_money_group g = true -> Py.forallb (Re.is_char ",") cs = true ->
  is_money_group (g +:+ cs) = true.
Proof.
  destruct g as [|c g]; [discriminate|]. rewrite append_cons. cbn [is_money_group].
  intros H Hcs. apply andb_prop in H as [Hc Hg].
  rewrite Hc, forallb_app, Hg, (comma_is_group_char cs Hcs). reflexivity.
Qed.

(** The digit groups of [s] followed by text without a digit: the last one
    may gain trailing commas, nothing else changes. *)
Lemma findall_suffix (s post : string) :
  Py.existsb Py.isdigit s = true ->
  Py.existsb Py.isdigit post = false ->
  exists l g cs,
    Re.findall money_group s = l ++ [g]
    /\ Re.findall money_group (s +:+ post) = l ++ [g +:+ cs]
    /\ Py.forallb (Re.is_char ",") cs = true.
Proof.
  intros Hs Hpost.
  destruct (last_group_decomposition s Hs)
    as (pre & commas & g & post0 & E & Hpre & Hcm & Hg & Hp0 & Hnd).
  pose proof (findall_decomposed pre commas g post0 Hpre Hcm Hg Hp0 Hnd) as Hf.
  rewrite <- E in Hf.
  exists (Re.findall money_group pre), g.
  destruct post0 as [|c p0].
  - destruct (take_drop_span (Re.is_char ",") post) as (E1 & E2 & E3).
    set (cs := Py.take (Py.span (Re.is_char ",") post) post) in *.
    set (post' := Py.drop (Py.span (Re.is_char ",") post) post) in *.
    exists cs. split; [exact Hf|]. split; [|exact E2].
    assert (Hnd' : Py.existsb Py.isdigit post' = false).
    { apply existsb_drop, Hpost. }
    assert (Hout : starts_outside_group post' = true).
    { unfold starts_outside_group. destruct post' as [|d p']; [reflexivity|].
      cbn [Py.head] in *. cbn [Py.existsb] in Hnd'.
      apply orb_false_elim in Hnd' as [Hd _]. apply negb_true_iff in E3.
      unfold digit_or_comma, Re.is_char in *.
      rewrite Hd, Ascii.eqb_sym, E3. reflexivity. }
    rewrite E, append_nil_r, E1, !append_assoc, <- (append_assoc g cs post').
    apply findall_decomposed; auto using money_group_app.
  - exists EmptyString. rewrite append_nil_r. split; [exact Hf|]. split; [|reflexivity].
    rewrite E, !append_assoc.
    apply findall_decomposed; auto.
    rewrite existsb_app, Hnd, Hpost. reflexivity.
Qed.

End MoneyContext.

(** X5. Text in front of the amount does not matter: when [pre] does not end
    in a digit or a comma and [t] has a digit, [parse_money] gives for [pre]
    followed by [t] what it gives for [t]. *)
Theorem parse_money_ignores_prefix (pre t : string) :
  ends_outside_group pre = true ->
  Py.existsb Py.isdigit t = true ->
  parse_money (Some (pre +:+ t)) = parse_money (Some t).
Proof.
  intros Hpre Ht. destruct (findall_last t Ht) as (l & g & E).
  unfold parse_money. rewrite (parse_money_of_findall _ _ _ _ E).
  apply (parse_money_of_findall _ _ (Re.findall money_group pre ++ l)).
  rewrite findall_app, E, app_assoc by exact Hpre. reflexivity.
Qed.

Lemma parse_money_ignores_prefix_witness :
  parse_money (Some ("DD: $" +:+ "1,800")) = parse_money (Some "1,800").
Proof. apply parse_money_ignores_prefix; reflexivity. Defined.

(** X6. Text after the last digit does not matter: for [post] without a
    digit, [parse_money] gives for [s] followed by [post] what it gives for
    [s]. *)
Theorem parse_money_ignores_suffix (s post : string) :
  Py.existsb Py.isdigit post = false ->
  parse_money (Some (s +:+ post)) = parse_money (Some s).
Proof.
  intros Hpost. destruct (Py.existsb Py.isdigit s) eqn:Hs.
  - destruct (findall_suffix s post Hs Hpost) as (l & g & cs & E1 & E2 & Hcs).
    unfold parse_money.
    rewrite (parse_money_of_findall _ _ _ _ E1), (parse_money_of_findall _ _ _ _ E2).
    rewrite remove_char_app, (remove_char_all "," cs Hcs), append_nil_r. reflexivity.
  - unfold parse_money. rewrite !parse_money_no_digit; auto.
    rewrite existsb_app, Hs, Hpost. reflexivity.
Qed.

Lemma parse_money_ignores_suffix_witness :
  parse_money (Some ("$1,800" +:+ ", or so")) = parse_money (Some "$1,800").
Proof. apply parse_money_ignores_suffix; reflexivity. Defined.

(** ** Further properties of the metadata extractor *)

Section ShowIdFacts.

Lemma match_at_game_id (s : string) :
  Re.match_at game_id_re s
  = match Py.strip_prefix "game_id=" s with
    | Some rest =>
        match Py.span Py.isdigit rest with
        | O => None
        | S n => Some ((String.length s - String.length (Py.drop (S n) rest))%nat,
                       [Py.take (S n) rest])
        end
    | None => None
    end.
Proof.
  unfold Re.match_at, game_id_re, Re.plus. cbn [Re.seq Re.match_re Re.cap].
  destruct (Py.strip_prefix "game_id=" s) as [rest|]; [|reflexivity].
  pose proof (span_le_length Py.isdigit rest) as Hle.
  destruct (Py.span Py.isdigit rest) as [|n] eqn:E; [reflexivity|].
  erewrite backtrack_first; [|lia|reflexivity].
  cbn [app]. rewrite length_drop.
  replace (String.length rest - (String.length rest - S n))%nat with (S n) by lia.
  reflexivity.
Qed.

Lemma forallb_take_span (p : ascii -> bool) (s : string) :
  Py.forallb p (Py.take (Py.span p s) s) = true.
Proof. apply (take_drop_span p s). Qed.

(** The group of a game-id match is a non-empty run of digits. *)
Lemma game_id_group (url : string) (m : list string) :
  Re.search game_id_re url = Some m ->
  Py.forallb Py.isdigit (Re.group m 1) = true /\ Py.truthy (Re.group m 1) = true.
Proof.
  intros H. apply search_some in H as (s & n & H).
  rewrite match_at_game_id in H.
  destruct (Py.strip_prefix "game_id=" s) as [rest|]; [|discriminate].
  destruct (Py.span Py.isdigit rest) as [|k] eqn:E; [discriminate|].
  assert (Hm : m = [Py.take (S k) rest]) by congruence. subst m.
  change (Re.group [Py.take (S k) rest] 1) with (Py.take (S k) rest). split.
  - rewrite <- E. apply forallb_take_span.
  - destruct rest; [discriminate E|reflexivity].
Qed.

Lemma search_has_game_id (url : string) :
  has_game_id url = match Re.search game_id_re url with
                    | Some _ => true
                    | None => false
                    end.
Proof.
  induction url as [|c url IH]; cbn [has_game_id Re.search];
    rewrite match_at_game_id.
  - reflexivity.
  - destruct (Py.strip_prefix "game_id=" (String c url)) as [rest|]; [|exact IH].
    destruct rest as [|d rest]; [exact IH|].
    cbn [Py.span]. destruct (Py.isdigit d); [reflexivity|exact IH].
Qed.

Lemma strip_prefix_eq (l s rest : string) :
  Py.strip_prefix l s = Some rest -> s = l +:+ rest.
Proof.
  revert s; induction l as [|a l IH]; intros s H.
  - injection H as ->. reflexivity.
  - destruct s as [|b s]; [discriminate|]. cbn [Py.strip_prefix] in H.
    destruct (Ascii.eqb a b) eqn:E; [|discriminate].
    apply Ascii.eqb_eq in E. subst b. rewrite append_cons, <- (IH s H). reflexivity.
Qed.

(** The text [game_id=] does not begin inside a text without [=] that is
    followed by [game_id=]. *)
Lemma no_game_id_inside (x y : string) :
  x <> EmptyString ->
  Py.existsb (Re.is_char "=") x = false ->
  Py.strip_prefix "game_id=" (x +:+ "game_id=" +:+ y) = None.
Proof.
  intros Hx Hno.
  destruct (Py.strip_prefix "game_id=" (x +:+ "game_id=" +:+ y)) as [r|] eqn:E;
    [|reflexivity].
  exfalso. apply strip_prefix_eq in E.
  destruct x as [|c1 x]; [congruence|].
  do 7 (simpl in E; injection E as -> E; destruct x as [|? x]; [discriminate E|]).
  simpl in E. injection E as -> E. simpl in Hno. discriminate Hno.
Qed.

Lemma search_game_id_url (pre ds post : string) :
  Py.existsb (Re.is_char "=") pre = false ->
  Py.forallb Py.isdigit ds = true ->
  Py.truthy ds = true ->
  match Py.head post with Some c => negb (Py.isdigit c) | None => true end = true ->
  Re.search game_id_re (pre +:+ "game_id=" +:+ ds +:+ post) = Some [ds].
Proof.
  intros Hpre Hds Hne Hpost.
  induction pre as [|c pre IH].
  - change (EmptyString +:+ "game_id=" +:+ ds +:+ post)
      with (String "g" (String "a" (String "m" (String "e" (String "_" (String "i"
            (String "d" (String "=" (ds +:+ post))))))))).
    cbn [Re.search]. rewrite match_at_game_id.
    cbn [Py.strip_prefix Ascii.eqb Bool.eqb].
    destruct (span_all Py.isdigit ds post Hds Hpost) as (E1 & E2 & _).
    rewrite E1. destruct ds as [|d ds]; [discriminate|].
    cbn [String.length]. cbn [String.length] in E2. rewrite E2. reflexivity.
  - cbn [Py.existsb] in Hpre. apply orb_false_elim in Hpre as [Hc Hpre].
    rewrite append_cons. cbn [Re.search]. rewrite match_at_game_id, <- append_cons.
    rewrite no_game_id_inside; [|discriminate|cbn [Py.existsb]; rewrite Hc; exact Hpre].
    rewrite append_cons. apply IH, Hpre.
Qed.

End ShowIdFacts.

Section ShapeFacts.








Lemma append_nil_l (s : string) : EmptyString +:+ s = s.
Proof. reflexivity. Qed.

Lemma digit_char_digit (k : Z) :
  0 <= k < 10 -> Py.isdigit (Py.digit_char k) = true /\ Py.digit_value (Py.digit_char k) = k.
Proof.
  intros Hk.
  assert (E : k = 0 \/ k = 1 \/ k = 2 \/ k = 3 \/ k = 4
              \/ k = 5 \/ k = 6 \/ k = 7 \/ k = 8 \/ k = 9) by lia.
  repeat (destruct E as [->|E]; [split; reflexivity|]). subst k. split; reflexivity.
Qed.

Lemma digit_char_mod (n : Z) :
  Py.isdigit (Py.digit_char (n mod 10)) = true
  /\ Py.digit_value (Py.digit_char (n mod 10)) = n mod 10.
Proof. apply digit_char_digit, Z.mod_pos_bound. lia. Qed.

End ShapeFacts.

(** ** Properties of the decimal conversions *)

Section StrFacts.

Lemma str_digits_value (fuel : nat) :
  forall (n : Z) (acc : string),
  0 <= n < 2 ^ Z.of_nat fuel ->
  Py.digits_value 0 (Py.str_digits fuel n acc) = Py.digits_value n acc.
Proof.
  induction fuel as [|f IH]; intros n acc Hn.
  - change (2 ^ Z.of_nat 0) with 1 in Hn. replace n with 0 by lia. reflexivity.
  - rewrite Nat2Z.inj_succ, Z.pow_succ_r in Hn by lia.
    cbn [Py.str_digits]. destruct (Z.ltb_spec n 10).
    + cbn [Py.digits_value]. rewrite (proj2 (digit_char_mod n)).
      rewrite Z.mod_small by lia. reflexivity.
    + rewrite IH by (split; [apply Z.div_pos; lia|];
                     Z.to_euclidean_division_equations; lia).
      cbn [Py.digits_value]. rewrite (proj2 (digit_char_mod n)).
      f_equal. Z.to_euclidean_division_equations; lia.
Qed.

Lemma str_digits_digits (fuel : nat) :
  forall (n : Z) (acc : string),
  Py.forallb Py.isdigit acc = true ->
  Py.forallb Py.isdigit (Py.str_digits fuel n acc) = true.
Proof.
  induction fuel as [|f IH]; intros n acc Hacc; [exact Hacc|].
  cbn [Py.str_digits].
  assert (H : Py.forallb Py.isdigit (String (Py.digit_char (n mod 10)) acc) = true).
  { cbn [Py.forallb]. rewrite (proj1 (digit_char_mod n)). exact Hacc. }
  destruct (n <? 10); [exact H|apply IH, H].
Qed.

Lemma str_digits_nonempty (fuel : nat) :
  forall (n : Z) (acc : string),
  Py.truthy acc = true -> Py.truthy (Py.str_digits fuel n acc) = true.
Proof.
  induction fuel as [|f IH]; intros n acc Hacc; [exact Hacc|].
  cbn [Py.str_digits]. destruct (n <? 10); [reflexivity|apply IH; reflexivity].
Qed.

(** A number below the [k]-th power of ten has at most [k] digits. *)
Lemma str_digits_length (fuel : nat) :
  forall (n : Z) (acc : string) (k : nat),
  0 <= n < 10 ^ Z.of_nat k -> (1 <= k)%nat ->
  (String.length (Py.str_digits fuel n acc) <= k + String.length acc)%nat.
Proof.
  induction fuel as [|f IH]; intros n acc k Hn Hk; [simpl; lia|].
  cbn [Py.str_digits]. destruct (Z.ltb_spec n 10); [simpl; lia|].
  destruct k as [|k]; [lia|].
  rewrite Nat2Z.inj_succ, Z.pow_succ_r in Hn by lia.
  assert (Hk' : (1 <= k)%nat).
  { destruct k; [|lia]. change (10 ^ Z.of_nat 0) with 1 in Hn. lia. }
  specialize (IH (n / 10) (String (Py.digit_char (n mod 10)) acc) k).
  cbn [String.length] in IH. rewrite IH; [lia| |exact Hk'].
  split; [apply Z.div_pos; lia|].
  apply Z.div_lt_upper_bound; lia.
Qed.

Lemma decimal_fuel (n : Z) : 0 <= n -> 0 <= n < 2 ^ Z.of_nat (S (Z.to_nat (Z.log2 n))).
Proof.
  intros Hn. split; [exact Hn|].
  rewrite Nat2Z.inj_succ, Z2Nat.id by apply Z.log2_nonneg.
  destruct (Z.eq_dec n 0) as [->|]; [reflexivity|].
  apply Z.log2_spec. lia.
Qed.

(** The decimal text of a number that is not negative: digits, at least
    one, that write the number. *)
Lemma decimal_spec (n : Z) :
  0 <= n ->
  exists c r,
    Py.decimal n = String c r
    /\ Py.isdigit c = true /\ Py.forallb Py.isdigit r = true
    /\ Py.digits_value 0 (String c r) = n.
Proof.
  intros Hn. unfold Py.decimal.
  pose proof (str_digits_digits (S (Z.to_nat (Z.log2 n))) n EmptyString eq_refl) as Hd.
  pose proof (str_digits_value (S (Z.to_nat (Z.log2 n))) n EmptyString
                (decimal_fuel n Hn)) as Hv.
  assert (Ht : Py.truthy (Py.str_digits (S (Z.to_nat (Z.log2 n))) n EmptyString) = true).
  { cbn [Py.str_digits]. destruct (n <? 10); [reflexivity|].
    apply str_digits_nonempty. reflexivity. }
  destruct (Py.str_digits (S (Z.to_nat (Z.log2 n))) n EmptyString) as [|c r];
    [discriminate|].
  cbn [Py.forallb] in Hd. apply andb_prop in Hd as [Hc Hr].
  exists c, r. repeat split; auto.
Qed.

Lemma decimal_length (n : Z) (k : nat) :
  0 <= n < 10 ^ Z.of_nat k -> (1 <= k)%nat ->
  (String.length (Py.decimal n) <= k)%nat.
Proof.
  intros Hn Hk. unfold Py.decimal.
  pose proof (str_digits_length (S (Z.to_nat (Z.log2 n))) n EmptyString k Hn Hk) as H.
  cbn [String.length] in H. lia.
Qed.

Lemma decimal_within_limit (n : Z) :
  0 <= n < 10 ^ Py.int_max_str_digits ->
  (Py.int_max_str_digits <? Z.of_nat (String.length (Py.decimal n))) = false.
Proof.
  intros Hn. apply Z.ltb_ge.
  assert (H0 : 0 <= Py.int_max_str_digits) by (unfold Py.int_max_str_digits; lia).
  rewrite <- (Z2Nat.id _ H0) in Hn.
  pose proof (decimal_length n (Z.to_nat Py.int_max_str_digits) Hn) as H.
  assert (1 <= Z.to_nat Py.int_max_str_digits)%nat
    by (apply (Z2Nat.inj_le 1); unfold Py.int_max_str_digits; lia).
  lia.
Qed.

(** [str] of a number within the limit is its decimal text. *)
Lemma str_fits (n : Z) :
  Z.abs n < 10 ^ Py.int_max_str_digits -> Py.str n = Ok (int_text n).
Proof.
  intros Hn. unfold Py.str, int_text. cbv zeta.
  rewrite decimal_within_limit by lia.
  destruct (Z.ltb_spec n 0).
  - rewrite Z.abs_neq by lia. reflexivity.
  - rewrite Z.abs_eq by lia. reflexivity.
Qed.

Lemma digit_not_special (c : ascii) : Py.isdigit c = true -> Csv.special c = false.
Proof. destruct c as [[] [] [] [] [] [] [] []]; vm_compute; congruence. Qed.

Lemma digits_not_special (s : string) :
  Py.forallb Py.isdigit s = true -> Py.existsb Csv.special s = false.
Proof.
  induction s as [|c s IH]; [reflexivity|].
  cbn [Py.forallb Py.existsb]. intros H. apply andb_prop in H as [Hc Hs].
  rewrite (digit_not_special c Hc), IH; auto.
Qed.

Lemma remove_comma_of_digits (s : string) :
  Py.forallb Py.isdigit s = true -> Py.remove_char "," s = s.
Proof.
  unfold Py.remove_char. induction s as [|c s IH]; [reflexivity|].
  cbn [Py.forallb Py.filter]. intros H. apply andb_prop in H as [Hc Hs].
  destruct (Ascii.eqb c ",") eqn:E.
  - rewrite Ascii.eqb_sym in E. apply (comma_not_digit c) in E. congruence.
  - cbn [negb]. rewrite IH; auto.
Qed.

End StrFacts.

(** ** Properties of the date conversion *)

Section DateFacts.



(** The part of what [strftime] writes after the year. *)
Lemma month_day_text_shape (m d : Z) :
  has_shape month_day_shape
    ("-" +:+ Datetime.zero_padded 2 m +:+ "-" +:+ Datetime.zero_padded 2 d) = true.
Proof.
  unfold Datetime.zero_padded.
  cbn [Datetime.digits_rev rev app string_of_list_ascii].
  repeat (rewrite append_cons || rewrite append_nil_l).
  cbn [has_shape month_day_shape].
  repeat match goal with
         | |- context [ascii_of_N (Z.to_N (48 + ?n mod 10))] =>
             change (ascii_of_N (Z.to_N (48 + n mod 10))) with (Py.digit_char (n mod 10));
             rewrite (proj1 (digit_char_mod n))
         end.
  reflexivity.
Qed.

Lemma month_day_text_fields (m d : Z) :
  0 <= m < 100 -> 0 <= d < 100 ->
  let s := "-" +:+ Datetime.zero_padded 2 m +:+ "-" +:+ Datetime.zero_padded 2 d in
  Py.digits_value 0 (Py.take 2 (Py.drop 1 s)) = m
  /\ Py.digits_value 0 (Py.take 2 (Py.drop 4 s)) = d.
Proof.
  intros Hm Hd. unfold Datetime.zero_padded.
  cbn [Datetime.digits_rev rev app string_of_list_ascii].
  repeat (rewrite append_cons || rewrite append_nil_l).
  cbn [Py.take Py.drop Py.digits_value].
  repeat match goal with
         | |- context [ascii_of_N (Z.to_N (48 + ?n mod 10))] =>
             change (ascii_of_N (Z.to_N (48 + n mod 10))) with (Py.digit_char (n mod 10));
             rewrite (proj2 (digit_char_mod n))
         end.
  split; Z.to_euclidean_division_equations; lia.
Qed.

(** What [strftime] writes for a date of the years 1 to 9999: the year in
    one to four digits, then month and day, all of which read back. *)
Lemma strftime_spec (y m d : Z) :
  1 <= y <= 9999 -> 0 <= m < 100 -> 0 <= d < 100 ->
  let s := Datetime.strftime_Y_m_d (Datetime.mk_datetime y m d) in
  let k := Py.span Py.isdigit s in
  date_shape s = true
  /\ Py.digits_value 0 (Py.take k s) = y
  /\ Py.digits_value 0 (Py.take 2 (Py.drop (k + 1) s)) = m
  /\ Py.digits_value 0 (Py.take 2 (Py.drop (k + 4) s)) = d.
Proof.
  intros Hy Hm Hd. cbv zeta. unfold date_shape, Datetime.strftime_Y_m_d.
  cbn [Datetime.year Datetime.month Datetime.day].
  set (rest := "-" +:+ Datetime.zero_padded 2 m +:+ "-" +:+ Datetime.zero_padded 2 d).
  assert (Hlen : (String.length (Py.decimal y) <= 4)%nat).
  { apply decimal_length; [|lia]. change (10 ^ Z.of_nat 4) with 10000. lia. }
  destruct (decimal_spec y) as (c & r & E & Hc & Hr & Hv); [lia|].
  rewrite E in *.
  assert (Hall : Py.forallb Py.isdigit (String c r) = true).
  { cbn [Py.forallb]. rewrite Hc. exact Hr. }
  destruct (span_all Py.isdigit (String c r) rest Hall eq_refl) as (E1 & E2 & E3).
  rewrite E1, E2, <- !drop_drop, E3.
  destruct (month_day_text_fields m d Hm Hd) as [Em Ed].
  repeat split; [|exact Hv|exact Em|exact Ed].
  unfold rest. rewrite (month_day_text_shape m d), andb_true_r.
  apply andb_true_intro. split; apply Nat.leb_le; simpl in *; lia.
Qed.

Lemma valid_date_range (y m d : Z) :
  Datetime.valid_date y m d = true ->
  1 <= y <= 9999 /\ 0 <= m < 100 /\ 0 <= d < 100.
Proof.
  unfold Datetime.valid_date, Datetime.days_in_month. intros H.
  repeat (apply andb_prop in H as [H ?]).
  repeat match goal with
         | H : (_ <=? _) = true |- _ => apply Z.leb_le in H
         end.
  assert (d <= 31).
  { repeat match goal with
           | H : context [if ?b then _ else _] |- _ => destruct b
           end; lia. }
  lia.
Qed.

(** A long-form date that converts gives a text of the shape of a date that
    names a calendar date. *)
Lemma convert_long_date_calendar (month day year iso : string) :
  convert_long_date month day year = Some iso ->
  date_shape iso = true /\ calendar_date iso = true.
Proof.
  unfold convert_long_date.
  destruct (Datetime.strptime_B_d_Y _) as [dt|] eqn:E; [|discriminate].
  intros [= <-].
  unfold Datetime.strptime_B_d_Y in E.
  destruct (Re.fullmatch _ _) as [caps|]; [|discriminate].
  destruct (Datetime.month_number _ _ _) as [m|]; [|discriminate].
  set (d := Py.digits_value 0 (Re.group caps 2)) in *.
  set (y := Py.digits_value 0 (Re.group caps 3)) in *.
  destruct ((1 <=? d) && (d <=? 31) && Datetime.valid_date y m d) eqn:Hv; [|discriminate].
  injection E as <-. apply andb_prop in Hv as [_ Hv].
  destruct (valid_date_range y m d Hv) as (Hy & Hm & Hd).
  destruct (strftime_spec y m d Hy Hm Hd) as (Hs & E1 & E2 & E3).
  split; [exact Hs|].
  unfold calendar_date. rewrite E1, E2, E3. exact Hv.
Qed.

End DateFacts.

Section MetadataKeys.

#[local] Set Warnings "-clear-no-such-hyp".

Lemma dom_setdefault (k v : string) (m : gmap string string) :
  dom (setdefault k v m) = {[k]} ∪ dom m.
Proof.
  unfold setdefault. destruct (m !! k) eqn:E; [|apply dom_insert_L].
  apply (elem_of_dom_2 m) in E. set_solver.
Qed.

Lemma dom_set_game_type (soup : Tag) (m : gmap string string) :
  dom (set_game_type soup m) = {["game_type"]} ∪ dom m.
Proof.
  unfold set_game_type.
  repeat match goal with
         | |- context [select_one ?sel soup] => destruct (select_one sel soup)
         end; apply dom_insert_L.
Qed.

Lemma set_show_id_lookup (url : string) :
  set_show_id url ∅ !! "show_id"
  = (fun m => Re.group m 1) <$> Re.search game_id_re url.
Proof.
  unfold set_show_id. destruct (Re.search game_id_re url);
    [apply lookup_insert_eq|apply lookup_empty].
Qed.

Lemma dom_set_show_id (url : string) :
  dom (set_show_id url ∅) ⊆ ({["show_id"]} : gset string).
Proof.
  unfold set_show_id. destruct (Re.search game_id_re url);
    rewrite ?dom_insert_L, dom_empty_L; set_solver.
Qed.

(** The metadata dict always comes back, with its show id read off the URL
    and with the three keys of the table and no other. *)
Lemma extract_show_metadata_show_id (soup : Tag) (url : string) :
  exists metadata,
    extract_show_metadata soup url = Ok metadata
    /\ metadata !! "show_id"
       = Some (default EmptyString
                 ((fun m => Re.group m 1) <$> Re.search game_id_re url))
    /\ dom metadata = ({["show_id"; "air_date"; "game_type"]} : gset string).
Proof.
  unfold extract_show_metadata.
  rewrite set_air_date_from_comments_eq. cbn [mbind exn_bind].
  rewrite set_air_date_from_title_eq. cbn [mbind exn_bind].
  eexists. split; [reflexivity|].
  pose proof (set_show_id_lookup url) as Hs.
  pose proof (dom_set_show_id url) as Hd.
  set (m0 := set_show_id url ∅) in *.
  split.
  - rewrite setdefault_other, setdefault_other, setdefault_lookup,
      set_game_type_other by discriminate.
    rewrite <- Hs. f_equal. f_equal.
    repeat match goal with
           | |- context [match ?x with _ => _ end] => destruct x
           | |- context [if ?x then _ else _] => destruct x
           end;
      rewrite ?lookup_insert_ne by discriminate; reflexivity.
  - rewrite !dom_setdefault, dom_set_game_type.
    repeat match goal with
           | |- context [match ?x with _ => _ end] => destruct x
           | |- context [if ?x then _ else _] => destruct x
           end;
      rewrite ?dom_insert_L; set_solver.
Qed.


Lemma long_strategy_calendar (text d : string) :
  long_strategy text = Some d ->
  date_shape d = true /\ calendar_date d = true.
Proof.
  unfold long_strategy. destruct (Re.search long_date_re text); [|discriminate].
  apply convert_long_date_calendar.
Qed.

Lemma title_strategy_calendar (text d : string) :
  title_strategy text = Some d ->
  date_shape d = true /\ calendar_date d = true.
Proof.
  unfold title_strategy. destruct (Re.search title_date_re text); [|discriminate].
  apply convert_long_date_calendar.
Qed.

Lemma bind_some {A B : Type} (o : option A) (f : A -> option B) (b : B) :
  o ≫= f = Some b -> exists a, o = Some a /\ f a = Some b.
Proof. destruct o as [a|]; [eauto|discriminate]. Qed.

End MetadataKeys.

(** X7. The metadata dict has the keys show_id, air_date and game_type, and
    no other key, whatever the document and the URL. *)
Theorem metadata_keys (soup : Tag) (url : string) :
  exists metadata,
    extract_show_metadata soup url = Ok metadata
    /\ dom metadata = ({["show_id"; "air_date"; "game_type"]} : gset string).
Proof.
  destruct (extract_show_metadata_show_id soup url) as (metadata & E & _ & Hd).
  exists metadata. split; assumption.
Qed.

(** X8. The show id is a run of digits, and it is empty exactly when the URL
    nowhere has the text game_id= followed by a digit. *)
Theorem show_id_digits (soup : Tag) (url : string) :
  exists metadata sid,
    extract_show_metadata soup url = Ok metadata
    /\ metadata !! "show_id" = Some sid
    /\ Py.forallb Py.isdigit sid = true
    /\ Py.truthy sid = has_game_id url.
Proof.
  destruct (extract_show_metadata_show_id soup url) as (metadata & E & Hs & _).
  exists metadata. eexists. split; [exact E|]. split; [exact Hs|].
  rewrite search_has_game_id.
  destruct (Re.search game_id_re url) as [m|] eqn:Em; [|split; reflexivity].
  exact (game_id_group url m Em).
Qed.

(** X9. For a URL in which game_id= comes after text without an equals sign
    and is followed by digits and then by no further digit, the show id is
    those digits. *)
Theorem show_id_of_url (soup : Tag) (pre ds post : string) :
  Py.existsb (Re.is_char "=") pre = false ->
  Py.forallb Py.isdigit ds = true ->
  Py.truthy ds = true ->
  match Py.head post with Some c => negb (Py.isdigit c) | None => true end = true ->
  exists metadata,
    extract_show_metadata soup (pre +:+ "game_id=" +:+ ds +:+ post) = Ok metadata
    /\ metadata !! "show_id" = Some ds.
Proof.
  intros Hpre Hds Hne Hpost.
  destruct (extract_show_metadata_show_id soup (pre +:+ "game_id=" +:+ ds +:+ post))
    as (metadata & E & Hs & _).
  exists metadata. split; [exact E|].
  rewrite Hs, (search_game_id_url pre ds post Hpre Hds Hne Hpost). reflexivity.
Qed.

Lemma show_id_of_url_witness :
  exists metadata,
    extract_show_metadata Sample.minimal_soup
      ("https://www.j-archive.com/showgame.php?" +:+ "game_id=" +:+ "8881" +:+ "&x=1")
    = Ok metadata
    /\ metadata !! "show_id" = Some "8881".
Proof. apply show_id_of_url; reflexivity. Defined.


(** X11. When the comments hold no ISO-shaped text, the air date is empty or
    names a calendar date, its year being the digits in front of the first
    dash: the long-form strategies never store a date that does not
    exist. *)
Theorem air_date_calendar (soup : Tag) (url : string) :
  comments_text soup ≫= iso_strategy = None ->
  exists metadata d,
    extract_show_metadata soup url = Ok metadata
    /\ metadata !! "air_date" = Some d
    /\ negb (Py.truthy d) || calendar_date d = true.
Proof.
  intros E1.
  destruct (extract_show_metadata_eq soup url) as (metadata & E & Ha & _).
  exists metadata. eexists. split; [exact E|]. split; [exact Ha|].
  cbn [first_success]. rewrite E1.
  destruct (comments_text soup ≫= long_strategy) as [d|] eqn:E2.
  { apply bind_some in E2 as (t & _ & E2).
    rewrite (proj2 (long_strategy_calendar t d E2)). apply orb_true_r. }
  destruct (title_text soup ≫= title_strategy) as [d|] eqn:E3; [|reflexivity].
  apply bind_some in E3 as (t & _ & E3).
  rewrite (proj2 (title_strategy_calendar t d E3)). apply orb_true_r.
Qed.

Lemma air_date_calendar_witness :
  exists metadata d,
    extract_show_metadata early_soup "showgame.php?game_id=1" = Ok metadata
    /\ metadata !! "air_date" = Some d
    /\ negb (Py.truthy d) || calendar_date d = true.
Proof. apply air_date_calendar. reflexivity. Defined.

(** X12. The show id depends on the URL alone, and the air date and the game
    type on the document alone. *)
Theorem metadata_sources (soup soup' : Tag) (url url' : string) :
  exists a b c,
    extract_show_metadata soup url = Ok a
    /\ extract_show_metadata soup' url = Ok b
    /\ extract_show_metadata soup url' = Ok c
    /\ a !! "show_id" = b !! "show_id"
    /\ a !! "air_date" = c !! "air_date"
    /\ a !! "game_type" = c !! "game_type".
Proof.
  destruct (extract_show_metadata_show_id soup url) as (a & Ea & Hsa & _).
  destruct (extract_show_metadata_show_id soup' url) as (b & Eb & Hsb & _).
  destruct (extract_show_metadata_eq soup url) as (a' & Ea' & Haa & Hga).
  destruct (extract_show_metadata_eq soup url') as (c & Ec & Hac & Hgc).
  assert (a' = a) by congruence. subst a'.
  exists a, b, c. repeat split; congruence.
Qed.

(** ** Further properties of the clue extractors *)

Section RecordFacts.

Lemma digit_value_small (c : ascii) : Py.isdigit c = true -> Py.digit_value c <= 9.
Proof. destruct c as [[] [] [] [] [] [] [] []]; vm_compute; congruence. Qed.

(** A run of [k] digits writes a number below the [k]-th power of ten. *)
Lemma digits_value_bound (s : string) :
  forall acc : Z,
  Py.forallb Py.isdigit s = true -> 0 <= acc ->
  Py.digits_value acc s < (acc + 1) * 10 ^ Z.of_nat (String.length s).
Proof.
  induction s as [|c s IH]; intros acc Hs Hacc.
  - cbn [Py.digits_value String.length]. change (10 ^ Z.of_nat 0) with 1. lia.
  - cbn [Py.forallb] in Hs. apply andb_prop in Hs as [Hc Hs].
    pose proof (digit_value_nonneg c Hc). pose proof (digit_value_small c Hc).
    cbn [Py.digits_value String.length].
    rewrite Nat2Z.inj_succ, Z.pow_succ_r by lia.
    eapply Z.lt_le_trans; [apply IH; [exact Hs|lia]|].
    assert (0 < 10 ^ Z.of_nat (String.length s)) by (apply Z.pow_pos_nonneg; lia).
    nia.
Qed.

(** An amount that comes back is not negative and within the limit. *)
Lemma parse_money_range (raw : option string) (n : Z) :
  parse_money raw = Ok (Some n) -> 0 <= n < 10 ^ Py.int_max_str_digits.
Proof.
  destruct raw as [s|]; [|discriminate].
  destruct (Py.existsb Py.isdigit s) eqn:Hs.
  - destruct (last_group_decomposition s Hs)
      as (pre & commas & g & post & Es & Hpre & Hcm & Hg & Hpost & Hnd).
    pose proof (findall_decomposed pre commas g post Hpre Hcm Hg Hpost Hnd) as Hf.
    rewrite <- Es in Hf. rewrite (parse_money_of_group _ _ _ Hf Hg).
    destruct (Z.leb_spec (Z.of_nat (String.length (Py.remove_char "," g)))
                         Py.int_max_str_digits) as [Hlen|]; [|discriminate].
    intros [= <-]. split; [exact (proj2 (int_of_group g Hg))|].
    destruct (amount_of_group g Hg) as (c & r & E & Hc & Hr). rewrite E in *.
    eapply Z.lt_le_trans.
    + apply digits_value_bound; [cbn [Py.forallb]; rewrite Hc; exact Hr|lia].
    + rewrite Z.mul_1_l. apply Z.pow_le_mono_r; lia.
  - unfold parse_money. rewrite parse_money_no_digit by exact Hs. discriminate.
Qed.

Lemma parse_money_nonneg (raw : option string) (n : Z) :
  parse_money raw = Ok (Some n) -> 0 <= n.
Proof. intros H. apply (parse_money_range raw n H). Qed.

Lemma round_records_forall (P : ClueRecord -> Prop) (round_table : Tag) :
  (forall categories col_idx cell, Forall P (cell_records categories col_idx cell)) ->
  Forall P (round_records round_table).
Proof.
  intros Hcell. unfold round_records.
  induction (tl (select Sel.tr round_table)) as [|tr trs IH]; [constructor|].
  cbn [flat_map]. apply Forall_app. split; [|exact IH].
  unfold row_records. generalize 0%nat.
  induction (select Sel.td_clue tr) as [|cell cells IHc]; intros i; [constructor|].
  cbn [cells_records]. apply Forall_app. split; [apply Hcell|apply IHc].
Qed.

Lemma cell_records_cases (categories : list string) (col_idx : nat) (cell : Tag) :
  cell_records categories col_idx cell = []
  \/ cell_records categories col_idx cell
     = [mk_clue (nth col_idx categories EmptyString) (cell_money cell)
                (cell_question cell) (cell_answer cell)].
Proof.
  unfold cell_records. destruct (select_one Sel.table cell); [|left; reflexivity].
  destruct (Py.truthy (cell_question cell) || Py.truthy (cell_answer cell)); auto.
Qed.

Lemma cell_money_ok (cell : Tag) :
  match cell_money cell with
  | Some n => 0 <=? n
  | None => true
  end = true.
Proof.
  unfold cell_money.
  destruct (parse_money _) as [[n|]|] eqn:E; try reflexivity.
  apply Z.leb_le, (parse_money_nonneg _ n E).
Qed.

Lemma text_or_blank_normal (el : option Tag) : normal_text (text_or_blank el) = true.
Proof. destruct el as [e|]; [apply squish_normal|reflexivity]. Qed.

Lemma extract_answer_normal (td : option Tag) : normal_text (extract_answer td) = true.
Proof. destruct td as [e|]; [apply text_or_blank_normal|reflexivity]. Qed.

Lemma round_categories_normal (round_table : Tag) (i : nat) :
  normal_text (nth i (round_categories round_table) EmptyString) = true.
Proof.
  rewrite round_categories_map.
  destruct (nth_in_or_default i
              (map (fun cat => text_or_blank (select_one Sel.category_name cat))
                   (select Sel.category_cells round_table)) EmptyString) as [Hin| ->];
    [|reflexivity].
  apply in_map_iff in Hin as (cat & <- & _). apply text_or_blank_normal.
Qed.

Lemma round_of_forall (P : ClueRecord -> Prop) (sel : selector) (soup : Tag) :
  (forall round_table, Forall P (round_records round_table)) ->
  Forall P (round_of sel soup).
Proof.
  intros H. unfold round_of. destruct (select_one sel soup); [apply H|constructor].
Qed.

(** The orchestrator returns the rows of the first round, of the second
    round and of the final round, in this order. *)
Lemma scrape_game_from_soup_eq (soup : Tag) :
  scrape_game_from_soup soup
  = Ok (round_of Sel.jeopardy_round soup
        ++ round_of Sel.double_jeopardy_round soup
        ++ parse_final soup).
Proof.
  unfold scrape_game_from_soup, round_of.
  destruct (select_one Sel.jeopardy_round soup) as [j|];
    destruct (select_one Sel.double_jeopardy_round soup) as [dj|];
    rewrite ?parse_round_eq; cbn [mbind exn_bind app];
    rewrite ?app_assoc; reflexivity.
Qed.

Lemma parse_final_cases (soup : Tag) :
  parse_final soup = []
  \/ exists final_tbl,
       parse_final soup
       = [mk_clue (text_or_blank (select_one Sel.category_name final_tbl)) None
                  (text_or_blank (select_one Sel.clue_FJ final_tbl))
                  (extract_answer (select_one Sel.clue_FJ_r final_tbl))].
Proof.
  unfold parse_final. destruct (select_one Sel.final_round soup) as [t|]; [|auto].
  destruct (Py.truthy _ || Py.truthy _); [right; exists t; reflexivity|auto].
Qed.

Lemma existsb_weaken {A : Type} (f g : A -> bool) (l : list A) :
  (forall x, f x = true -> g x = true) ->
  List.existsb g l = false -> List.existsb f l = false.
Proof.
  intros Hfg. induction l as [|x l IH]; [reflexivity|].
  cbn [List.existsb]. intros H. apply orb_false_elim in H as [Hx Hl].
  rewrite (IH Hl), orb_false_r.
  destruct (f x) eqn:E; [|reflexivity]. apply Hfg in E. congruence.
Qed.

Lemma select_one_table (c : compound) (x : complex) (soup : Tag) :
  sel_name c = Some "table" ->
  x = Compound c \/ (exists anc, x = Descendant anc c) ->
  has_table soup = false ->
  select_one [x] soup = None.
Proof.
  intros Hc Hx Hno. unfold select_one, select. apply head_filter_none.
  revert Hno. unfold has_table. apply existsb_weaken.
  intros t Ht. unfold matches in Ht. cbn [List.existsb] in Ht.
  rewrite orb_false_r in Ht.
  assert (Hm : matches_compound c (tag_attrs t) = true).
  { destruct Hx as [->|[anc ->]]; cbn [matches_complex] in Ht; [exact Ht|].
    apply andb_prop in Ht as [Ht _]. exact Ht. }
  unfold matches_compound in Hm. rewrite Hc in Hm. cbn [opt_matches] in Hm.
  apply andb_prop in Hm as [Hm _]. apply andb_prop in Hm as [Hm _]. exact Hm.
Qed.

End RecordFacts.

(** X13. [scrape_game_from_soup] never raises and returns the rows of the
    first round table, then those of the second, then the final-round row;
    a round that is not in the document contributes nothing. *)
Theorem scrape_in_round_order (soup : Tag) :
  scrape_game_from_soup soup
  = Ok (round_of Sel.jeopardy_round soup
        ++ round_of Sel.double_jeopardy_round soup
        ++ parse_final soup)
  /\ (length (parse_final soup) <= 1)%nat.
Proof.
  split; [apply scrape_game_from_soup_eq|].
  destruct (parse_final_cases soup) as [->|[t ->]]; simpl; lia.
Qed.

(** X14. The money of every scraped row is absent or a number that is not
    negative. *)
Theorem scraped_money_ok (soup : Tag) :
  exists rows,
    scrape_game_from_soup soup = Ok rows
    /\ Forall (fun r => money_ok r = true) rows.
Proof.
  eexists. split; [apply scrape_game_from_soup_eq|].
  assert (Hround : forall t, Forall (fun r => money_ok r = true) (round_records t)).
  { intros t. apply round_records_forall. intros categories col_idx cell.
    destruct (cell_records_cases categories col_idx cell) as [->| ->];
      constructor; [apply cell_money_ok|constructor]. }
  repeat (apply Forall_app; split); try (apply round_of_forall, Hround).
  destruct (parse_final_cases soup) as [->|[t ->]]; repeat constructor.
Qed.

(** X15. The topic, the question and the answer of every scraped row are in
    the normal form of [squish]: single spaces only, none leading, none
    trailing. *)
Theorem scraped_texts_normal (soup : Tag) :
  exists rows,
    scrape_game_from_soup soup = Ok rows
    /\ Forall (fun r => texts_normal r = true) rows.
Proof.
  eexists. split; [apply scrape_game_from_soup_eq|].
  assert (Hround : forall t, Forall (fun r => texts_normal r = true) (round_records t)).
  { intros t. unfold round_records.
    induction (tl (select Sel.tr t)) as [|tr trs IH]; [constructor|].
    cbn [flat_map]. apply Forall_app. split; [|exact IH].
    unfold row_records. generalize 0%nat.
    induction (select Sel.td_clue tr) as [|cell cells IHc]; intros i; [constructor|].
    cbn [cells_records]. apply Forall_app. split; [|apply IHc].
    destruct (cell_records_cases (round_categories t) i cell) as [->| ->];
      constructor; [|constructor].
    unfold texts_normal, cell_question, cell_answer. cbn [topic question answer].
    rewrite round_categories_normal, text_or_blank_normal, extract_answer_normal.
    reflexivity. }
  repeat (apply Forall_app; split); try (apply round_of_forall, Hround).
  destruct (parse_final_cases soup) as [->|[t ->]]; constructor; [|constructor].
  unfold texts_normal. cbn [topic question answer].
  rewrite !text_or_blank_normal, extract_answer_normal. reflexivity.
Qed.

(** X16. The topic of every row of [parse_round] is empty or one of the
    category labels of the table. *)
Theorem round_topics_among_categories (round_table : Tag) (round_prefix : string) :
  exists rows,
    parse_round round_table round_prefix = Ok rows
    /\ Forall (fun r => topic_among (round_categories round_table) r = true) rows.
Proof.
  eexists. split; [apply parse_round_eq|].
  unfold round_records.
  induction (tl (select Sel.tr round_table)) as [|tr trs IH]; [constructor|].
  cbn [flat_map]. apply Forall_app. split; [|exact IH].
  unfold row_records. generalize 0%nat.
  induction (select Sel.td_clue tr) as [|cell cells IHc]; intros i; [constructor|].
  cbn [cells_records]. apply Forall_app. split; [|apply IHc].
  destruct (cell_records_cases (round_categories round_table) i cell) as [->| ->];
    constructor; [|constructor].
  unfold topic_among. cbn [topic].
  destruct (nth_in_or_default i (round_categories round_table) EmptyString)
    as [Hin| ->]; [|reflexivity].
  apply orb_true_iff. right. apply existsb_exists.
  eexists. split; [exact Hin|apply String.eqb_refl].
Qed.

(** X17. A document without a table element yields no row. *)
Theorem scrape_without_table (soup : Tag) :
  has_table soup = false -> scrape_game_from_soup soup = Ok [].
Proof.
  intros Hno. rewrite scrape_game_from_soup_eq.
  unfold round_of, parse_final, Sel.jeopardy_round, Sel.double_jeopardy_round,
    Sel.final_round.
  rewrite (select_one_table (name_class "table" "round") _ soup eq_refl
             (or_intror (ex_intro _ _ eq_refl)) Hno).
  rewrite (select_one_table (name_class "table" "round") _ soup eq_refl
             (or_intror (ex_intro _ _ eq_refl)) Hno).
  rewrite (select_one_table (name_class "table" "final_round") _ soup eq_refl
             (or_introl eq_refl) Hno).
  reflexivity.
Qed.

Lemma scrape_without_table_witness : scrape_game_from_soup Sample.aired_soup = Ok [].
Proof. apply scrape_without_table. reflexivity. Defined.

(** ** Properties of the table writer *)

Section CsvFacts.

#[local] Set Warnings "-clear-no-such-hyp".

Lemma special_false (c : ascii) :
  Csv.special c = false ->
  Ascii.eqb c "," = false /\ Ascii.eqb c Csv.dquote = false
  /\ CsvReader.is_eol c = false.
Proof.
  unfold Csv.special, CsvReader.is_eol. intros H.
  apply orb_false_elim in H as [H H4]. apply orb_false_elim in H as [H H3].
  apply orb_false_elim in H as [H1 H2]. rewrite H1, H2, H3, H4. auto.
Qed.

Lemma read_unquoted (f : string) :
  Py.existsb Csv.special f = false ->
  forall (fld : string) (rec : list string) (t : string),
  CsvReader.read_from CsvReader.Unquoted fld rec (f +:+ t)
  = CsvReader.read_from CsvReader.Unquoted (fld +:+ f) rec t.
Proof.
  induction f as [|c f IH]; intros H fld rec t.
  - rewrite append_nil_r. reflexivity.
  - cbn [Py.existsb] in H. apply orb_false_elim in H as [Hc Hf].
    apply special_false in Hc as (H1 & H2 & H3).
    rewrite append_cons. cbn [CsvReader.read_from]. rewrite H1, H3.
    rewrite (IH Hf), append_assoc. reflexivity.
Qed.

Lemma read_quoted (f : string) :
  forall (fld : string) (rec : list string) (t : string),
  CsvReader.read_from CsvReader.Quoted fld rec
    (Csv.double_quotes f +:+ String Csv.dquote t)
  = CsvReader.read_from CsvReader.QuoteSeen (fld +:+ f) rec t.
Proof.
  induction f as [|c f IH]; intros fld rec t.
  - rewrite append_nil_r. reflexivity.
  - cbn [Csv.double_quotes]. destruct (Ascii.eqb c Csv.dquote) eqn:Hc.
    + apply Ascii.eqb_eq in Hc. subst c.
      rewrite !append_cons. cbn [CsvReader.read_from].
      change (Ascii.eqb Csv.dquote Csv.dquote) with true. cbv iota.
      rewrite IH, append_assoc. reflexivity.
    + rewrite append_cons. cbn [CsvReader.read_from]. rewrite Hc.
      rewrite IH, append_assoc. reflexivity.
Qed.

Lemma read_field (b : bool) (f : string) (rec : list string) (t : string)
      (out : list (list string)) :
  ((forall t', t <> String "," t') -> rec = [] -> f = EmptyString -> b = true) ->
  field_end t rec f out ->
  CsvReader.read_from (CsvReader.Field false) EmptyString rec (Csv.write_field b f +:+ t)
  = out.
Proof.
  intros Hb Hend. unfold Csv.write_field.
  destruct (Py.existsb Csv.special f || b && negb (Py.truthy f)) eqn:Hq.
  - rewrite append_cons. cbn [CsvReader.read_from andb].
    change (Ascii.eqb Csv.dquote Csv.dquote) with true. cbv iota.
    rewrite append_assoc, append_cons, append_nil_l, read_quoted, append_nil_l.
    destruct Hend; reflexivity.
  - apply orb_false_elim in Hq as [Hs Hq].
    destruct f as [|c f].
    + rewrite append_nil_l. inversion Hend; subst; [reflexivity|].
      destruct rec as [|x rec]; [|reflexivity].
      rewrite Hb in Hq by (discriminate || reflexivity). discriminate Hq.
    + cbn [Py.existsb] in Hs. apply orb_false_elim in Hs as [Hc Hf].
      apply special_false in Hc as (H1 & H2 & H3).
      rewrite append_cons. cbn [CsvReader.read_from andb]. rewrite H1, H2, H3.
      rewrite (read_unquoted f Hf).
      change (String c EmptyString +:+ f) with (String c f).
      destruct Hend; reflexivity.
Qed.

Lemma read_fields (b : bool) (fields : list string) :
  fields <> [] ->
  forall (rec : list string) (t : string),
  (rec = [] -> fields = [EmptyString] -> b = true) ->
  CsvReader.read_from (CsvReader.Field false) EmptyString rec
    (Py.join "," (map (Csv.write_field b) fields)
     +:+ String Csv.CR (String Csv.LF t))
  = (rec ++ fields)
    :: CsvReader.read_from (CsvReader.Field false) EmptyString [] t.
Proof.
  induction fields as [|f fields IH]; [congruence|]. intros _ rec t Hb.
  destruct fields as [|g fields].
  - cbn [map Py.join]. apply read_field; [|constructor].
    intros _ -> ->. exact (Hb eq_refl eq_refl).
  - change (Py.join "," (map (Csv.write_field b) (f :: g :: fields)))
      with (Csv.write_field b f +:+ "," +:+ Py.join "," (map (Csv.write_field b) (g :: fields))).
    rewrite !append_assoc, (append_cons "," EmptyString), append_nil_l.
    rewrite (read_field b f rec _ _ (fun Hne => False_ind _ (Hne _ eq_refl))
                        (end_comma f rec _)).
    rewrite IH; [|discriminate|intros Hr; destruct rec; discriminate Hr].
    rewrite <- app_assoc. reflexivity.
Qed.

(** The rows the writer puts out read back as they went in. *)
Lemma read_writerow (fields : list string) (t : string) :
  fields <> [] ->
  CsvReader.read_from (CsvReader.Field false) EmptyString [] (Csv.writerow fields +:+ t)
  = fields :: CsvReader.read_from (CsvReader.Field false) EmptyString [] t.
Proof.
  intros H. unfold Csv.writerow. rewrite append_assoc, !append_cons, append_nil_l.
  apply (read_fields _ fields H []). intros _ ->. reflexivity.
Qed.

Lemma read_records (recs : list (list string)) :
  Forall (fun fields => fields <> []) recs ->
  CsvReader.read (concat_text (map Csv.writerow recs)) = recs.
Proof.
  unfold CsvReader.read. induction 1 as [|fields recs Hf _ IH]; [reflexivity|].
  cbn [map concat_text]. rewrite read_writerow, IH by exact Hf. reflexivity.
Qed.

Lemma write_csv_row_eq (io : file_io) (metadata : gmap string string)
      (written : string) (r : ClueRecord) :
  (forall w c, write io w c = Ok tt) ->
  money_fits r = true ->
  write_csv_row io metadata written r
  = Ok (written +:+ Csv.writerow (csv_fields metadata r)).
Proof.
  intros Hw Hr. unfold write_csv_row, write_line, Csv.DictWriter_writerow.
  rewrite bool_decide_eq_true_2.
  - unfold csv_fields. cbn [fieldnames map].
    repeat (rewrite lookup_insert_eq || rewrite lookup_insert_ne by discriminate).
    unfold money_fits in Hr.
    destruct (money r) as [n|];
      cbn [default from_option Datatypes.id Csv.cell_texts Csv.cell_text mbind exn_bind];
      [rewrite str_fits by (apply Z.ltb_lt, Hr); cbn [mbind exn_bind]|];
      rewrite Hw; reflexivity.
  - rewrite !dom_insert_L, dom_empty_L. cbn [fieldnames list_to_set]. set_solver.
Qed.

Lemma write_csv_rows (io : file_io) (metadata : gmap string string)
      (rows : list ClueRecord) :
  (forall w c, write io w c = Ok tt) ->
  Forall (fun r => money_fits r = true) rows ->
  forall written : string,
  for_each (write_csv_row io metadata) rows written
  = Ok (written +:+ concat_text (map Csv.writerow (map (csv_fields metadata) rows))).
Proof.
  intros Hw. induction 1 as [|r rows Hr _ IH]; intros written.
  - cbn. rewrite append_nil_r. reflexivity.
  - cbn [for_each map concat_text]. rewrite (write_csv_row_eq _ _ _ _ Hw Hr).
    cbn [mbind exn_bind]. rewrite IH, append_assoc. reflexivity.
Qed.

(** With working file operations and amounts within the limit, the text
    written reads back as the header and the rows. *)
Lemma write_csv_ok (io : file_io) (rows : list ClueRecord) (path : string)
      (metadata : gmap string string) :
  open_w io path = Ok tt ->
  (forall written text, write io written text = Ok tt) ->
  close io = Ok tt ->
  Forall (fun r => money_fits r = true) rows ->
  exists text,
    write_csv io rows path metadata = Ok text
    /\ CsvReader.read text = fieldnames :: map (csv_fields metadata) rows.
Proof.
  intros Ho Hw Hc Hrows. eexists. split.
  - unfold write_csv, write_line, Csv.DictWriter_writeheader.
    rewrite Ho. cbn [mbind exn_bind]. rewrite Hw. cbn [mbind exn_bind].
    rewrite (write_csv_rows _ _ _ Hw Hrows). unfold with_close.
    rewrite Hc. reflexivity.
  - rewrite append_nil_l.
    change (Csv.writerow fieldnames
            +:+ concat_text (map Csv.writerow (map (csv_fields metadata) rows)))
      with (concat_text (map Csv.writerow (fieldnames :: map (csv_fields metadata) rows))).
    apply read_records. constructor; [discriminate|].
    apply Forall_map. apply Forall_forall. intros r _. discriminate.
Qed.

(** The amount of a cell is absent or within the limit of [str]. *)
Lemma cell_money_fits (cell : Tag) :
  match cell_money cell with
  | Some n => Z.abs n <? 10 ^ Py.int_max_str_digits
  | None => true
  end = true.
Proof.
  unfold cell_money.
  destruct (parse_money _) as [[n|]|] eqn:E; try reflexivity.
  apply parse_money_range in E. apply Z.ltb_lt. rewrite Z.abs_eq; lia.
Qed.

Lemma scraped_rows_fit (soup : Tag) :
  Forall (fun r => money_fits r = true)
         (round_of Sel.jeopardy_round soup
          ++ round_of Sel.double_jeopardy_round soup
          ++ parse_final soup).
Proof.
  assert (Hround : forall t, Forall (fun r => money_fits r = true) (round_records t)).
  { intros t. apply round_records_forall. intros categories col_idx cell.
    destruct (cell_records_cases categories col_idx cell) as [->| ->];
      constructor; [apply cell_money_fits|constructor]. }
  repeat (apply Forall_app; split); try (apply round_of_forall, Hround).
  destruct (parse_final_cases soup) as [->|[t ->]]; repeat constructor.
Qed.

End CsvFacts.

(** X18. When the file can be opened, written and closed and no amount has
    more than 4300 digits, [write_csv] writes a text that reads back, record
    by record, as the header followed by one record of seven fields for each
    row: the three metadata values, the topic, the money (empty when
    absent), the question and the answer, whatever characters they hold. *)
Theorem write_csv_reads_back (io : file_io) (rows : list ClueRecord) (path : string)
        (metadata : gmap string string) :
  open_w io path = Ok tt ->
  (forall written text, write io written text = Ok tt) ->
  close io = Ok tt ->
  Forall (fun r => money_fits r = true) rows ->
  exists text,
    write_csv io rows path metadata = Ok text
    /\ CsvReader.read text = fieldnames :: map (csv_fields metadata) rows.
Proof. apply write_csv_ok. Qed.

Lemma write_csv_reads_back_witness :
  exists text,
    write_csv working_io Sample.two_rows "clues.csv" ∅ = Ok text
    /\ CsvReader.read text = fieldnames :: map (csv_fields ∅) Sample.two_rows.
Proof.
  apply write_csv_reads_back; try reflexivity.
  repeat constructor.
Defined.

(** X19. An amount that is not negative and has at most 4300 digits goes
    into the money column as a run of digits, written without quotes, which
    [int] and [parse_money] read back as the same amount. *)
Theorem money_column_round_trip (n : Z) :
  0 <= n < 10 ^ Py.int_max_str_digits ->
  exists text,
    Py.str n = Ok text
    /\ Py.forallb Py.isdigit text = true
    /\ Csv.write_field false text = text
    /\ Py.int text = Ok n
    /\ parse_money (Some text) = Ok (Some n).
Proof.
  intros Hn. exists (Py.decimal n).
  assert (Es : Py.str n = Ok (Py.decimal n)).
  { rewrite str_fits by lia. unfold int_text.
    destruct (Z.ltb_spec n 0); [lia|reflexivity]. }
  pose proof (decimal_within_limit n Hn) as Hlen.
  destruct (decimal_spec n (proj1 Hn)) as (c & r & E & Hc & Hr & Hv).
  rewrite E in *.
  assert (Hall : Py.forallb Py.isdigit (String c r) = true).
  { cbn [Py.forallb]. rewrite Hc. exact Hr. }
  assert (Hint : Py.int (String c r) = Ok n).
  { rewrite (int_of_digits c r Hc Hr), Hlen, Hv. reflexivity. }
  repeat split; [exact Es|exact Hall| |exact Hint|].
  - unfold Csv.write_field. rewrite (digits_not_special _ Hall). reflexivity.
  - assert (Hg : is_money_group (String c r) = true).
    { cbn [is_money_group]. rewrite Hc.
      apply (forallb_weaken Py.isdigit); [|exact Hr].
      intros x Hx. unfold digit_or_comma. rewrite Hx. reflexivity. }
    pose proof (findall_group (String c r) EmptyString Hg eq_refl eq_refl) as Hf.
    rewrite append_nil_r in Hf.
    unfold parse_money. rewrite (parse_money_of_findall _ _ [] _ Hf).
    rewrite (remove_comma_of_digits _ Hall), Hint. reflexivity.
Qed.

Lemma money_column_round_trip_witness :
  exists text,
    Py.str 1800 = Ok text
    /\ Py.forallb Py.isdigit text = true
    /\ Csv.write_field false text = text
    /\ Py.int text = Ok 1800
    /\ parse_money (Some text) = Ok (Some 1800).
Proof.
  apply money_column_round_trip. split; [lia|vm_compute; reflexivity].
Defined.

(** X20. The rows scraped from a document, whatever it holds, can be
    written: their amounts are within the limit of [str], so that with
    working file operations [write_csv] raises nothing and its text reads
    back as the header and the rows. *)
Theorem scraped_rows_written (io : file_io) (soup : Tag) (path : string)
        (metadata : gmap string string) :
  open_w io path = Ok tt ->
  (forall written text, write io written text = Ok tt) ->
  close io = Ok tt ->
  exists rows text,
    scrape_game_from_soup soup = Ok rows
    /\ Forall (fun r => money_fits r = true) rows
    /\ write_csv io rows path metadata = Ok text
    /\ CsvReader.read text = fieldnames :: map (csv_fields metadata) rows.
Proof.
  intros Ho Hw Hc.
  pose proof (scraped_rows_fit soup) as Hfit.
  destruct (write_csv_ok io _ path metadata Ho Hw Hc Hfit) as (text & E & Hr).
  eexists. exists text. split; [apply scrape_game_from_soup_eq|].
  repeat split; assumption.
Qed.

Lemma scraped_rows_written_witness :
  exists rows text,
    scrape_game_from_soup Sample.minimal_soup = Ok rows
    /\ Forall (fun r => money_fits r = true) rows
    /\ write_csv working_io rows "clues.csv" ∅ = Ok text
    /\ CsvReader.read text = fieldnames :: map (csv_fields ∅) rows.
Proof. apply scraped_rows_written; reflexivity. Defined.
